(** * Talkyo helper scripts: fixture generator and model exporter

    A shallow embedding of [generate_test_audio.py] and [convert_model.py].
    Both scripts are straight-line sequences of library calls, so the
    embedding is a state-and-exception monad over an explicit world:
    the process environment, the remote service, the file tree and the
    trace of externally visible effects. *)

From Stdlib Require Import Ascii String.
From stdpp Require Import base numbers strings list gmap pretty.

Open Scope Z_scope.

#[local] Set Warnings "-register-all".

(** ** Python runtime: exceptions, results, the effect monad *)

Module Py.

(** The exception classes that can occur in the two scripts. *)
Inductive exn_class :=
  | BaseException | Exception | SystemExit | KeyboardInterrupt
  | OSError | FileExistsError | FileNotFoundError
  | IsADirectoryError | NotADirectoryError | PermissionError
  | ImportError | ModuleNotFoundError
  | RuntimeError | ValueError
  | RequestException | HTTPError | ConnectionError | Timeout.

#[global] Instance exn_class_eq_dec : EqDecision exn_class.
Proof. solve_decision. Defined.

(** [mro c] is the method resolution order of [c]: the class and its
    ancestors.  [requests.exceptions.RequestException] derives from
    [IOError], which is [OSError]. *)
Definition mro (c : exn_class) : list exn_class :=
  match c with
  | BaseException => [BaseException]
  | Exception => [Exception; BaseException]
  | SystemExit => [SystemExit; BaseException]
  | KeyboardInterrupt => [KeyboardInterrupt; BaseException]
  | OSError => [OSError; Exception; BaseException]
  | FileExistsError => [FileExistsError; OSError; Exception; BaseException]
  | FileNotFoundError => [FileNotFoundError; OSError; Exception; BaseException]
  | IsADirectoryError => [IsADirectoryError; OSError; Exception; BaseException]
  | NotADirectoryError => [NotADirectoryError; OSError; Exception; BaseException]
  | PermissionError => [PermissionError; OSError; Exception; BaseException]
  | ImportError => [ImportError; Exception; BaseException]
  | ModuleNotFoundError => [ModuleNotFoundError; ImportError; Exception; BaseException]
  | RuntimeError => [RuntimeError; Exception; BaseException]
  | ValueError => [ValueError; Exception; BaseException]
  | RequestException => [RequestException; OSError; Exception; BaseException]
  | HTTPError => [HTTPError; RequestException; OSError; Exception; BaseException]
  | ConnectionError => [ConnectionError; RequestException; OSError; Exception; BaseException]
  | Timeout => [Timeout; RequestException; OSError; Exception; BaseException]
  end.

Definition issubclass (c d : exn_class) : bool := bool_decide (d ∈ mro c).

(** A raised exception: an instance of a class with its message, or the
    [SystemExit] raised by [exit(code)]. *)
Inductive exn :=
  | Exn (cls : exn_class) (msg : string)
  | Exit (code : Z).

Definition class_of (e : exn) : exn_class :=
  match e with
  | Exn c _ => c
  | Exit _ => SystemExit
  end.

Definition isinstance (e : exn) (c : exn_class) : bool := issubclass (class_of e) c.

(** [str(e)] *)
Definition exn_str (e : exn) : string :=
  match e with
  | Exn _ msg => msg
  | Exit code => pretty code
  end.

Inductive Result (A : Type) :=
  | Ok (a : A)
  | Raise (e : exn).
Arguments Ok {A} a.
Arguments Raise {A} e.

(** A computation over a world [W]: it returns or raises, and leaves a
    world behind in both cases. *)
Definition M (W A : Type) : Type := W → Result A * W.

#[global] Instance M_ret {W} : MRet (M W) := λ A a w, (Ok a, w).

#[global] Instance M_bind {W} : MBind (M W) := λ A B f m w,
  match m w with
  | (Ok a, w') => f a w'
  | (Raise e, w') => (Raise e, w')
  end.

Definition raise {W A} (e : exn) : M W A := λ w, (Raise e, w).

Definition get {W} : M W W := λ w, (Ok w, w).

Definition modify {W} (f : W → W) : M W () := λ w, (Ok (), f w).

(** [try: body except c1 as e: h1 e except c2 as e: h2 e ...]: the first
    clause whose class the exception is an instance of handles it; with no
    such clause the exception propagates. *)
Fixpoint dispatch {W A} (handlers : list (exn_class * (exn → M W A))) (e : exn) : M W A :=
  match handlers with
  | [] => raise e
  | (c, h) :: rest => if isinstance e c then h e else dispatch rest e
  end.

Definition try_except {W A} (body : M W A)
    (handlers : list (exn_class * (exn → M W A))) : M W A := λ w,
  match body w with
  | (Ok a, w') => (Ok a, w')
  | (Raise e, w') => dispatch handlers e w'
  end.

(** [for x in xs: body], with the local variables the body updates
    threaded through as [s]. *)
Fixpoint for_each {W A S} (xs : list A) (body : A → S → M W S) (s : S) : M W S :=
  match xs with
  | [] => mret s
  | x :: rest => s' ← body x s; for_each rest body s'
  end.

(** [exit(code)] raises [SystemExit]. *)
Definition py_exit {W A} (code : Z) : M W A := raise (Exit code).

(** The return code of the interpreter process, as the parent sees it
    (the [returncode] of [subprocess]): 0 when the script runs off its
    end, the code of a [SystemExit], and 1 for another exception that
    nothing caught, with one exception.  A [KeyboardInterrupt] that
    nothing caught makes the interpreter end the process by the signal
    SIGINT, number 2, and the return code of a process a signal ended is
    the negated number of the signal. *)
Definition exit_status {A} (r : Result A) : Z :=
  match r with
  | Ok _ => 0
  | Raise (Exit code) => code
  | Raise (Exn cls _) => if issubclass cls KeyboardInterrupt then -2 else 1
  end.

End Py.

Import Py.

(** ** The file tree: [pathlib] and [open] *)

Module Fs.

(** The file tree is a map from the paths that exist to their nodes.
    Permissions, links and the space on the disk are not in the model:
    [mkdir] and [open] fail for a missing parent and for a file or a
    directory in the way, and for nothing else.  No theorem asks the map
    to be closed under parents: the ones that hold of every map hold of
    every tree.

    A relative [pathlib.Path]: the working directory, or a parent with a
    name below it. *)
Inductive Path :=
  | Here
  | Child (parent : Path) (name : string).

Declare Scope path_scope.
Delimit Scope path_scope with path.
Bind Scope path_scope with Path.
Infix "/" := Child : path_scope.

#[global] Instance Path_eq_dec : EqDecision Path.
Proof. solve_decision. Defined.

Fixpoint parts_rev (p : Path) : list string :=
  match p with
  | Here => []
  | Child q n => n :: parts_rev q
  end.

Fixpoint of_parts_rev (l : list string) : Path :=
  match l with
  | [] => Here
  | n :: l' => Child (of_parts_rev l') n
  end.

#[global] Program Instance Path_countable : Countable Path :=
  inj_countable' parts_rev of_parts_rev _.
Next Obligation. intros p. induction p as [|q IH n]; simpl; congruence. Qed.

(** [str(path)] *)
Fixpoint path_str (p : Path) : string :=
  match p with
  | Here => "."
  | Child Here n => n
  | Child q n => path_str q +:+ "/" +:+ n
  end.

Inductive node :=
  | Dir
  | File (content : string).

(** The tree maps every path below the working directory that exists to
    its node; the working directory itself always exists. *)
Definition node_at (t : gmap Path node) (p : Path) : option node :=
  match p with
  | Here => Some Dir
  | Child _ _ => t !! p
  end.

Definition errno_msg (what : string) (p : Path) : string :=
  what +:+ ": '" +:+ path_str p +:+ "'".

(** [os.mkdir(p)]: the parent is resolved first, then the name must be
    free. *)
Definition os_mkdir (p : Path) : M (gmap Path node) () := λ t,
  match p with
  | Here => (Raise (Exn FileExistsError (errno_msg "[Errno 17] File exists" p)), t)
  | Child q _ =>
      match node_at t q with
      | None => (Raise (Exn FileNotFoundError (errno_msg "[Errno 2] No such file or directory" p)), t)
      | Some (File _) => (Raise (Exn NotADirectoryError (errno_msg "[Errno 20] Not a directory" p)), t)
      | Some Dir =>
          match t !! p with
          | Some _ => (Raise (Exn FileExistsError (errno_msg "[Errno 17] File exists" p)), t)
          | None => (Ok (), <[p := Dir]> t)
          end
      end
  end.

(** [p.is_dir()] *)
Definition is_dir (p : Path) : M (gmap Path node) bool := λ t,
  (Ok (match node_at t p with Some Dir => true | _ => false end), t).

(** [p.mkdir(parents=False, exist_ok=exist_ok)]: the call [Path.mkdir]
    makes on itself once the parents exist. *)
Definition mkdir_leaf (self : Path) (exist_ok : bool) : M (gmap Path node) () :=
  try_except (os_mkdir self)
    [ (FileNotFoundError, λ e, raise e);
      (OSError, λ e, d ← is_dir self;
                     if negb exist_ok || negb d then raise e else mret ()) ].

(** [Path.mkdir(self, parents, exist_ok)] of pathlib: try [os.mkdir]; when
    the parent is missing and [parents] is set, make the parent (with
    [parents=True, exist_ok=True]) and then the path itself; any other
    [OSError] is forgiven when [exist_ok] is set and the path is a
    directory. *)
Fixpoint mkdir (self : Path) (parents exist_ok : bool) : M (gmap Path node) () :=
  try_except (os_mkdir self)
    [ (FileNotFoundError, λ e,
         match self with
         | Here => raise e
         | Child parent _ =>
             if negb parents then raise e
             else mkdir parent true true;; mkdir_leaf self exist_ok
         end);
      (OSError, λ e, d ← is_dir self;
                     if negb exist_ok || negb d then raise e else mret ()) ].

(** [open(p, 'w')] and [open(p, 'wb')]: create the file or truncate it. *)
Definition open_w (p : Path) : M (gmap Path node) Path := λ t,
  match p with
  | Here => (Raise (Exn IsADirectoryError (errno_msg "[Errno 21] Is a directory" p)), t)
  | Child q _ =>
      match node_at t q with
      | None => (Raise (Exn FileNotFoundError (errno_msg "[Errno 2] No such file or directory" p)), t)
      | Some (File _) => (Raise (Exn NotADirectoryError (errno_msg "[Errno 20] Not a directory" p)), t)
      | Some Dir =>
          match t !! p with
          | Some Dir => (Raise (Exn IsADirectoryError (errno_msg "[Errno 21] Is a directory" p)), t)
          | _ => (Ok p, <[p := File ""]> t)
          end
      end
  end.

(** [f.write(data)] on a handle opened for writing: the data goes to the
    end of the file. *)
Definition write (f : Path) (data : string) : M (gmap Path node) () := λ t,
  match t !! f with
  | Some (File c) => (Ok (), <[f := File (c +:+ data)]> t)
  | _ => (Raise (Exn ValueError "I/O operation on closed file."), t)
  end.

End Fs.

Import Fs.

(** ** The [json] encoder, as [json.dump(..., ensure_ascii=False, indent=2)] uses it *)

Module Json.

Inductive value :=
  | JNull
  | JBool (b : bool)
  | JInt (n : Z)
  | JStr (s : string)
  | JList (items : list value)
  | JDict (items : list (string * value)).

Definition dquote : string := String "034"%char EmptyString.
Definition newline : string := String "010"%char EmptyString.

Definition hex_digit (n : nat) : string :=
  match n with
  | 0 => "0" | 1 => "1" | 2 => "2" | 3 => "3" | 4 => "4" | 5 => "5"
  | 6 => "6" | 7 => "7" | 8 => "8" | 9 => "9" | 10 => "a" | 11 => "b"
  | 12 => "c" | 13 => "d" | 14 => "e" | _ => "f"
  end%nat.

(** The replacement [py_encode_basestring] makes for one character: only
    the quote, the backslash and the control characters below 0x20 are
    escaped; every other byte, so every byte of a non-ASCII character,
    is kept. *)
Definition escape_char (a : ascii) : string :=
  let n := nat_of_ascii a in
  if (n =? 34)%nat then "\" +:+ dquote
  else if (n =? 92)%nat then "\\"
  else if (n =? 8)%nat then "\b"
  else if (n =? 12)%nat then "\f"
  else if (n =? 10)%nat then "\n"
  else if (n =? 13)%nat then "\r"
  else if (n =? 9)%nat then "\t"
  else if (n <? 32)%nat then "\u00" +:+ hex_digit (n / 16) +:+ hex_digit (n mod 16)
  else String a EmptyString.

Fixpoint escape (s : string) : string :=
  match s with
  | EmptyString => EmptyString
  | String a rest => escape_char a +:+ escape rest
  end.

Definition encode_basestring (s : string) : string := dquote +:+ escape s +:+ dquote.

Fixpoint spaces (n : nat) : string :=
  match n with
  | O => EmptyString
  | S k => " " +:+ spaces k
  end.

Section Encode.
Variable indent : nat.

Definition newline_indent (level : nat) : string := newline +:+ spaces (indent * level).

(** [_iterencode] with an indent: containers open, put each item on a line
    of its own one level deeper, separated by a comma, and close on a line
    at their own level; empty containers are written closed. *)
Fixpoint iterencode (level : nat) (v : value) : string :=
  match v with
  | JNull => "null"
  | JBool true => "true"
  | JBool false => "false"
  | JInt n => pretty n
  | JStr s => encode_basestring s
  | JList [] => "[]"
  | JList (x :: xs) =>
      "[" +:+ newline_indent (S level) +:+ iterencode (S level) x
      +:+ (fix more (l : list value) : string :=
             match l with
             | [] => EmptyString
             | y :: l' => "," +:+ newline_indent (S level) +:+ iterencode (S level) y +:+ more l'
             end) xs
      +:+ newline_indent level +:+ "]"
  | JDict [] => "{}"
  | JDict ((k, x) :: xs) =>
      "{" +:+ newline_indent (S level) +:+ encode_basestring k +:+ ": " +:+ iterencode (S level) x
      +:+ (fix more (l : list (string * value)) : string :=
             match l with
             | [] => EmptyString
             | (k', y) :: l' =>
                 "," +:+ newline_indent (S level) +:+ encode_basestring k' +:+ ": "
                 +:+ iterencode (S level) y +:+ more l'
             end) xs
      +:+ newline_indent level +:+ "}"
  end.

End Encode.

(** [json.dumps(v, ensure_ascii=False, indent=indent)] *)
Definition dumps (indent : nat) (v : value) : string := iterencode indent 0 v.

(** [d[key]] on an encoded dictionary. *)
Definition get (key : string) (v : value) : option value :=
  match v with
  | JDict items => snd <$> List.find (λ kv, bool_decide (fst kv = key)) items
  | _ => None
  end.

Definition keys (v : value) : list string :=
  match v with
  | JDict items => fst <$> items
  | _ => []
  end.

End Json.

Import Json.

(** ** generate_test_audio.py *)

Module Generator.

(** A Python float literal, as mantissa times two to the exponent. *)
Record pyfloat := Float { mantissa : Z; exponent : Z }.

(** The body of the request: the dict literal [data]. *)
Record VoiceSettings := {
  stability : pyfloat;
  similarity_boost : pyfloat;
  style : pyfloat;
  use_speaker_boost : bool
}.

Record SynthData := {
  d_text : string;
  d_model_id : string;
  d_voice_settings : VoiceSettings
}.

Record Request := {
  url : string;
  json : SynthData;
  headers : list (string * string)
}.

Record Response := {
  status_code : Z;
  reason : string;
  resp_url : string;
  content : string
}.

(** What [requests.post] does with a request: it returns a response (of
    any status) or raises an exception of some class. *)
Inductive NetReply :=
  | Responds (r : Response)
  | Fails (cls : exn_class) (msg : string).

(** The effects a run has on the outside. *)
Inductive Event :=
  | EvPrint (line : string)
  | EvPost (req : Request) (reply : NetReply)
  | EvWrite (p : Path) (data : string).

(** The world of a run.  [remote n req] is what the service does with
    [req] when [n] requests went out before it. *)
Record World := {
  environ : gmap string string;
  remote : nat → Request → NetReply;
  fs : gmap Path node;
  trace : list Event
}.

(** A fresh process: nothing printed, requested or written yet. *)
Definition boot (env : gmap string string) (net : nat → Request → NetReply)
    (t : gmap Path node) : World :=
  {| environ := env; remote := net; fs := t; trace := [] |}.

Definition is_post (ev : Event) : bool :=
  match ev with EvPost _ _ => true | _ => false end.

Definition posts (tr : list Event) : list Event := List.filter is_post tr.

Definition set_trace (tr : list Event) (w : World) : World :=
  {| environ := environ w; remote := remote w; fs := fs w; trace := tr |}.

Definition set_fs (t : gmap Path node) (w : World) : World :=
  {| environ := environ w; remote := remote w; fs := t; trace := trace w |}.

Definition emit (ev : Event) : M World () :=
  modify (λ w, set_trace (trace w ++ [ev]) w).

(** A file-tree operation, run on the tree of the world. *)
Definition on_fs {A} (m : M (gmap Path node) A) : M World A := λ w,
  let '(r, t) := m (fs w) in (r, set_fs t w).

(** [print(line)] *)
Definition print (line : string) : M World () := emit (EvPrint line).

(** [os.getenv(name)] *)
Definition os_getenv (name : string) : M World (option string) := λ w,
  (Ok (environ w !! name), w).

(** Truth value of an optional string: [None] and the empty string are
    false. *)
Definition truthy (v : option string) : bool :=
  match v with
  | None => false
  | Some s => negb (bool_decide (s = EmptyString))
  end.

(** [with open(path, mode) as f: body f], for the write modes. *)
Definition with_open_w {A} (path : Path) (body : Path → M World A) : M World A :=
  f ← on_fs (open_w path); body f.

(** [f.write(data)] *)
Definition f_write (f : Path) (data : string) : M World () :=
  on_fs (Fs.write f data);; emit (EvWrite f data).

(** [json.dump(obj, f, ensure_ascii=False, indent=indent)] *)
Definition json_dump (obj : Json.value) (f : Path) (indent : nat) : M World () :=
  f_write f (Json.dumps indent obj).

(** [requests.post(url, json=data, headers=headers)] *)
Definition requests_post (u : string) (data : SynthData)
    (hs : list (string * string)) : M World Response := λ w,
  let req := {| url := u; json := data; headers := hs |} in
  let reply := remote w (length (posts (trace w))) req in
  let w' := set_trace (trace w ++ [EvPost req reply]) w in
  match reply with
  | Responds r => (Ok r, w')
  | Fails cls msg => (Raise (Exn cls msg), w')
  end.

(** [response.raise_for_status()] of requests: an [HTTPError] for a
    status from 400 to 599, nothing otherwise. *)
Definition raise_for_status {W} (r : Response) : M W () :=
  if (400 <=? status_code r) && (status_code r <? 500) then
    raise (Exn HTTPError (pretty (status_code r) +:+ " Client Error: " +:+ reason r
                          +:+ " for url: " +:+ resp_url r))
  else if (500 <=? status_code r) && (status_code r <? 600) then
    raise (Exn HTTPError (pretty (status_code r) +:+ " Server Error: " +:+ reason r
                          +:+ " for url: " +:+ resp_url r))
  else mret ().

Definition generate_audio_with_elevenlabs (text voice_id api_key : string)
    (output_path : Path) : M World bool :=
  let url := "https://api.elevenlabs.io/v1/text-to-speech/" +:+ voice_id in
  let headers := [ ("Accept", "audio/wav");
                   ("Content-Type", "application/json");
                   ("xi-api-key", api_key) ] in
  let data := {| d_text := text;
                 d_model_id := "eleven_multilingual_v2";
                 d_voice_settings := {| stability := Float 1 (-1);
                                        similarity_boost := Float 3 (-2);
                                        style := Float 0 0;
                                        use_speaker_boost := true |} |} in
  try_except
    (response ← requests_post url data headers;
     raise_for_status response;;
     with_open_w output_path (λ f, f_write f (content response));;
     print ("Generated audio: " +:+ path_str output_path);;
     mret true)
    [ (RequestException, λ e,
         print ("Failed to generate audio for '" +:+ text +:+ "': " +:+ exn_str e);;
         mret false) ].

Record Phrase := {
  text : string;
  filename : string;
  expected : string
}.

Definition test_phrases : list Phrase :=
  [ {| text := "こんにちは";
       filename := "konnichiwa.wav";
       expected := "こんにちは" |};
    {| text := "ありがとうございます";
       filename := "arigatou.wav";
       expected := "ありがとうございます" |};
    {| text := "さようなら";
       filename := "sayounara.wav";
       expected := "さようなら" |};
    {| text := "今日は良い天気ですね";
       filename := "weather.wav";
       expected := "今日は良い天気ですね" |};
    {| text := "図書館で本を読んでいます";
       filename := "library.wav";
       expected := "図書館で本を読んでいます" |} ].

(** [Path("TalkyoTests/TestAudio")] *)
Definition output_dir : Path := (Here / "TalkyoTests" / "TestAudio")%path.

Definition voice_id : string := "21m00Tcm4TlvDq8ikWAM".

Definition metadata_path : Path := (output_dir / "test_metadata.json")%path.

(** The dict literal [metadata], for the phrases of the run: one entry
    for each phrase of the list, then the audio parameters. *)
Definition metadata_entry (phrase : Phrase) : Json.value :=
  JDict [ ("filename", JStr (filename phrase));
          ("text", JStr (text phrase));
          ("expected_transcription", JStr (expected phrase)) ].

Definition metadata (phrases : list Phrase) : Json.value :=
  JDict
    [ ("test_audio_files", JList (metadata_entry <$> phrases));
      ("audio_format", JStr "wav");
      ("sample_rate", JInt 22050);
      ("channels", JInt 1);
      ("voice_model", JStr "eleven_multilingual_v2") ].

(** The body of the loop over the phrases: one synthesis, counted when it
    succeeds. *)
Definition loop_body (api_key : string) (phrase : Phrase) (success_count : Z) : M World Z :=
  let output_path := (output_dir / filename phrase)%path in
  ok ← generate_audio_with_elevenlabs (text phrase) voice_id api_key output_path;
  if ok : bool then mret (success_count + 1) else mret success_count.

Definition generate_all (api_key : string) (phrases : list Phrase) : M World Z :=
  for_each phrases (loop_body api_key) 0.

(** The body of [main], for the list bound to [test_phrases].  Past the
    credential check [api_key] is a string, the one [default] unwraps. *)
Definition main_with (test_phrases : list Phrase) : M World bool :=
  api_key ← os_getenv "ELEVENLABS_API_KEY";
  if negb (truthy api_key) then
    print "Error: ELEVENLABS_API_KEY environment variable not set";;
    mret false
  else
    on_fs (mkdir output_dir true true);;
    success_count ← generate_all (default EmptyString api_key) test_phrases;
    with_open_w metadata_path (λ f, json_dump (metadata test_phrases) f 2);;
    print (Json.newline +:+ "Generated " +:+ pretty success_count +:+ "/"
           +:+ pretty (Z.of_nat (length test_phrases)) +:+ " audio files");;
    print ("Metadata saved to: " +:+ path_str metadata_path);;
    mret (bool_decide (success_count = Z.of_nat (length test_phrases))).

Definition main : M World bool := main_with test_phrases.

(** The script run as a program: [success = main()], then
    [exit(0 if success else 1)]. *)
Definition script : M World () :=
  success ← main;
  py_exit (if success : bool then 0 else 1).

(** The exit status of the process started in [w]. *)
Definition exit_code (w : World) : Z := exit_status (fst (script w)).

End Generator.

(** ** convert_model.py *)

Module Exporter.

(** The values the script passes between the library calls, kept
    symbolic: what matters is which call produced them from what. *)
Inductive obj :=
  | Processor (name : string)
  | WhisperModel (name : string)
  | Encoder (model : obj)
  | InEvalMode (model : obj)
  | Randn (shape : list Z)
  | TracedModule (module example : obj)
  | MLModel (traced : obj) (input_shape : list Z) (input_name output_name : string)
      (convert_to target : string).

Inductive Event :=
  | EvPrint (line : string)
  | EvLoad (what name : string)
  | EvTrace (module example : obj)
  | EvConvert (traced : obj)
  | EvSave (model : obj) (p : Path).

(** The world of a run: the modules that can be imported, and for each
    library call that can fail the exception it raises, if any. *)
Record World := {
  installed : gset string;
  hub_processor : string → option exn;
  hub_model : string → option exn;
  jit_trace : obj → obj → option exn;
  ct_convert : obj → option exn;
  save_fails : obj → Path → option exn;
  fs : gmap Path node;
  trace : list Event
}.

Definition boot (mods : gset string) (hp hm : string → option exn)
    (jt : obj → obj → option exn) (cv : obj → option exn)
    (sv : obj → Path → option exn) (t : gmap Path node) : World :=
  {| installed := mods; hub_processor := hp; hub_model := hm; jit_trace := jt;
     ct_convert := cv; save_fails := sv; fs := t; trace := [] |}.

Definition set_trace (tr : list Event) (w : World) : World :=
  {| installed := installed w; hub_processor := hub_processor w;
     hub_model := hub_model w; jit_trace := jit_trace w;
     ct_convert := ct_convert w; save_fails := save_fails w;
     fs := fs w; trace := tr |}.

Definition set_fs (t : gmap Path node) (w : World) : World :=
  {| installed := installed w; hub_processor := hub_processor w;
     hub_model := hub_model w; jit_trace := jit_trace w;
     ct_convert := ct_convert w; save_fails := save_fails w;
     fs := t; trace := trace w |}.

Definition emit (ev : Event) : M World () :=
  modify (λ w, set_trace (trace w ++ [ev]) w).

Definition print (line : string) : M World () := emit (EvPrint line).

(** A library call that fails when the world says so. *)
Definition attempt {A} (failure : World → option exn) (result : A) : M World A := λ w,
  match failure w with
  | Some e => (Raise e, w)
  | None => (Ok result, w)
  end.

(** [import name] *)
Definition import_module (name : string) : M World () := λ w,
  if bool_decide (name ∈ installed w) then (Ok (), w)
  else (Raise (Exn ModuleNotFoundError ("No module named '" +:+ name +:+ "'")), w).

(** [WhisperProcessor.from_pretrained(name)] *)
Definition WhisperProcessor_from_pretrained (name : string) : M World obj :=
  emit (EvLoad "WhisperProcessor" name);;
  attempt (λ w, hub_processor w name) (Processor name).

(** [WhisperForConditionalGeneration.from_pretrained(name)] *)
Definition WhisperForConditionalGeneration_from_pretrained (name : string) : M World obj :=
  emit (EvLoad "WhisperForConditionalGeneration" name);;
  attempt (λ w, hub_model w name) (WhisperModel name).

(** [torch.jit.trace(module, example)] *)
Definition torch_jit_trace (module example : obj) : M World obj :=
  emit (EvTrace module example);;
  attempt (λ w, jit_trace w module example) (TracedModule module example).

(** [ct.convert(traced, inputs=[ct.TensorType(shape=shape, name=input_name)],
    outputs=[ct.TensorType(name=output_name)], convert_to=convert_to,
    minimum_deployment_target=target)] *)
Definition coremltools_convert (traced : obj) (shape : list Z)
    (input_name output_name convert_to target : string) : M World obj :=
  emit (EvConvert traced);;
  attempt (λ w, ct_convert w traced)
    (MLModel traced shape input_name output_name convert_to target).

(** [model.save(path)]: the package replaces whatever is at the path. *)
Definition mlmodel_save (model : obj) (p : Path) : M World () :=
  attempt (λ w, save_fails w model p) ();;
  modify (λ w, set_fs (<[p := Dir]> (fs w)) w);;
  emit (EvSave model p).

Definition download_and_convert : M World () :=
  print "Downloading Kotoba Whisper v2.2 model...";;
  let model_name := "kotoba-tech/kotoba-whisper-v2.2" in
  processor ← WhisperProcessor_from_pretrained model_name;
  model ← WhisperForConditionalGeneration_from_pretrained model_name;
  let model := InEvalMode model in (* model.eval() *)
  print "Model downloaded successfully!";;
  let example_input_features := Randn [1; 80; 3000] in (* torch.randn(1, 80, 3000) *)
  print "Converting encoder to Core ML...";;
  traced_encoder ← torch_jit_trace (Encoder model) example_input_features;
  encoder_model ← coremltools_convert traced_encoder [1; 80; 3000]
                    "input_features" "encoder_output" "mlprogram" "iOS15";
  mlmodel_save encoder_model (Here / "KotobaWhisperEncoder.mlpackage")%path;;
  print "Encoder saved as KotobaWhisperEncoder.mlpackage";;
  print (Json.newline +:+ "Conversion partially complete!");;
  print "Note: This is a simplified conversion. For production use, you'll need to:";;
  print "1. Implement proper audio preprocessing (log-mel spectrogram)";;
  print "2. Handle the full decoder with beam search";;
  print "3. Implement token-to-text conversion";;
  print (Json.newline +:+ "Alternatively, consider using WhisperKit for iOS:");;
  print "https://github.com/argmaxinc/WhisperKit".

(** The module run as a program, statement by statement: the imports at
    the top of the file, then the body of [if __name__ == "__main__"]. *)
Definition script : M World () :=
  import_module "coremltools";;
  import_module "torch";;
  import_module "transformers";;
  import_module "numpy";;
  try_except
    (import_module "coremltools";;
     import_module "transformers";;
     import_module "torch")
    [ (ImportError, λ e,
         print "Missing dependencies. Please install:";;
         print "pip install torch transformers coremltools";;
         py_exit 1) ];;
  download_and_convert.

Definition exit_code (w : World) : Z := exit_status (fst (script w)).

(** The work of the exporter: loading, tracing, converting, saving. *)
Definition is_work (ev : Event) : bool :=
  match ev with EvPrint _ => false | _ => true end.

Definition is_save (ev : Event) : bool :=
  match ev with EvSave _ _ => true | _ => false end.

End Exporter.

(** * The runs the properties speak of *)

Module ExporterRuns.
Import Exporter.

(** The error of importing a module that is not installed. *)
Definition no_module (name : string) : exn :=
  Exn ModuleNotFoundError ("No module named '" +:+ name +:+ "'").

Definition preflight_hint : list Event :=
  [ EvPrint "Missing dependencies. Please install:";
    EvPrint "pip install torch transformers coremltools" ].

Definition model_name : string := "kotoba-tech/kotoba-whisper-v2.2".

(** The trace of a run that stops at the first or at the second
    [from_pretrained] call. *)
Definition trace_until_processor : list Event :=
  [ EvPrint "Downloading Kotoba Whisper v2.2 model...";
    EvLoad "WhisperProcessor" model_name ].

Definition trace_until_model : list Event :=
  trace_until_processor ++ [ EvLoad "WhisperForConditionalGeneration" model_name ].

(** *** The pipeline of the exporter *)

Definition encoder_package : Path := (Here / "KotobaWhisperEncoder.mlpackage")%path.

(** The values the pipeline builds: the model in inference mode, the
    example input, the traced encoder and the converted model. *)
Definition eval_model : obj := InEvalMode (WhisperModel model_name).

Definition example_input : obj := Randn [1; 80; 3000].

Definition traced_encoder : obj := TracedModule (Encoder eval_model) example_input.

Definition exported_model : obj :=
  MLModel traced_encoder [1; 80; 3000] "input_features" "encoder_output" "mlprogram" "iOS15".

(** The trace of a run up to the call of [torch.jit.trace], up to the
    call of [ct.convert], and of a run to the end. *)
Definition trace_until_trace : list Event :=
  trace_until_model
  ++ [ EvPrint "Model downloaded successfully!";
       EvPrint "Converting encoder to Core ML...";
       EvTrace (Encoder eval_model) example_input ].

Definition trace_until_convert : list Event :=
  trace_until_trace ++ [ EvConvert traced_encoder ].

Definition closing_lines : list Event :=
  [ EvPrint "Encoder saved as KotobaWhisperEncoder.mlpackage";
    EvPrint (Json.newline +:+ "Conversion partially complete!");
    EvPrint "Note: This is a simplified conversion. For production use, you'll need to:";
    EvPrint "1. Implement proper audio preprocessing (log-mel spectrogram)";
    EvPrint "2. Handle the full decoder with beam search";
    EvPrint "3. Implement token-to-text conversion";
    EvPrint (Json.newline +:+ "Alternatively, consider using WhisperKit for iOS:");
    EvPrint "https://github.com/argmaxinc/WhisperKit" ].

Definition full_trace : list Event :=
  trace_until_convert ++ [ EvSave exported_model encoder_package ] ++ closing_lines.

(** The first library call of the pipeline that fails in a world, with
    its exception, and the trace the run has when it stops there. *)
Definition first_failure (w : World) : option exn :=
  match hub_processor w model_name with
  | Some e => Some e
  | None =>
      match hub_model w model_name with
      | Some e => Some e
      | None =>
          match jit_trace w (Encoder eval_model) example_input with
          | Some e => Some e
          | None =>
              match ct_convert w traced_encoder with
              | Some e => Some e
              | None => save_fails w exported_model encoder_package
              end
          end
      end
  end.

Definition trace_at_failure (w : World) : list Event :=
  match hub_processor w model_name with
  | Some _ => trace_until_processor
  | None =>
      match hub_model w model_name with
      | Some _ => trace_until_model
      | None =>
          match jit_trace w (Encoder eval_model) example_input with
          | Some _ => trace_until_trace
          | None => trace_until_convert
          end
      end
  end.

(** The modules the script imports, in the order of the imports. *)
Definition imports : list string := ["coremltools"; "torch"; "transformers"; "numpy"].

(** The first module of a list that is not installed. *)
Definition first_missing (mods : gset string) (names : list string) : option string :=
  List.find (λ name, negb (bool_decide (name ∈ mods))) names.

End ExporterRuns.

Module GeneratorRuns.
Import Generator.

(** *** Paths, requests and printed lines *)

Definition tests_dir : Path := (Here / "TalkyoTests")%path.

(** The audio file of a phrase. *)
Definition audio_path (phrase : Phrase) : Path := (output_dir / filename phrase)%path.

(** The request the per-phrase function sends for a text. *)
Definition synthesis_request (text voice_id api_key : string) : Request :=
  {| url := "https://api.elevenlabs.io/v1/text-to-speech/" +:+ voice_id;
     json := {| d_text := text;
                d_model_id := "eleven_multilingual_v2";
                d_voice_settings := {| stability := Float 1 (-1);
                                       similarity_boost := Float 3 (-2);
                                       style := Float 0 0;
                                       use_speaker_boost := true |} |};
     headers := [ ("Accept", "audio/wav");
                  ("Content-Type", "application/json");
                  ("xi-api-key", api_key) ] |}.

Definition failure_line (text : string) (e : exn) : string :=
  "Failed to generate audio for '" +:+ text +:+ "': " +:+ exn_str e.

Definition success_line (path : Path) : string :=
  "Generated audio: " +:+ path_str path.

Definition summary_line (success_count : Z) (phrases : list Phrase) : string :=
  Json.newline +:+ "Generated " +:+ pretty success_count +:+ "/"
  +:+ pretty (Z.of_nat (length phrases)) +:+ " audio files".

Definition saved_line : string := "Metadata saved to: " +:+ path_str metadata_path.

(** The trace of a run without a credential. *)
Definition credential_error : list Event :=
  [EvPrint "Error: ELEVENLABS_API_KEY environment variable not set"].

(** The error of opening a directory for writing. *)
Definition is_a_directory (p : Path) : exn :=
  Exn IsADirectoryError (errno_msg "[Errno 21] Is a directory" p).

(** *** Replies that make a call fail *)

(** The error [raise_for_status] raises for a response, if any. *)
Definition http_error (r : Response) : option exn :=
  match raise_for_status r () with
  | (Raise e, _) => Some e
  | (Ok _, _) => None
  end.

(** The exception a reply ends the request with that the per-phrase
    function catches, if any. *)
Definition caught (reply : NetReply) : option exn :=
  match reply with
  | Fails cls msg => if issubclass cls RequestException then Some (Exn cls msg) else None
  | Responds r => http_error r
  end.

(** A reply with which the request failed: a transport error, which is
    an exception of the [RequestException] family, or a response with a
    status from 400 to 599. *)
Definition request_failed (reply : NetReply) : bool :=
  match reply with
  | Fails cls _ => issubclass cls RequestException
  | Responds r => (400 <=? status_code r) && (status_code r <? 600)
  end.

(** A service whose failures are all transport errors. *)
Definition transport_only (net : nat → Request → NetReply) : Prop :=
  ∀ n req cls msg, net n req = Fails cls msg → issubclass cls RequestException = true.

(** *** The events of calls, of the loop and of [main] *)

(** The events of one call of the per-phrase function that returns:
    [true] with the request, the write of the response body and the
    report; [false] with the request and the failure line. *)
Inductive call_events (api_key : string) (phrase : Phrase) : bool → list Event → Prop :=
  | call_generated r :
      http_error r = None →
      call_events api_key phrase true
        [ EvPost (synthesis_request (text phrase) voice_id api_key) (Responds r);
          EvWrite (audio_path phrase) (content r);
          EvPrint (success_line (audio_path phrase)) ]
  | call_failed reply e :
      caught reply = Some e →
      call_events api_key phrase false
        [ EvPost (synthesis_request (text phrase) voice_id api_key) reply;
          EvPrint (failure_line (text phrase) e) ].

(** The events of a loop over the phrases in which every call returns,
    with the value of each call. *)
Inductive batch_events (api_key : string) : list Phrase → list bool → list Event → Prop :=
  | batch_done : batch_events api_key [] [] []
  | batch_call phrase rest b bs evs evs' :
      call_events api_key phrase b evs →
      batch_events api_key rest bs evs' →
      batch_events api_key (phrase :: rest) (b :: bs) (evs ++ evs').

Definition count_true (bs : list bool) : Z := Z.of_nat (length (List.filter id bs)).

(** The events of [main] after the loop: the metadata document and the
    two closing lines. *)
Definition closing_events (phrases : list Phrase) (success_count : Z) : list Event :=
  [ EvWrite metadata_path (Json.dumps 2 (metadata phrases));
    EvPrint (summary_line success_count phrases);
    EvPrint saved_line ].

(** The tree after the writes of a trace, in order. *)
Definition apply_writes (evs : list Event) (t : gmap Path node) : gmap Path node :=
  foldl (λ t ev, match ev with
                 | EvWrite p data => <[p := File data]> t
                 | _ => t
                 end) t evs.

(** The world after the events [evs]: they are on the trace and their
    writes are in the tree. *)
Definition advance (evs : list Event) (w : World) : World :=
  set_trace (trace w ++ evs) (set_fs (apply_writes evs (fs w)) w).

(** The ways a run of [main] with a credential ends once the output
    directory is there, from the world [w0] in which the loop starts:
    a call raises, or the loop completes and the metadata file cannot be
    opened, or [main] returns. *)
Inductive main_shape (api_key : string) (phrases : list Phrase) (w0 : World)
    : Result bool → World → Prop :=
  | shape_call_raised e w' pre phrase post bs evs :
      phrases = pre ++ phrase :: post →
      batch_events api_key pre bs evs →
      generate_all api_key pre w0 = (Ok (count_true bs), advance evs w0) →
      generate_audio_with_elevenlabs (text phrase) voice_id api_key
        (audio_path phrase) (advance evs w0) = (Raise e, w') →
      main_shape api_key phrases w0 (Raise e) w'
  | shape_unwritten e bs evs :
      batch_events api_key phrases bs evs →
      generate_all api_key phrases w0 = (Ok (count_true bs), advance evs w0) →
      isinstance e OSError = true →
      apply_writes evs (fs w0) !! metadata_path = Some Dir
      ∨ node_at (apply_writes evs (fs w0)) output_dir ≠ Some Dir →
      main_shape api_key phrases w0 (Raise e) (advance evs w0)
  | shape_returned bs evs :
      batch_events api_key phrases bs evs →
      generate_all api_key phrases w0 = (Ok (count_true bs), advance evs w0) →
      apply_writes evs (fs w0) !! metadata_path ≠ Some Dir →
      node_at (apply_writes evs (fs w0)) output_dir = Some Dir →
      main_shape api_key phrases w0
        (Ok (bool_decide (count_true bs = Z.of_nat (length phrases))))
        (advance (evs ++ closing_events phrases (count_true bs)) w0).

(** *** What a trace and a tree show *)

Definition is_write (ev : Event) : bool :=
  match ev with EvWrite _ _ => true | _ => false end.

Definition is_write_to (p : Path) (ev : Event) : bool :=
  match ev with
  | EvWrite q _ => bool_decide (q = p)
  | _ => false
  end.

(** A write of an audio file: any write but that of the metadata
    document. *)
Definition is_audio_write (ev : Event) : bool :=
  match ev with
  | EvWrite p _ => negb (bool_decide (p = metadata_path))
  | _ => false
  end.

(** A request that failed. *)
Definition is_failed_post (ev : Event) : bool :=
  match ev with
  | EvPost _ reply => request_failed reply
  | _ => false
  end.

(** The lines printed and the paths written, in order. *)
Definition printed (tr : list Event) : list string :=
  omap (λ ev, match ev with EvPrint line => Some line | _ => None end) tr.

Definition write_paths (evs : list Event) : list Path :=
  omap (λ ev, match ev with EvWrite p _ => Some p | _ => None end) evs.

(** The audio file of a phrase was written in the trace. *)
Definition synthesized (tr : list Event) (phrase : Phrase) : Prop :=
  ∃ data, EvWrite (audio_path phrase) data ∈ tr.

(** The metadata document was written in the trace. *)
Definition metadata_written (tr : list Event) : Prop :=
  ∃ doc, EvWrite metadata_path doc ∈ tr.

(** The paths a run writes to. *)
Definition outputs : list Path := metadata_path :: (audio_path <$> test_phrases).

(** The output directory is there and what is at the output paths, if
    anything, are files. *)
Definition prior_files (t : gmap Path node) : Prop :=
  t !! output_dir = Some Dir ∧ ∀ p, p ∈ outputs → t !! p ≠ Some Dir.

(** [needle] occurs in [hay] as it is, byte for byte. *)
Definition occurs_in (needle hay : string) : Prop :=
  ∃ before after, hay = before +:+ needle +:+ after.

Fixpoint strip_prefix (needle hay : string) : option string :=
  match needle, hay with
  | EmptyString, _ => Some hay
  | String a needle', String b hay' =>
      if bool_decide (a = b) then strip_prefix needle' hay' else None
  | String _ _, EmptyString => None
  end.

Fixpoint occursb (needle hay : string) : bool :=
  match strip_prefix needle hay with
  | Some _ => true
  | None => match hay with
            | EmptyString => false
            | String _ hay' => occursb needle hay'
            end
  end.

(** *** Worlds to run the generator in *)

Definition with_credential : gmap string string := {[ "ELEVENLABS_API_KEY" := "sk-test" ]}.

Definition ok_response (status : Z) (why body : string) : Response :=
  {| status_code := status; reason := why;
     resp_url := "https://api.elevenlabs.io/v1/text-to-speech/21m00Tcm4TlvDq8ikWAM";
     content := body |}.

(** A service that answers every request with 200 and some audio. *)
Definition always_ok : nat → Request → NetReply :=
  λ n _, Responds (ok_response 200 "OK" ("RIFF" +:+ pretty n)).

(** A service that answers the third request with [status] and the
    others with 200. *)
Definition third_answers (status : Z) (why : string) : nat → Request → NetReply :=
  λ n req, if (n =? 2)%nat then Responds (ok_response status why "body")
           else always_ok n req.

(** A service nobody reaches. *)
Definition unreachable : nat → Request → NetReply :=
  λ _ _, Fails ConnectionError "Connection refused".

(** A tree in which the output directory exists and a directory sits at
    the path [p] below it. *)
Definition blocked_at (p : Path) : gmap Path node :=
  {[ tests_dir := Dir; output_dir := Dir; p := Dir ]}.

(** The third phrase of the list. *)
Definition sayounara : Phrase :=
  {| text := "さようなら"; filename := "sayounara.wav"; expected := "さようなら" |}.

(** A run in which a directory sits where the audio file of the third
    phrase goes: the world it starts in, the world after the first two
    phrases, and the world in which the third call raises. *)
Definition blocked_world : World :=
  boot with_credential always_ok (blocked_at (audio_path sayounara)).

Definition before_sayounara : World :=
  snd (generate_all "sk-test" (take 2 test_phrases) blocked_world).

Definition at_raise : World :=
  snd (generate_audio_with_elevenlabs (text sayounara) voice_id "sk-test"
         (audio_path sayounara) before_sayounara).

(** *** The metadata document, written out *)

(** The five entries of [test_audio_files]: for each phrase of the
    list, in its order, the file name, the text and the expected
    transcription. *)
Definition listed_entries : list Json.value :=
  [ JDict [ ("filename", JStr "konnichiwa.wav");
            ("text", JStr "こんにちは");
            ("expected_transcription", JStr "こんにちは") ];
    JDict [ ("filename", JStr "arigatou.wav");
            ("text", JStr "ありがとうございます");
            ("expected_transcription", JStr "ありがとうございます") ];
    JDict [ ("filename", JStr "sayounara.wav");
            ("text", JStr "さようなら");
            ("expected_transcription", JStr "さようなら") ];
    JDict [ ("filename", JStr "weather.wav");
            ("text", JStr "今日は良い天気ですね");
            ("expected_transcription", JStr "今日は良い天気ですね") ];
    JDict [ ("filename", JStr "library.wav");
            ("text", JStr "図書館で本を読んでいます");
            ("expected_transcription", JStr "図書館で本を読んでいます") ] ].

(** A string between double quotes. *)
Definition quoted (s : string) : string := Json.dquote +:+ s +:+ Json.dquote.

(** The lines of an entry in the file, with the line that closes it. *)
Definition entry_lines (file said heard closing : string) : list string :=
  [ "    {";
    "      " +:+ quoted "filename" +:+ ": " +:+ quoted file +:+ ",";
    "      " +:+ quoted "text" +:+ ": " +:+ quoted said +:+ ",";
    "      " +:+ quoted "expected_transcription" +:+ ": " +:+ quoted heard;
    closing ].

(** The metadata file, line by line: what [json.dump] writes with an
    indent of 2 and the characters outside ASCII as they are. *)
Definition document_lines : list string :=
  [ "{";
    "  " +:+ quoted "test_audio_files" +:+ ": [" ]
  ++ entry_lines "konnichiwa.wav" "こんにちは" "こんにちは" "    },"
  ++ entry_lines "arigatou.wav" "ありがとうございます" "ありがとうございます" "    },"
  ++ entry_lines "sayounara.wav" "さようなら" "さようなら" "    },"
  ++ entry_lines "weather.wav" "今日は良い天気ですね" "今日は良い天気ですね" "    },"
  ++ entry_lines "library.wav" "図書館で本を読んでいます" "図書館で本を読んでいます" "    }"
  ++ [ "  ],";
       "  " +:+ quoted "audio_format" +:+ ": " +:+ quoted "wav" +:+ ",";
       "  " +:+ quoted "sample_rate" +:+ ": 22050,";
       "  " +:+ quoted "channels" +:+ ": 1,";
       "  " +:+ quoted "voice_model" +:+ ": " +:+ quoted "eleven_multilingual_v2";
       "}" ].

Definition document_text : string := String.concat Json.newline document_lines.

(** *** More worlds *)

(** A service that answers the third request with 304, which comes
    without a body, and the others with 200. *)
Definition third_not_modified : nat → Request → NetReply :=
  λ n req, if (n =? 2)%nat then Responds (ok_response 304 "Not Modified" EmptyString)
           else always_ok n req.

(** A service that answers every request with 200 and audio that is
    not that of [always_ok]. *)
Definition other_audio : nat → Request → NetReply :=
  λ n _, Responds (ok_response 200 "OK" ("WAVE" +:+ pretty n)).

(** *** The exchanges with the service and the trees of a run *)

(** The requests of a trace, in order. *)
Definition requests (tr : list Event) : list Request :=
  omap (λ ev, match ev with EvPost req _ => Some req | _ => None end) tr.

(** The exchanges of a loop over the phrases in which every call
    returns, when [n] requests went out before it: one request for each
    phrase, in the order of the list, with what the service does with
    it. *)
Fixpoint exchanges (net : nat → Request → NetReply) (api_key : string) (n : nat)
    (phrases : list Phrase) : list Event :=
  match phrases with
  | [] => []
  | phrase :: rest =>
      EvPost (synthesis_request (text phrase) voice_id api_key)
        (net n (synthesis_request (text phrase) voice_id api_key))
      :: exchanges net api_key (S n) rest
  end.

(** A service that answers every request, with a status outside 400 to
    599. *)
Definition answers_all (net : nat → Request → NetReply) : Prop :=
  ∀ n req, ∃ r, net n req = Responds r ∧ request_failed (Responds r) = false.

(** A tree in which the output directory is there or can be made, and
    no directory sits at an output path. *)
Definition writable (t : gmap Path node) : Prop :=
  (∀ c, t !! tests_dir ≠ Some (File c))
  ∧ (∀ c, t !! output_dir ≠ Some (File c))
  ∧ ∀ p, p ∈ outputs → t !! p ≠ Some Dir.

(** The class of the error of making the output directory when a file
    is in the way: at the output directory itself, or at its parent. *)
Definition file_in_the_way (t : gmap Path node) : option exn_class :=
  match t !! tests_dir, t !! output_dir with
  | Some (File _), None | Some (File _), Some (File _) => Some NotADirectoryError
  | Some Dir, Some (File _) => Some FileExistsError
  | _, _ => None
  end.

(** The tree [t'] differs from [t] at the paths [ps] at most, and there
    it has lost nothing and replaced no directory. *)
Definition only_at (ps : list Path) (t t' : gmap Path node) : Prop :=
  (∀ p, p ∉ ps → t' !! p = t !! p)
  ∧ (∀ p, is_Some (t !! p) → is_Some (t' !! p))
  ∧ (∀ p, t !! p = Some Dir → t' !! p = Some Dir).

(** The line a call prints for a phrase. *)
Definition call_line (phrase : Phrase) (line : string) : Prop :=
  line = success_line (audio_path phrase) ∨ ∃ e, line = failure_line (text phrase) e.

(** A tree with a file where the output directory goes. *)
Definition file_at_output_dir : gmap Path node :=
  {[ tests_dir := Dir; output_dir := File "not a directory" ]}.

End GeneratorRuns.

(** * Properties *)

Lemma bind_unfold {W A B} (m : M W A) (f : A → M W B) (w : W) :
  (m ≫= f) w = match m w with
                | (Ok a, w') => f a w'
                | (Raise e, w') => (Raise e, w')
                end.
Proof. reflexivity. Qed.

(** ** The model exporter *)

Section ExporterProperties.
Import Exporter ExporterRuns.

Lemma import_present name (w : World) :
  name ∈ installed w → import_module name w = (Ok (), w).
Proof. intros H. unfold import_module. rewrite bool_decide_eq_true_2; done. Qed.

Lemma import_absent name (w : World) :
  name ∉ installed w → import_module name w = (Raise (no_module name), w).
Proof. intros H. unfold import_module. rewrite bool_decide_eq_false_2; done. Qed.

(** The imports at the top of the file run before the dependency check:
    a run gets past them only with all four modules installed, and
    otherwise ends there with the import error of the first missing one,
    having printed nothing. *)
Lemma script_imports (w : World) :
  ("coremltools" ∈ installed w ∧ "torch" ∈ installed w
   ∧ "transformers" ∈ installed w ∧ "numpy" ∈ installed w
   ∧ script w = download_and_convert w)
  ∨ (∃ name, name ∈ ({[ "coremltools"; "torch"; "transformers"; "numpy" ]} : gset string)
       ∧ (name ∉ installed w) ∧ script w = (Raise (no_module name), w)).
Proof.
  destruct (decide ("coremltools" ∈ installed w)) as [Hc|Hc];
    [|right; exists "coremltools"; split; [set_solver|]; split; [done|];
      unfold script, mbind, M_bind; rewrite import_absent; done].
  destruct (decide ("torch" ∈ installed w)) as [Ht|Ht];
    [|right; exists "torch"; split; [set_solver|]; split; [done|];
      unfold script, mbind, M_bind; rewrite import_present by done;
      rewrite import_absent; done].
  destruct (decide ("transformers" ∈ installed w)) as [Hf|Hf];
    [|right; exists "transformers"; split; [set_solver|]; split; [done|];
      unfold script, mbind, M_bind; rewrite !import_present by done;
      rewrite import_absent; done].
  destruct (decide ("numpy" ∈ installed w)) as [Hn|Hn];
    [|right; exists "numpy"; split; [set_solver|]; split; [done|];
      unfold script, mbind, M_bind; rewrite !import_present by done;
      rewrite import_absent; done].
  left. repeat (split; [done|]).
  unfold script, try_except, mbind, M_bind.
  rewrite !import_present by done. reflexivity.
Qed.

(** C6, what the code does: with a checked dependency missing the run
    ends in the uncaught import error of the imports at the top of the
    file.  The dependency check is not reached: nothing is printed, the
    hint included.  No work starts and the exit status is 1. *)
Theorem missing_dependency_prints_no_hint mods hp hm jt cv sv t :
  "coremltools" ∉ mods ∨ "torch" ∉ mods ∨ "transformers" ∉ mods →
  let w := boot mods hp hm jt cv sv t in
  (∃ name, fst (script w) = Raise (no_module name))
  ∧ trace (snd (script w)) = []
  ∧ (∀ ev, ev ∈ preflight_hint → ev ∉ trace (snd (script w)))
  ∧ List.filter is_work (trace (snd (script w))) = []
  ∧ fs (snd (script w)) = t
  ∧ exit_code w = 1.
Proof.
  intros Hmissing w.
  destruct (script_imports w) as [(Hc & Ht & Hf & _)|(name & _ & _ & Hrun)].
  - cbn [w boot installed] in Hc, Ht, Hf. tauto.
  - unfold exit_code. rewrite Hrun. cbn [fst snd exit_status no_module w boot trace fs].
    split; [by exists name|]. split; [done|]. split; [|done].
    intros ev _ Hin. by apply elem_of_nil in Hin.
Qed.

Lemma missing_dependency_prints_no_hint_witness :
  let w := boot {[ "torch"; "transformers"; "numpy" ]}
             (λ _, None) (λ _, None) (λ _ _, None) (λ _, None) (λ _ _, None) ∅ in
  fst (script w) = Raise (no_module "coremltools")
  ∧ trace (snd (script w)) = []
  ∧ exit_code w = 1.
Proof.
  intros w.
  destruct (missing_dependency_prints_no_hint
              {[ "torch"; "transformers"; "numpy" ]}
              (λ _, None) (λ _, None) (λ _ _, None) (λ _, None) (λ _ _, None) ∅)
    as (_ & Htrace & _ & _ & _ & Hexit).
  - left. vm_compute. intros H. discriminate H.
  - split; [vm_compute; reflexivity|]. split; [exact Htrace | exact Hexit].
Defined.

Lemma emit_run ev (w : World) : emit ev w = (Ok (), set_trace (trace w ++ [ev]) w).
Proof. reflexivity. Qed.

Lemma print_run line (w : World) :
  print line w = (Ok (), set_trace (trace w ++ [EvPrint line]) w).
Proof. reflexivity. Qed.

Lemma load_processor_run name (w : World) :
  WhisperProcessor_from_pretrained name w
  = let w' := set_trace (trace w ++ [EvLoad "WhisperProcessor" name]) w in
    match hub_processor w name with
    | Some e => (Raise e, w')
    | None => (Ok (Processor name), w')
    end.
Proof.
  unfold WhisperProcessor_from_pretrained, attempt.
  rewrite bind_unfold, emit_run. cbv beta iota zeta.
  cbn [hub_processor set_trace]. reflexivity.
Qed.

Lemma load_model_run name (w : World) :
  WhisperForConditionalGeneration_from_pretrained name w
  = let w' := set_trace (trace w ++ [EvLoad "WhisperForConditionalGeneration" name]) w in
    match hub_model w name with
    | Some e => (Raise e, w')
    | None => (Ok (WhisperModel name), w')
    end.
Proof.
  unfold WhisperForConditionalGeneration_from_pretrained, attempt.
  rewrite bind_unfold, emit_run. cbv beta iota zeta.
  cbn [hub_model set_trace]. reflexivity.
Qed.

Lemma convert_processor_unavailable (w : World) e :
  hub_processor w model_name = Some e →
  fst (download_and_convert w) = Raise e
  ∧ fs (snd (download_and_convert w)) = fs w
  ∧ trace (snd (download_and_convert w)) = trace w ++ trace_until_processor.
Proof.
  intros Hp. unfold download_and_convert.
  rewrite bind_unfold, print_run. cbv beta iota zeta. fold model_name.
  rewrite bind_unfold, load_processor_run. cbv zeta.
  cbn [hub_processor set_trace]. rewrite Hp.
  cbn [fst snd fs trace set_trace]. rewrite <- app_assoc. done.
Qed.

Lemma convert_model_unavailable (w : World) e :
  hub_processor w model_name = None →
  hub_model w model_name = Some e →
  fst (download_and_convert w) = Raise e
  ∧ fs (snd (download_and_convert w)) = fs w
  ∧ trace (snd (download_and_convert w)) = trace w ++ trace_until_model.
Proof.
  intros Hp Hm. unfold download_and_convert.
  rewrite bind_unfold, print_run. cbv beta iota zeta. fold model_name.
  rewrite bind_unfold, load_processor_run. cbv zeta.
  cbn [hub_processor set_trace]. rewrite Hp. cbv beta iota.
  rewrite bind_unfold, load_model_run. cbv zeta.
  cbn [hub_model set_trace]. rewrite Hm.
  cbn [fst snd fs trace set_trace].
  unfold trace_until_model. rewrite <- !app_assoc. done.
Qed.

(** C7: when loading the pretrained processor or model fails, the run
    ends with that error uncaught, the tree is the one it started with and
    no save happened: the encoder package does not come into being. *)
Theorem unavailable_model_writes_nothing mods hp hm jt cv sv t e :
  hp model_name = Some e ∨ (hp model_name = None ∧ hm model_name = Some e) →
  {[ "coremltools"; "torch"; "transformers"; "numpy" ]} ⊆ mods →
  let w := boot mods hp hm jt cv sv t in
  fst (script w) = Raise e
  ∧ fs (snd (script w)) = t
  ∧ List.filter is_save (trace (snd (script w))) = []
  ∧ fs (snd (script w)) !! (Here / "KotobaWhisperEncoder.mlpackage")%path
    = t !! (Here / "KotobaWhisperEncoder.mlpackage")%path.
Proof.
  intros Hload Hmods w.
  destruct (script_imports w) as [(_ & _ & _ & _ & Hrun)|(name & Hname & Hout & _)].
  - rewrite Hrun.
    destruct Hload as [Hp|[Hp Hm]].
    + destruct (convert_processor_unavailable w e Hp) as (-> & -> & ->). done.
    + destruct (convert_model_unavailable w e Hp Hm) as (-> & -> & ->). done.
  - exfalso. apply Hout. cbn [w boot installed]. apply Hmods, Hname.
Qed.

Lemma unavailable_model_writes_nothing_witness :
  let w := boot {[ "coremltools"; "torch"; "transformers"; "numpy" ]}
             (λ _, Some (Exn OSError "kotoba-tech/kotoba-whisper-v2.2 is not a valid model identifier"))
             (λ _, None) (λ _ _, None) (λ _, None) (λ _ _, None) ∅ in
  fst (script w)
  = Raise (Exn OSError "kotoba-tech/kotoba-whisper-v2.2 is not a valid model identifier")
  ∧ fs (snd (script w)) = ∅
  ∧ List.filter is_save (trace (snd (script w))) = [].
Proof.
  intros w.
  destruct (unavailable_model_writes_nothing
              {[ "coremltools"; "torch"; "transformers"; "numpy" ]}
              (λ _, Some (Exn OSError "kotoba-tech/kotoba-whisper-v2.2 is not a valid model identifier"))
              (λ _, None) (λ _ _, None) (λ _, None) (λ _ _, None) ∅
              (Exn OSError "kotoba-tech/kotoba-whisper-v2.2 is not a valid model identifier"))
    as (Hraise & Hfs & Hsave & _).
  - left. reflexivity.
  - reflexivity.
  - split; [exact Hraise|]. split; [exact Hfs|exact Hsave].
Defined.


(** *** The pipeline, call by call *)

(** *** The whole pipeline *)

Lemma jit_trace_run module example (w : World) :
  torch_jit_trace module example w
  = let w' := set_trace (trace w ++ [EvTrace module example]) w in
    match jit_trace w module example with
    | Some e => (Raise e, w')
    | None => (Ok (TracedModule module example), w')
    end.
Proof.
  unfold torch_jit_trace, attempt.
  rewrite bind_unfold, emit_run. cbv beta iota zeta.
  cbn [jit_trace set_trace]. reflexivity.
Qed.

Lemma convert_run traced shape i o c tg (w : World) :
  coremltools_convert traced shape i o c tg w
  = let w' := set_trace (trace w ++ [EvConvert traced]) w in
    match ct_convert w traced with
    | Some e => (Raise e, w')
    | None => (Ok (MLModel traced shape i o c tg), w')
    end.
Proof.
  unfold coremltools_convert, attempt.
  rewrite bind_unfold, emit_run. cbv beta iota zeta.
  cbn [ct_convert set_trace]. reflexivity.
Qed.

Lemma save_run model p (w : World) :
  mlmodel_save model p w
  = match save_fails w model p with
    | Some e => (Raise e, w)
    | None => (Ok (), set_trace (trace w ++ [EvSave model p]) (set_fs (<[p := Dir]> (fs w)) w))
    end.
Proof.
  unfold mlmodel_save, attempt. rewrite bind_unfold.
  destruct (save_fails w model p) as [e|]; [reflexivity|].
  rewrite bind_unfold. unfold modify. cbv beta iota. rewrite emit_run. reflexivity.
Qed.

Lemma set_trace_trace tr tr' (w : World) :
  set_trace tr (set_trace tr' w) = set_trace tr w.
Proof. reflexivity. Qed.

Lemma trace_set_trace tr (w : World) : trace (set_trace tr w) = tr.
Proof. reflexivity. Qed.

Ltac tidy := rewrite ?trace_set_trace, ?set_trace_trace.

(** The run of [download_and_convert]: it stops at the first library
    call that fails, with its exception and the tree as it was, or it
    goes to the end with the package in the tree. *)
Ltac settle :=
  unfold full_trace, closing_lines, trace_until_convert, trace_until_trace,
    trace_until_model, trace_until_processor, set_trace, set_fs;
  cbn [installed hub_processor hub_model jit_trace ct_convert save_fails fs trace];
  rewrite <- ?app_assoc; reflexivity.

Lemma download_and_convert_run (w : World) :
  download_and_convert w
  = match first_failure w with
    | Some e => (Raise e, set_trace (trace w ++ trace_at_failure w) w)
    | None =>
        (Ok (), set_trace (trace w ++ full_trace)
                  (set_fs (<[encoder_package := Dir]> (fs w)) w))
    end.
Proof.
  unfold download_and_convert, first_failure, trace_at_failure.
  rewrite bind_unfold, print_run. cbv beta iota zeta. fold model_name.
  rewrite bind_unfold, load_processor_run. cbv zeta. cbn [hub_processor set_trace]. tidy.
  destruct (hub_processor w model_name) as [e|]; [settle|].
  cbv beta iota.
  rewrite bind_unfold, load_model_run. cbv zeta. cbn [hub_model set_trace]. tidy.
  destruct (hub_model w model_name) as [e|]; [settle|].
  cbv beta iota.
  rewrite bind_unfold, print_run. cbv beta iota zeta. tidy.
  rewrite bind_unfold, print_run. cbv beta iota zeta. tidy.
  fold eval_model. fold example_input.
  rewrite bind_unfold, jit_trace_run. cbv zeta. cbn [jit_trace set_trace]. tidy.
  destruct (jit_trace w (Encoder eval_model) example_input) as [e|]; [settle|].
  cbv beta iota. fold traced_encoder.
  rewrite bind_unfold, convert_run. cbv zeta. cbn [ct_convert set_trace]. tidy.
  destruct (ct_convert w traced_encoder) as [e|]; [settle|].
  cbv beta iota. fold exported_model. fold encoder_package.
  rewrite bind_unfold, save_run. cbn [save_fails set_trace]. tidy.
  destruct (save_fails w exported_model encoder_package) as [e|]; [settle|].
  cbv beta iota.
  repeat (rewrite bind_unfold, print_run; cbv beta iota zeta; tidy).
  rewrite print_run. settle.
Qed.

(** The run of the script: the import error of the first module that is
    missing, in the order of the imports, or the pipeline. *)
Lemma exporter_script_run (w : World) :
  script w = match first_missing (installed w) imports with
             | Some name => (Raise (no_module name), w)
             | None => download_and_convert w
             end.
Proof.
  unfold first_missing, imports. cbn [List.find].
  destruct (decide ("coremltools" ∈ installed w)) as [Hc|Hc];
    [rewrite (bool_decide_eq_true_2 _ Hc)|rewrite (bool_decide_eq_false_2 _ Hc)];
    cbn [negb];
    [|unfold script; rewrite bind_unfold, import_absent by done; reflexivity].
  destruct (decide ("torch" ∈ installed w)) as [Ht|Ht];
    [rewrite (bool_decide_eq_true_2 _ Ht)|rewrite (bool_decide_eq_false_2 _ Ht)];
    cbn [negb];
    [|unfold script; rewrite bind_unfold, import_present by done; cbv beta iota;
      rewrite bind_unfold, import_absent by done; reflexivity].
  destruct (decide ("transformers" ∈ installed w)) as [Hf|Hf];
    [rewrite (bool_decide_eq_true_2 _ Hf)|rewrite (bool_decide_eq_false_2 _ Hf)];
    cbn [negb];
    [|unfold script; rewrite bind_unfold, import_present by done; cbv beta iota;
      rewrite bind_unfold, import_present by done; cbv beta iota;
      rewrite bind_unfold, import_absent by done; reflexivity].
  destruct (decide ("numpy" ∈ installed w)) as [Hn|Hn];
    [rewrite (bool_decide_eq_true_2 _ Hn)|rewrite (bool_decide_eq_false_2 _ Hn)];
    cbn [negb];
    [|unfold script; rewrite bind_unfold, import_present by done; cbv beta iota;
      rewrite bind_unfold, import_present by done; cbv beta iota;
      rewrite bind_unfold, import_present by done; cbv beta iota;
      rewrite bind_unfold, import_absent by done; reflexivity].
  destruct (script_imports w) as [(_ & _ & _ & _ & Hrun)|(name & Hname & Hout & _)];
    [exact Hrun|].
  exfalso. apply Hout.
  apply elem_of_union in Hname as [Hname|Hname];
    [apply elem_of_union in Hname as [Hname|Hname];
     [apply elem_of_union in Hname as [Hname|Hname]|]|];
    apply elem_of_singleton in Hname; by subst name.
Qed.

Lemma prefix_of_full_trace (w : World) : trace_at_failure w `prefix_of` full_trace.
Proof.
  unfold trace_at_failure, full_trace, trace_until_convert, trace_until_trace,
    trace_until_model.
  destruct (hub_processor w model_name);
    [|destruct (hub_model w model_name);
      [|destruct (jit_trace w (Encoder eval_model) example_input)]];
    rewrite <- ?app_assoc; eexists; reflexivity.
Qed.

Lemma trace_at_failure_short (w : World) : trace_at_failure w ≠ full_trace.
Proof.
  intros Heq. apply (f_equal length) in Heq. revert Heq.
  unfold trace_at_failure.
  destruct (hub_processor w model_name);
    [|destruct (hub_model w model_name);
      [|destruct (jit_trace w (Encoder eval_model) example_input)]];
    discriminate.
Qed.


(** The run of the script from a fresh world, in full. *)
Lemma exporter_outcome mods hp hm jt cv sv t :
  let w := boot mods hp hm jt cv sv t in
  match first_missing mods imports with
  | Some name => script w = (Raise (no_module name), w)
  | None =>
      match first_failure w with
      | Some e => script w = (Raise e, set_trace (trace_at_failure w) w)
      | None => script w = (Ok (), set_trace full_trace (set_fs (<[encoder_package := Dir]> t) w))
      end
  end.
Proof.
  intros w. rewrite (exporter_script_run w). change (installed w) with mods.
  destruct (first_missing mods imports); [reflexivity|].
  rewrite download_and_convert_run.
  destruct (first_failure w); reflexivity.
Qed.

(** X1: with the four modules installed and no library call failing, the
    script runs to its end: the processor and the model are loaded, the
    encoder of the model in inference mode is traced on the example
    input and converted with the input named input_features and the
    output named encoder_output, the package is saved at the fixed path,
    and the process ends with status 0. *)
Theorem export_runs_to_the_end mods hp hm jt cv sv t :
  first_missing mods imports = None →
  first_failure (boot mods hp hm jt cv sv t) = None →
  let w := boot mods hp hm jt cv sv t in
  fst (script w) = Ok ()
  ∧ trace (snd (script w)) = full_trace
  ∧ List.filter is_save (trace (snd (script w))) = [EvSave exported_model encoder_package]
  ∧ fs (snd (script w)) = <[encoder_package := Dir]> t
  ∧ exit_code w = 0.
Proof.
  intros Hmods Hcalls w. pose proof (exporter_outcome mods hp hm jt cv sv t) as Hrun.
  cbv zeta in Hrun. rewrite Hmods, Hcalls in Hrun.
  unfold exit_code, w. rewrite Hrun. repeat split.
Qed.

Lemma export_runs_to_the_end_witness :
  let w := boot {[ "coremltools"; "torch"; "transformers"; "numpy" ]}
             (λ _, None) (λ _, None) (λ _ _, None) (λ _, None) (λ _ _, None) ∅ in
  fst (script w) = Ok ()
  ∧ fs (snd (script w)) = {[ encoder_package := Dir ]}
  ∧ exit_code w = 0.
Proof.
  intros w.
  destruct (export_runs_to_the_end
              {[ "coremltools"; "torch"; "transformers"; "numpy" ]}
              (λ _, None) (λ _, None) (λ _ _, None) (λ _, None) (λ _ _, None) ∅)
    as (Hret & _ & _ & Hfs & Hexit).
  - vm_compute. reflexivity.
  - reflexivity.
  - split; [exact Hret|]. split; [|exact Hexit].
    exact (eq_trans Hfs (insert_empty encoder_package Dir)).
Defined.


(** X3: whatever happens, the events of a run are an initial part of the
    events of the complete run, in its order: print, load the processor,
    load the model, trace, convert, save, closing lines.  Nothing is
    skipped and nothing else is done; the part is the whole exactly when
    the script runs to its end. *)
Theorem export_trace_is_a_prefix mods hp hm jt cv sv t :
  let w := boot mods hp hm jt cv sv t in
  trace (snd (script w)) `prefix_of` full_trace
  ∧ (trace (snd (script w)) = full_trace ↔ fst (script w) = Ok ()).
Proof.
  intros w. pose proof (exporter_outcome mods hp hm jt cv sv t) as Hrun.
  cbv zeta in Hrun. fold w in Hrun.
  destruct (first_missing mods imports) as [name|];
    [|destruct (first_failure w) as [e|]]; rewrite Hrun; cbn [fst snd].
  - split; [by eexists|]. split; [discriminate|discriminate].
  - change (trace (set_trace (trace_at_failure w) w)) with (trace_at_failure w).
    split; [apply prefix_of_full_trace|].
    split; [intros Heq; by apply trace_at_failure_short in Heq|discriminate].
  - change (trace (set_trace full_trace _)) with full_trace.
    split; [reflexivity|done].
Qed.

(** X4: the hint of the dependency check is printed in no run: with a
    module missing the imports at the top of the file raise first, and
    with the modules there the check finds nothing. *)
Theorem preflight_hint_never_printed mods hp hm jt cv sv t :
  Forall (λ ev, ev ∉ trace (snd (script (boot mods hp hm jt cv sv t)))) preflight_hint.
Proof.
  apply Forall_forall. intros ev Hhint Hin.
  assert (Hfull : ev ∈ full_trace).
  { pose proof (exporter_outcome mods hp hm jt cv sv t) as Hrun. cbv zeta in Hrun.
    destruct (first_missing mods imports) as [name|];
      [|destruct (first_failure (boot mods hp hm jt cv sv t)) as [e|]];
      rewrite Hrun in Hin; cbn [snd] in Hin.
    - by apply elem_of_nil in Hin.
    - change (trace (set_trace ?tr _)) with tr in Hin.
      destruct (prefix_of_full_trace (boot mods hp hm jt cv sv t)) as [rest ->].
      apply elem_of_app. by left.
    - exact Hin. }
  unfold preflight_hint in Hhint.
  unfold full_trace, trace_until_convert, trace_until_trace, trace_until_model,
    trace_until_processor, closing_lines in Hfull.
  apply elem_of_cons in Hhint as [->|Hhint];
    [|apply elem_of_cons in Hhint as [->|Hhint]; [|by apply elem_of_nil in Hhint]].
  all: repeat (apply elem_of_app in Hfull as [Hfull|Hfull]);
    repeat (apply elem_of_cons in Hfull as [Hfull|Hfull]; [discriminate Hfull|]);
    by apply elem_of_nil in Hfull.
Qed.





End ExporterProperties.

(** ** The fixture generator *)

Import Generator GeneratorRuns.

(** *** The credential check *)

Lemma main_without_credential env net t :
  truthy (env !! "ELEVENLABS_API_KEY") = false →
  main (boot env net t)
  = (Ok false, set_trace credential_error (boot env net t)).
Proof.
  intros Hkey. unfold main, main_with. rewrite bind_unfold.
  unfold os_getenv. cbn [boot environ]. rewrite Hkey. cbn [negb].
  reflexivity.
Qed.

Lemma script_without_credential env net t :
  truthy (env !! "ELEVENLABS_API_KEY") = false →
  script (boot env net t)
  = (Raise (Exit 1), set_trace credential_error (boot env net t)).
Proof.
  intros Hkey. unfold script. rewrite bind_unfold.
  rewrite main_without_credential by exact Hkey. reflexivity.
Qed.


(** C4: without the credential variable [main] prints the error and
    returns [False] with no request issued and nothing else done, and the
    process exits with status 1. *)
Theorem missing_credential_no_request env net t :
  env !! "ELEVENLABS_API_KEY" = None →
  fst (main (boot env net t)) = Ok false
  ∧ trace (snd (script (boot env net t))) = credential_error
  ∧ posts (trace (snd (script (boot env net t)))) = []
  ∧ fs (snd (script (boot env net t))) = t
  ∧ exit_code (boot env net t) = 1.
Proof.
  intros Hkey.
  assert (Hfalse : truthy (env !! "ELEVENLABS_API_KEY") = false)
    by (rewrite Hkey; reflexivity).
  unfold exit_code.
  rewrite script_without_credential, main_without_credential by exact Hfalse.
  repeat split.
Qed.

(** C10: with the credential variable set to the empty string the run is
    the run of a process without the variable: same result, same trace
    (the error line, no request), same tree, same exit status 1. *)
Theorem empty_credential_as_absent env net t :
  env !! "ELEVENLABS_API_KEY" = Some EmptyString →
  let absent := delete "ELEVENLABS_API_KEY" env in
  absent !! "ELEVENLABS_API_KEY" = None
  ∧ fst (main (boot env net t)) = Ok false
  ∧ fst (main (boot env net t)) = fst (main (boot absent net t))
  ∧ trace (snd (script (boot env net t))) = trace (snd (script (boot absent net t)))
  ∧ trace (snd (script (boot env net t))) = credential_error
  ∧ posts (trace (snd (script (boot env net t)))) = []
  ∧ fs (snd (script (boot env net t))) = fs (snd (script (boot absent net t)))
  ∧ exit_code (boot env net t) = exit_code (boot absent net t)
  ∧ exit_code (boot env net t) = 1.
Proof.
  intros Hkey absent.
  assert (Hgone : absent !! "ELEVENLABS_API_KEY" = None)
    by apply lookup_delete_eq.
  assert (Hempty : truthy (env !! "ELEVENLABS_API_KEY") = false)
    by (rewrite Hkey; reflexivity).
  assert (Habsent : truthy (absent !! "ELEVENLABS_API_KEY") = false)
    by (rewrite Hgone; reflexivity).
  unfold exit_code.
  rewrite !(script_without_credential env), !(main_without_credential env) by exact Hempty.
  rewrite !(script_without_credential absent), !(main_without_credential absent)
    by exact Habsent.
  repeat split. exact Hgone.
Qed.

Lemma raise_for_status_http_error {W} (r : Response) (w : W) :
  raise_for_status r w = match http_error r with
                         | Some e => (Raise e, w)
                         | None => (Ok (), w)
                         end.
Proof.
  unfold http_error, raise_for_status.
  destruct ((400 <=? status_code r) && (status_code r <? 500)); [done|].
  destruct ((500 <=? status_code r) && (status_code r <? 600)); done.
Qed.

Lemma http_error_class r e : http_error r = Some e → class_of e = HTTPError.
Proof.
  unfold http_error, raise_for_status.
  destruct ((400 <=? status_code r) && (status_code r <? 500)); [intros [= <-]; done|].
  destruct ((500 <=? status_code r) && (status_code r <? 600)); [intros [= <-]; done|].
  discriminate.
Qed.

Lemma http_error_status r :
  is_Some (http_error r) ↔ 400 ≤ status_code r < 600.
Proof.
  unfold http_error, raise_for_status.
  destruct (Z.leb_spec 400 (status_code r)), (Z.ltb_spec (status_code r) 500),
    (Z.leb_spec 500 (status_code r)), (Z.ltb_spec (status_code r) 600);
    cbn; split; intros Hs; try lia; try (by eexists);
    destruct Hs as [? Hs]; discriminate Hs.
Qed.

Lemma open_w_cases (p : Path) (t : gmap Path node) :
  (∃ e, open_w p t = (Raise e, t) ∧ isinstance e RequestException = false
        ∧ isinstance e OSError = true
        ∧ ∀ q n, p = Child q n → t !! p = Some Dir ∨ node_at t q ≠ Some Dir)
  ∨ (open_w p t = (Ok p, <[p := File EmptyString]> t)
     ∧ t !! p ≠ Some Dir ∧ ∃ q n, p = Child q n ∧ node_at t q = Some Dir).
Proof.
  destruct p as [|q n]; cbn [open_w].
  { left. eexists. repeat split. intros ? ? [=]. }
  destruct (node_at t q) as [[|c]|] eqn:Hq.
  - destruct (t !! Child q n) as [[|c]|] eqn:Hp.
    + left. eexists. repeat split. intros ? ? [= <- <-]. by left.
    + right. split; [done|]. split; [done|]. eauto.
    + right. split; [done|]. split; [done|]. eauto.
  - left. eexists. repeat split. intros ? ? [= <- <-]. right. congruence.
  - left. eexists. repeat split. intros ? ? [= <- <-]. right. congruence.
Qed.

Lemma generate_unfold text vid key path (w : World) :
  let req := synthesis_request text vid key in
  let reply := remote w (length (posts (trace w))) req in
  let posted := trace w ++ [EvPost req reply] in
  generate_audio_with_elevenlabs text vid key path w =
    match reply with
    | Fails cls msg =>
        if issubclass cls RequestException
        then (Ok false, set_trace (posted ++ [EvPrint (failure_line text (Exn cls msg))]) w)
        else (Raise (Exn cls msg), set_trace posted w)
    | Responds r =>
        match http_error r with
        | Some e => (Ok false, set_trace (posted ++ [EvPrint (failure_line text e)]) w)
        | None =>
            match open_w path (fs w) with
            | (Raise e, _) => (Raise e, set_trace posted w)
            | (Ok _, _) =>
                (Ok true,
                 set_trace (posted ++ [EvWrite path (content r); EvPrint (success_line path)])
                   (set_fs (<[path := File (content r)]> (fs w)) w))
            end
        end
    end.
Proof.
  intros req reply posted.
  unfold generate_audio_with_elevenlabs, try_except, mbind, M_bind, requests_post.
  fold (synthesis_request text vid key). fold req. fold reply. fold posted.
  destruct reply as [r|cls msg]; simpl.
  - rewrite raise_for_status_http_error.
    destruct (http_error r) as [e|] eqn:He; simpl.
    + unfold isinstance. rewrite (http_error_class _ _ He). simpl.
      unfold print, emit, modify, mbind, M_bind. simpl. reflexivity.
    + unfold with_open_w, on_fs, mbind, M_bind. simpl.
      destruct (open_w_cases path (fs w)) as [(e & -> & Hne & _)|(-> & Hp & _)]; simpl.
      * rewrite Hne. reflexivity.
      * unfold f_write, on_fs, Fs.write, mbind, M_bind. simpl.
        rewrite lookup_insert_eq. simpl. rewrite insert_insert_eq.
        unfold set_trace, set_fs, success_line, posted.
        cbn [environ remote fs trace]. rewrite <- !app_assoc. reflexivity.
  - unfold isinstance. cbn [class_of].
    destruct (issubclass cls RequestException); reflexivity.
Qed.


(** *** The loop over the phrases *)

Lemma advance_nil (w : World) : advance [] w = w.
Proof. unfold advance. rewrite app_nil_r. destruct w; reflexivity. Qed.

Lemma advance_app evs1 evs2 (w : World) :
  advance evs2 (advance evs1 w) = advance (evs1 ++ evs2) w.
Proof.
  unfold advance, set_trace, set_fs, apply_writes. cbn [environ remote fs trace].
  rewrite foldl_app, app_assoc. reflexivity.
Qed.

Lemma advance_environ evs (w : World) : environ (advance evs w) = environ w.
Proof. reflexivity. Qed.

Lemma advance_remote evs (w : World) : remote (advance evs w) = remote w.
Proof. reflexivity. Qed.

Lemma advance_trace evs (w : World) : trace (advance evs w) = trace w ++ evs.
Proof. reflexivity. Qed.

Lemma advance_fs evs (w : World) : fs (advance evs w) = apply_writes evs (fs w).
Proof. reflexivity. Qed.

(** One call: it returns with the events of [call_events], or it raises
    an exception that is no [RequestException], after the request and
    nothing else: the reply was such an exception, or the reply was good
    and the audio file could not be opened. *)
Lemma call_outcome api_key phrase (w : World) :
  let req := synthesis_request (text phrase) voice_id api_key in
  let reply := remote w (length (posts (trace w))) req in
  let run := generate_audio_with_elevenlabs (text phrase) voice_id api_key
               (audio_path phrase) w in
  (∃ b evs, run = (Ok b, advance evs w)
     ∧ call_events api_key phrase b evs
     ∧ (b = true → fs w !! audio_path phrase ≠ Some Dir
                   ∧ node_at (fs w) output_dir = Some Dir))
  ∨ (∃ e, run = (Raise e, advance [EvPost req reply] w)
     ∧ isinstance e RequestException = false
     ∧ caught reply = None
     ∧ exit_status (Raise e : Result ()) = (if isinstance e KeyboardInterrupt then -2 else 1)
     ∧ ((∃ cls msg, reply = Fails cls msg ∧ e = Exn cls msg)
        ∨ (isinstance e OSError = true
           ∧ (fs w !! audio_path phrase = Some Dir
              ∨ node_at (fs w) output_dir ≠ Some Dir)))).
Proof.
  intros req reply run. unfold run. rewrite generate_unfold.
  fold req. fold reply.
  destruct reply as [r|cls msg] eqn:Hreply.
  - destruct (http_error r) as [e|] eqn:He.
    + left. exists false, [EvPost req (Responds r); EvPrint (failure_line (text phrase) e)].
      split; [|split; [by apply call_failed|done]].
      unfold advance. cbn [apply_writes foldl]. rewrite <- app_assoc.
      destruct w; reflexivity.
    + destruct (open_w_cases (audio_path phrase) (fs w))
        as [(e & -> & Hne & Hos & Hwhy)|(-> & Hp & q & n & Hq & Hdir)].
      * right. exists e. cbn [caught].
        split; [|split; [done|split; [done|split]]].
        -- unfold advance. cbn [apply_writes foldl]. destruct w; reflexivity.
        -- destruct e; [reflexivity|discriminate Hos].
        -- right. split; [done|]. by apply (Hwhy output_dir (filename phrase)).
      * left. exists true, [EvPost req (Responds r); EvWrite (audio_path phrase) (content r);
                            EvPrint (success_line (audio_path phrase))].
        split; [|split; [by apply call_generated|]].
        -- unfold advance. cbn [apply_writes foldl]. rewrite <- app_assoc. reflexivity.
        -- intros _. split; [done|]. injection Hq as <- _. done.
  - destruct (issubclass cls RequestException) eqn:Hinst.
    + left. exists false, [EvPost req (Fails cls msg);
                           EvPrint (failure_line (text phrase) (Exn cls msg))].
      split; [|split; [|done]].
      * unfold advance. cbn [apply_writes foldl]. rewrite <- app_assoc.
        destruct w; reflexivity.
      * apply call_failed. cbn [caught]. by rewrite Hinst.
    + right. exists (Exn cls msg). cbn [caught]. rewrite Hinst.
      split; [|split; [done|split; [done|split; [done|left; eauto]]]].
      unfold advance. cbn [apply_writes foldl]. destruct w; reflexivity.
Qed.

Lemma count_true_cons b bs :
  count_true (b :: bs) = (if b then 1 else 0) + count_true bs.
Proof. unfold count_true. destruct b; cbn [List.filter id length]; lia. Qed.

Lemma loop_cons api_key phrase rest s (w : World) :
  for_each (phrase :: rest) (loop_body api_key) s w
  = match generate_audio_with_elevenlabs (text phrase) voice_id api_key
            (audio_path phrase) w with
    | (Ok b, w') => for_each rest (loop_body api_key) (s + (if b then 1 else 0)) w'
    | (Raise e, w') => (Raise e, w')
    end.
Proof.
  cbn [for_each]. rewrite bind_unfold. unfold loop_body at 1.
  rewrite bind_unfold. fold (audio_path phrase).
  destruct (generate_audio_with_elevenlabs _ _ _ _ w) as [[[|]|e] w']; [| |reflexivity].
  - reflexivity.
  - rewrite Z.add_0_r. reflexivity.
Qed.

(** The loop: every call returns and the count is the number of calls
    that returned [true], or the loop ends where the first call raises. *)
Lemma loop_outcome api_key phrases : ∀ s (w : World),
  let run := for_each phrases (loop_body api_key) s w in
  (∃ bs evs, run = (Ok (s + count_true bs), advance evs w)
     ∧ batch_events api_key phrases bs evs)
  ∨ (∃ e w' pre phrase post bs evs,
       phrases = pre ++ phrase :: post
       ∧ batch_events api_key pre bs evs
       ∧ for_each pre (loop_body api_key) s w = (Ok (s + count_true bs), advance evs w)
       ∧ generate_audio_with_elevenlabs (text phrase) voice_id api_key
           (audio_path phrase) (advance evs w) = (Raise e, w')
       ∧ run = (Raise e, w')).
Proof.
  induction phrases as [|phrase rest IH]; intros s w run.
  - left. exists [], []. unfold run, count_true. cbn [for_each List.filter length].
    rewrite advance_nil, Z.add_0_r. split; [reflexivity|constructor].
  - unfold run. rewrite loop_cons.
    destruct (call_outcome api_key phrase w)
      as [(b & evs & Hrun & Hevs & _)|(e & Hrun & Hne & _)]; rewrite Hrun.
    + destruct (IH (s + (if b then 1 else 0)) (advance evs w))
        as [(bs & evs' & Hrest & Hbatch)
           |(e & w' & pre & ph & post & bs & evs' & -> & Hbatch & Hpre & Hcall & Hrest)].
      * left. exists (b :: bs), (evs ++ evs'). rewrite Hrest, advance_app, count_true_cons.
        split; [f_equal; f_equal; lia|by econstructor].
      * right. exists e, w', (phrase :: pre), ph, post, (b :: bs), (evs ++ evs').
        split; [reflexivity|]. split; [by econstructor|].
        rewrite <- advance_app, count_true_cons. split; [|split; [exact Hcall|exact Hrest]].
        rewrite loop_cons, Hrun, Hpre.
        f_equal. f_equal. lia.
    + right. eexists e, _, [], phrase, rest, [], []. rewrite advance_nil.
      split; [reflexivity|]. split; [constructor|].
      split; [cbn [for_each]; unfold count_true; cbn; by rewrite Z.add_0_r|].
      rewrite Hrun. split; reflexivity.
Qed.


(** *** The run of [main] *)

Lemma on_fs_run {A} (m : M (gmap Path node) A) (w : World) :
  on_fs m w = (fst (m (fs w)), set_fs (snd (m (fs w))) w).
Proof. unfold on_fs. destruct (m (fs w)); reflexivity. Qed.

Lemma write_metadata_run doc (w : World) :
  with_open_w metadata_path (λ f, json_dump doc f 2) w
  = match open_w metadata_path (fs w) with
    | (Raise e, _) => (Raise e, w)
    | (Ok _, _) => (Ok (), advance [EvWrite metadata_path (Json.dumps 2 doc)] w)
    end.
Proof.
  unfold with_open_w. rewrite bind_unfold, on_fs_run.
  destruct (open_w_cases metadata_path (fs w)) as [(e & -> & _)|(-> & _)]; cbn [fst snd].
  - destruct w; reflexivity.
  - unfold json_dump, f_write. rewrite bind_unfold, on_fs_run.
    unfold Fs.write. cbn [fs set_fs]. rewrite lookup_insert_eq. cbn [fst snd].
    rewrite insert_insert_eq.
    unfold emit, modify, advance, set_trace, set_fs. cbn [environ remote fs trace apply_writes foldl].
    reflexivity.
Qed.

Lemma main_with_run phrases env net t key :
  env !! "ELEVENLABS_API_KEY" = Some key → key ≠ EmptyString →
  main_with phrases (boot env net t)
  = match mkdir output_dir true true t with
    | (Raise e, t1) => (Raise e, boot env net t1)
    | (Ok _, t1) =>
        match generate_all key phrases (boot env net t1) with
        | (Raise e, w2) => (Raise e, w2)
        | (Ok n, w2) =>
            match open_w metadata_path (fs w2) with
            | (Raise e, _) => (Raise e, w2)
            | (Ok _, _) =>
                (Ok (bool_decide (n = Z.of_nat (length phrases))),
                 advance (closing_events phrases n) w2)
            end
        end
    end.
Proof.
  intros Hkey Hne. unfold main_with. rewrite bind_unfold.
  unfold os_getenv. cbn [boot environ]. rewrite Hkey.
  cbn [truthy default from_option id].
  rewrite bool_decide_eq_false_2 by exact Hne. cbn [negb].
  rewrite bind_unfold, on_fs_run.
  change (fs (boot env net t)) with t.
  change (set_fs ?t1 (boot env net t)) with (boot env net t1).
  destruct (mkdir output_dir true true t) as [[[]|e] t1]; cbn [fst snd]; [|reflexivity].
  rewrite bind_unfold.
  destruct (generate_all key phrases (boot env net t1)) as [[n|e] w2]; [|reflexivity].
  rewrite bind_unfold, write_metadata_run.
  destruct (open_w metadata_path (fs w2)) as [[f|e] t3]; [|reflexivity].
  rewrite bind_unfold. unfold print at 1. unfold emit, modify.
  rewrite bind_unfold. unfold print, emit, modify. unfold mret, M_ret.
  unfold closing_events, advance, set_trace, set_fs, summary_line, saved_line.
  cbn [environ remote fs trace apply_writes foldl]. rewrite <- !app_assoc.
  reflexivity.
Qed.


(** *** What the events of a loop say *)

Lemma count_true_bounds bs : 0 ≤ count_true bs ≤ Z.of_nat (length bs).
Proof.
  induction bs as [|b bs IH]; [unfold count_true; cbn; lia|].
  rewrite count_true_cons. cbn [length]. destruct b; lia.
Qed.

Lemma call_events_writes api_key phrase b evs path data :
  call_events api_key phrase b evs →
  EvWrite path data ∈ evs → b = true ∧ path = audio_path phrase.
Proof.
  intros [r Hr|reply e He] Hin.
  - apply elem_of_cons in Hin as [[=]|Hin].
    apply elem_of_cons in Hin as [[= -> ->]|Hin]; [done|].
    apply elem_of_cons in Hin as [[=]|Hin]. by apply elem_of_nil in Hin.
  - apply elem_of_cons in Hin as [[=]|Hin].
    apply elem_of_cons in Hin as [[=]|Hin]. by apply elem_of_nil in Hin.
Qed.

Lemma call_events_generated api_key phrase evs :
  call_events api_key phrase true evs → ∃ data, EvWrite (audio_path phrase) data ∈ evs.
Proof.
  inversion 1; subst. eexists. apply elem_of_cons. right. apply elem_of_cons. by left.
Qed.

Lemma caught_request_failed reply :
  request_failed reply = bool_decide (is_Some (caught reply)).
Proof.
  destruct reply as [r|cls msg]; cbn [request_failed caught].
  - pose proof (http_error_status r) as Hiff.
    destruct (Z.leb_spec 400 (status_code r)), (Z.ltb_spec (status_code r) 600);
      cbn [andb]; symmetry.
    + apply bool_decide_eq_true_2, Hiff. lia.
    + apply bool_decide_eq_false_2. intros Hs%Hiff. lia.
    + apply bool_decide_eq_false_2. intros Hs%Hiff. lia.
    + apply bool_decide_eq_false_2. intros Hs%Hiff. lia.
  - destruct (issubclass cls RequestException); symmetry.
    + apply bool_decide_eq_true_2. eauto.
    + apply bool_decide_eq_false_2. intros [? [=]].
Qed.

Lemma call_events_counts api_key phrase b evs :
  call_events api_key phrase b evs →
  length (posts evs) = 1%nat
  ∧ length (List.filter is_write evs) = (if b then 1 else 0)%nat
  ∧ length (List.filter is_failed_post evs) = (if b then 0 else 1)%nat.
Proof.
  intros [r Hr|reply e He]; unfold posts;
    cbn [List.filter is_post is_write is_failed_post]; rewrite caught_request_failed.
  - cbn [caught]. rewrite Hr. rewrite bool_decide_eq_false_2 by (intros [? [=]]). done.
  - rewrite He. rewrite bool_decide_eq_true_2 by eauto. done.
Qed.

Section Batch.
Variable api_key : string.

Lemma batch_flags phrases bs evs :
  batch_events api_key phrases bs evs → length bs = length phrases.
Proof. induction 1; cbn [length]; congruence. Qed.

Lemma batch_writes_at phrases bs evs path data :
  batch_events api_key phrases bs evs →
  EvWrite path data ∈ evs → ∃ phrase, phrase ∈ phrases ∧ path = audio_path phrase.
Proof.
  induction 1 as [|phrase rest b bs evs evs' Hcall Hrest IH]; intros Hin.
  - by apply elem_of_nil in Hin.
  - apply elem_of_app in Hin as [Hin|Hin].
    + exists phrase. split; [by left|]. by eapply call_events_writes.
    + destruct (IH Hin) as (p & Hp & ->). exists p. split; [by right|done].
Qed.

Lemma batch_counts phrases bs evs :
  batch_events api_key phrases bs evs →
  length (posts evs) = length phrases
  ∧ Z.of_nat (length (List.filter is_write evs)) = count_true bs
  ∧ Z.of_nat (length (List.filter is_failed_post evs))
    = Z.of_nat (length phrases) - count_true bs.
Proof.
  induction 1 as [|phrase rest b bs evs evs' Hcall Hrest (IHp & IHw & IHf)].
  - unfold count_true. cbn. lia.
  - destruct (call_events_counts _ _ _ _ Hcall) as (Hp & Hw & Hf).
    unfold posts in *. rewrite !List.filter_app, !length_app, count_true_cons.
    cbn [length]. rewrite Hp, Hw, Hf, IHp. destruct b; lia.
Qed.

Lemma batch_all_generated phrases bs evs :
  batch_events api_key phrases bs evs →
  count_true bs = Z.of_nat (length phrases) →
  ∀ phrase, phrase ∈ phrases → ∃ data, EvWrite (audio_path phrase) data ∈ evs.
Proof.
  induction 1 as [|phrase rest b bs evs evs' Hcall Hrest IH]; intros Hcount p Hp.
  - by apply elem_of_nil in Hp.
  - rewrite count_true_cons in Hcount. cbn [length] in Hcount.
    pose proof (count_true_bounds bs) as Hb.
    pose proof (batch_flags _ _ _ Hrest) as Hlen.
    destruct b; [|lia].
    apply elem_of_cons in Hp as [->|Hp].
    + destruct (call_events_generated _ _ _ Hcall) as [data Hd].
      exists data. apply elem_of_app. by left.
    + destruct (IH ltac:(lia) p Hp) as [data Hd].
      exists data. apply elem_of_app. by right.
Qed.

Lemma batch_generated_all phrases bs evs :
  batch_events api_key phrases bs evs →
  NoDup (filename <$> phrases) →
  (∀ phrase, phrase ∈ phrases → ∃ data, EvWrite (audio_path phrase) data ∈ evs) →
  count_true bs = Z.of_nat (length phrases).
Proof.
  induction 1 as [|phrase rest b bs evs evs' Hcall Hrest IH]; intros Hnodup Hall.
  - reflexivity.
  - cbn [fmap list_fmap] in Hnodup. apply NoDup_cons in Hnodup as [Hfresh Hnodup].
    assert (Hother : ∀ p, p ∈ rest → audio_path p ≠ audio_path phrase).
    { intros p Hp [= Heq]. apply Hfresh. rewrite <- Heq.
      apply list_elem_of_fmap. by exists p. }
    rewrite count_true_cons. cbn [length].
    assert (Hb : b = true).
    { destruct (Hall phrase ltac:(by left)) as [data Hin].
      apply elem_of_app in Hin as [Hin|Hin].
      - by eapply call_events_writes.
      - destruct (batch_writes_at _ _ _ _ _ Hrest Hin) as (p & Hp & Heq).
        exfalso. by eapply Hother. }
    rewrite IH; [subst b; lia|exact Hnodup|].
    intros p Hp. destruct (Hall p ltac:(by right)) as [data Hin].
    exists data. apply elem_of_app in Hin as [Hin|Hin]; [|done].
    exfalso. apply (Hother p Hp). by eapply call_events_writes.
Qed.

End Batch.


(** *** [Path.mkdir] on the output directory *)

Lemma isinstance_class c msg d : isinstance (Exn c msg) d = issubclass c d.
Proof. reflexivity. Qed.

Ltac run_mkdir :=
  unfold output_dir, tests_dir in *; cbn [mkdir];
  unfold try_except, os_mkdir, mkdir_leaf, try_except, os_mkdir, is_dir, raise;
  repeat (first
    [ rewrite bind_unfold
    | progress cbn [node_at dispatch negb orb fst snd]
    | rewrite isinstance_class
    | match goal with
      | H : ?t !! ?p = _ |- context [?t !! ?p] => rewrite H
      | |- context [<[?p := _]> _ !! ?p] => rewrite lookup_insert_eq
      | |- context [<[?p := _]> _ !! ?q] => rewrite (lookup_insert_ne _ p q) by discriminate
      | |- context [issubclass ?c ?d] =>
          let b := eval vm_compute in (issubclass c d) in
          change (issubclass c d) with b
      end ]).

(** The outcome of [mkdir(parents=True, exist_ok=True)] on the output
    directory, by what is at the two paths. *)
Lemma mkdir_output_dir_run (t : gmap Path node) :
  match t !! tests_dir, t !! output_dir with
  | Some Dir, Some Dir => mkdir output_dir true true t = (Ok (), t)
  | Some (File _), Some Dir => mkdir output_dir true true t = (Ok (), t)
  | None, Some Dir => mkdir output_dir true true t = (Ok (), <[tests_dir := Dir]> t)
  | Some Dir, None => mkdir output_dir true true t = (Ok (), <[output_dir := Dir]> t)
  | None, None =>
      mkdir output_dir true true t
      = (Ok (), <[output_dir := Dir]> (<[tests_dir := Dir]> t))
  | Some Dir, Some (File _) | Some (File _), Some (File _) | Some (File _), None =>
      ∃ e, mkdir output_dir true true t = (Raise e, t) ∧ isinstance e OSError = true
  | None, Some (File _) =>
      ∃ e, mkdir output_dir true true t = (Raise e, <[tests_dir := Dir]> t)
           ∧ isinstance e OSError = true
  end.
Proof.
  destruct (t !! tests_dir) as [[|c]|] eqn:Htests;
    destruct (t !! output_dir) as [[|c']|] eqn:Hout.
  all: run_mkdir.
  all: try reflexivity; eexists; split; reflexivity.
Qed.

(** When [mkdir] returns the output directory is a directory, and
    nothing below it changed. *)
Lemma mkdir_output_dir_ok (t t1 : gmap Path node) :
  mkdir output_dir true true t = (Ok (), t1) →
  t1 !! output_dir = Some Dir
  ∧ ∀ name, t1 !! (output_dir / name)%path = t !! (output_dir / name)%path.
Proof.
  intros Hrun. pose proof (mkdir_output_dir_run t) as Hcases.
  destruct (t !! tests_dir) as [[|c]|] eqn:Htests;
    destruct (t !! output_dir) as [[|c']|] eqn:Hout;
    try (destruct Hcases as (e & Hcases & _));
    rewrite Hcases in Hrun; try discriminate Hrun; injection Hrun as <-.
  all: split; [|intros name].
  all: unfold output_dir, tests_dir in *.
  all: rewrite ?lookup_insert_eq, ?lookup_insert_ne by discriminate; done.
Qed.

Lemma mkdir_output_dir_raises (t t1 : gmap Path node) e :
  mkdir output_dir true true t = (Raise e, t1) →
  isinstance e OSError = true ∧ isinstance e RequestException = false
  ∧ t1 !! metadata_path = t !! metadata_path.
Proof.
  intros Hrun. pose proof (mkdir_output_dir_run t) as Hcases.
  destruct (t !! tests_dir) as [[|c]|] eqn:Htests;
    destruct (t !! output_dir) as [[|c']|] eqn:Hout;
    try (destruct Hcases as (e' & Hcases & He));
    rewrite Hcases in Hrun; try discriminate Hrun; injection Hrun as <- <-.
  all: split; [exact He|split].
  all: try (unfold metadata_path, output_dir, tests_dir;
            rewrite ?lookup_insert_ne by discriminate; reflexivity).
  all: revert Hcases; run_mkdir; intros [= <-]; reflexivity.
Qed.

(** *** The run of [main], by cases *)

Lemma main_outcome phrases env net t key :
  env !! "ELEVENLABS_API_KEY" = Some key → key ≠ EmptyString →
  match mkdir output_dir true true t with
  | (Raise e, t1) => main_with phrases (boot env net t) = (Raise e, boot env net t1)
  | (Ok _, t1) =>
      ∃ r w', main_with phrases (boot env net t) = (r, w')
              ∧ main_shape key phrases (boot env net t1) r w'
  end.
Proof.
  intros Hkey Hne. rewrite (main_with_run phrases env net t key Hkey Hne).
  destruct (mkdir output_dir true true t) as [[[]|e] t1]; [|reflexivity].
  set (w0 := boot env net t1).
  unfold generate_all.
  destruct (loop_outcome key phrases 0 w0)
    as [(bs & evs & Hrun & Hbatch)
       |(e & w' & pre & ph & post & bs & evs & Hsplit & Hbatch & Hpre & Hcall & Hrun)];
    rewrite Hrun; rewrite ?Z.add_0_l in *.
  - destruct (open_w_cases metadata_path (fs (advance evs w0)))
      as [(e & -> & _ & Hos & Hwhy)|(-> & Hfree & q & n & [= <- <-] & Hdir)].
    + eexists _, _. split; [reflexivity|].
      apply shape_unwritten with (bs := bs); [done|done|done|].
      apply (Hwhy output_dir "test_metadata.json"). reflexivity.
    + eexists _, _. split; [|by apply shape_returned].
      by rewrite advance_app.
  - eexists _, _. split; [reflexivity|]. by eapply shape_call_raised.
Qed.


(** *** The script, the tree and the fixed list *)

Lemma script_run (w : World) :
  script w = match main w with
             | (Ok b, w') => (Raise (Exit (if b then 0 else 1)), w')
             | (Raise e, w') => (Raise e, w')
             end.
Proof.
  unfold script. rewrite bind_unfold.
  destruct (main w) as [[[|]|e] w']; reflexivity.
Qed.

Lemma script_trace (w : World) : trace (snd (script w)) = trace (snd (main w)).
Proof. rewrite script_run. destruct (main w) as [[b|e] w']; reflexivity. Qed.

Lemma script_fs (w : World) : fs (snd (script w)) = fs (snd (main w)).
Proof. rewrite script_run. destruct (main w) as [[b|e] w']; reflexivity. Qed.

Lemma apply_writes_app evs1 evs2 (t : gmap Path node) :
  apply_writes (evs1 ++ evs2) t = apply_writes evs2 (apply_writes evs1 t).
Proof. unfold apply_writes. apply foldl_app. Qed.

Lemma apply_writes_cons ev evs (t : gmap Path node) :
  apply_writes (ev :: evs) t
  = apply_writes evs (match ev with EvWrite p data => <[p := File data]> t | _ => t end).
Proof. reflexivity. Qed.

(** A path no event writes to keeps its node. *)
Lemma apply_writes_frame evs : ∀ (t : gmap Path node) p,
  (∀ data, EvWrite p data ∉ evs) → apply_writes evs t !! p = t !! p.
Proof.
  induction evs as [|ev evs IH]; intros t p Hfree; [reflexivity|].
  rewrite apply_writes_cons, IH.
  - destruct ev as [line|req reply|q data]; [done|done|].
    apply lookup_insert_ne. intros ->. apply (Hfree data). by left.
  - intros data Hin. apply (Hfree data). by right.
Qed.

(** Writes make files: they never leave a directory where none was. *)
Lemma apply_writes_no_new_dir evs : ∀ (t : gmap Path node) p,
  t !! p ≠ Some Dir → apply_writes evs t !! p ≠ Some Dir.
Proof.
  induction evs as [|ev evs IH]; intros t p Hp; [exact Hp|].
  rewrite apply_writes_cons. apply IH.
  destruct ev as [line|req reply|q data]; [done|done|].
  destruct (decide (q = p)) as [->|Hne].
  - rewrite lookup_insert_eq. discriminate.
  - by rewrite lookup_insert_ne.
Qed.

Lemma write_paths_cons ev evs :
  write_paths (ev :: evs)
  = match ev with EvWrite p _ => p :: write_paths evs | _ => write_paths evs end.
Proof. destruct ev; reflexivity. Qed.

Lemma write_paths_app evs1 evs2 :
  write_paths (evs1 ++ evs2) = write_paths evs1 ++ write_paths evs2.
Proof. unfold write_paths. apply omap_app. Qed.

Lemma elem_of_write_paths evs p :
  p ∈ write_paths evs ↔ ∃ data, EvWrite p data ∈ evs.
Proof.
  unfold write_paths. rewrite list_elem_of_omap. split.
  - intros ([line|req reply|q data] & Hin & Heq); try discriminate Heq.
    injection Heq as ->. eauto.
  - intros [data Hin]. by exists (EvWrite p data).
Qed.

(** A written path holds a file afterwards, and when no path is written
    twice it holds the data of its write. *)
Lemma apply_writes_file evs : ∀ (t : gmap Path node) p data,
  EvWrite p data ∈ evs → apply_writes evs t !! p ≠ Some Dir ∧ is_Some (apply_writes evs t !! p).
Proof.
  induction evs as [|ev evs IH]; intros t p data Hin; [by apply elem_of_nil in Hin|].
  rewrite apply_writes_cons.
  apply elem_of_cons in Hin as [<-|Hin]; [|by eapply IH].
  destruct (decide (p ∈ write_paths evs)) as [[data' Hagain]%elem_of_write_paths|Hlast].
  - by eapply IH.
  - rewrite apply_writes_frame
      by (intros data' Hd; apply Hlast, elem_of_write_paths; eauto).
    rewrite lookup_insert_eq. split; [discriminate|eauto].
Qed.

Lemma apply_writes_last evs : ∀ (t : gmap Path node) p data,
  NoDup (write_paths evs) → EvWrite p data ∈ evs →
  apply_writes evs t !! p = Some (File data).
Proof.
  induction evs as [|ev evs IH]; intros t p data Hnodup Hin;
    [by apply elem_of_nil in Hin|].
  rewrite apply_writes_cons. rewrite write_paths_cons in Hnodup.
  apply elem_of_cons in Hin as [<-|Hin].
  - apply NoDup_cons in Hnodup as [Hfresh _].
    rewrite apply_writes_frame; [apply lookup_insert_eq|].
    intros data' Hd. apply Hfresh, elem_of_write_paths. eauto.
  - apply IH; [|exact Hin]. destruct ev; [done|done|by apply NoDup_cons in Hnodup as [_ ?]].
Qed.


Lemma call_raised api_key phrase (w w' : World) e :
  generate_audio_with_elevenlabs (text phrase) voice_id api_key (audio_path phrase) w
  = (Raise e, w') →
  let req := synthesis_request (text phrase) voice_id api_key in
  let reply := remote w (length (posts (trace w))) req in
  w' = advance [EvPost req reply] w
  ∧ isinstance e RequestException = false
  ∧ caught reply = None
  ∧ exit_status (Raise e : Result ()) = (if isinstance e KeyboardInterrupt then -2 else 1).
Proof.
  intros Hrun req reply.
  destruct (call_outcome api_key phrase w)
    as [(b & evs & Hok & _)|(e' & Hraise & Hne & Hcaught & Hexit & _)].
  - rewrite Hok in Hrun. discriminate Hrun.
  - rewrite Hraise in Hrun. injection Hrun as <- <-. done.
Qed.

Lemma test_phrases_filenames : NoDup (filename <$> test_phrases).
Proof. apply (bool_decide_unpack _); vm_compute; exact I. Qed.

Lemma test_phrases_not_metadata phrase :
  phrase ∈ test_phrases → audio_path phrase ≠ metadata_path.
Proof.
  intros Hin [= Heq]. revert phrase Hin Heq.
  apply (Forall_forall (λ p, filename p ≠ "test_metadata.json")).
  apply (bool_decide_unpack _); vm_compute; exact I.
Qed.

Lemma audio_path_below phrase : audio_path phrase ≠ output_dir.
Proof. unfold audio_path, output_dir. intros H. injection H as H _. discriminate H. Qed.

Lemma metadata_path_below : metadata_path ≠ output_dir.
Proof. unfold metadata_path, output_dir. intros H. injection H as H _. discriminate H. Qed.

Lemma credential_cases (env : gmap string string) :
  truthy (env !! "ELEVENLABS_API_KEY") = false
  ∨ ∃ key, env !! "ELEVENLABS_API_KEY" = Some key ∧ key ≠ EmptyString.
Proof.
  destruct (env !! "ELEVENLABS_API_KEY") as [key|]; [|by left].
  destruct (decide (key = EmptyString)) as [->|Hne]; [by left|].
  right. by exists key.
Qed.

(** The metadata path is written by the closing events only. *)
Lemma batch_leaves_metadata api_key phrases bs evs doc :
  (∀ phrase, phrase ∈ phrases → audio_path phrase ≠ metadata_path) →
  batch_events api_key phrases bs evs → EvWrite metadata_path doc ∉ evs.
Proof.
  intros Hnames Hbatch Hin.
  destruct (batch_writes_at _ _ _ _ _ _ Hbatch Hin) as (p & Hp & Heq).
  by apply (Hnames p Hp).
Qed.

Lemma shape_metadata_write api_key phrases w0 r w' doc :
  trace w0 = [] →
  (∀ phrase, phrase ∈ phrases → audio_path phrase ≠ metadata_path) →
  main_shape api_key phrases w0 r w' →
  EvWrite metadata_path doc ∈ trace w' →
  doc = Json.dumps 2 (metadata phrases) ∧ ∃ b, r = Ok b.
Proof.
  intros Hfresh Hnames Hshape Hin.
  destruct Hshape as [e w' pre ph post bs evs Hsplit Hbatch Hpre Hcall
                     |e bs evs Hbatch Hloop He Hwhy
                     |bs evs Hbatch Hloop Hfree Hdir].
  - exfalso. destruct (call_raised _ _ _ _ _ Hcall) as (-> & _).
    rewrite !advance_trace, Hfresh, app_nil_l in Hin.
    apply elem_of_app in Hin as [Hin|Hin].
    + revert Hin. eapply batch_leaves_metadata; [|exact Hbatch].
      intros p Hp. apply Hnames. subst phrases. apply elem_of_app. by left.
    + apply elem_of_cons in Hin as [[=]|Hin]. by apply elem_of_nil in Hin.
  - exfalso. rewrite advance_trace, Hfresh, app_nil_l in Hin.
    revert Hin. by eapply batch_leaves_metadata.
  - rewrite advance_trace, Hfresh, app_nil_l in Hin.
    apply elem_of_app in Hin as [Hin|Hin].
    + exfalso. revert Hin. by eapply batch_leaves_metadata.
    + split; [|eauto].
      apply elem_of_cons in Hin as [[= ->]|Hin]; [reflexivity|].
      apply elem_of_cons in Hin as [[=]|Hin].
      apply elem_of_cons in Hin as [[=]|Hin]. by apply elem_of_nil in Hin.
Qed.

Lemma main_cases env net t :
  (truthy (env !! "ELEVENLABS_API_KEY") = false
   ∧ main (boot env net t) = (Ok false, set_trace credential_error (boot env net t)))
  ∨ (∃ key, env !! "ELEVENLABS_API_KEY" = Some key ∧ key ≠ EmptyString
       ∧ ((∃ e t1, mkdir output_dir true true t = (Raise e, t1)
                   ∧ main (boot env net t) = (Raise e, boot env net t1))
          ∨ (∃ t1 r w', mkdir output_dir true true t = (Ok (), t1)
                        ∧ main (boot env net t) = (r, w')
                        ∧ main_shape key test_phrases (boot env net t1) r w'))).
Proof.
  destruct (credential_cases env) as [Hnone|(key & Hkey & Hne)].
  - left. split; [exact Hnone|]. by apply main_without_credential.
  - right. exists key. split; [exact Hkey|]. split; [exact Hne|].
    pose proof (main_outcome test_phrases env net t key Hkey Hne) as Hrun.
    destruct (mkdir output_dir true true t) as [[[]|e] t1].
    + right. destruct Hrun as (r & w' & Hrun & Hshape). by exists t1, r, w'.
    + left. by exists e, t1.
Qed.

Lemma listed_entries_of_phrases : metadata_entry <$> test_phrases = listed_entries.
Proof. reflexivity. Qed.

Lemma document_text_encoded : Json.dumps 2 (metadata test_phrases) = document_text.
Proof. vm_compute. reflexivity. Qed.

(** C1: whenever a run writes the metadata document, the document is the
    encoding of the metadata of the whole phrase list, and it is the text
    written out above, byte for byte.  Its [test_audio_files] has one
    entry for each configured phrase, five in all, in the order of the
    list, whatever the calls of the run did; the entry of a phrase has
    the keys filename, text and expected_transcription, in this order,
    with the file name, the text and the expected text of the phrase. *)
Theorem metadata_lists_every_phrase env net t doc :
  EvWrite metadata_path doc ∈ trace (snd (main (boot env net t))) →
  doc = Json.dumps 2 (metadata test_phrases)
  ∧ doc = document_text
  ∧ ∃ entries,
      Json.get "test_audio_files" (metadata test_phrases) = Some (JList entries)
      ∧ length entries = length test_phrases
      ∧ length entries = 5%nat
      ∧ (∀ i, entries !! i = metadata_entry <$> (test_phrases !! i))
      ∧ (∀ i phrase, test_phrases !! i = Some phrase →
           entries !! i = Some (JDict [ ("filename", JStr (filename phrase));
                                        ("text", JStr (text phrase));
                                        ("expected_transcription", JStr (expected phrase)) ]))
      ∧ entries = listed_entries.
Proof.
  intros Hin.
  assert (Hdoc : doc = Json.dumps 2 (metadata test_phrases)).
  { destruct (main_cases env net t)
      as [[_ Hrun]|(key & _ & _ & [(e & t1 & _ & Hrun)|(t1 & r & w' & _ & Hrun & Hshape)])];
      rewrite Hrun in Hin; cbn [snd] in Hin.
    - apply elem_of_cons in Hin as [[=]|Hin]. by apply elem_of_nil in Hin.
    - by apply elem_of_nil in Hin.
    - eapply shape_metadata_write; [| |exact Hshape|exact Hin]; [reflexivity|].
      apply test_phrases_not_metadata. }
  split; [exact Hdoc|]. split; [by rewrite Hdoc, document_text_encoded|].
  exists (metadata_entry <$> test_phrases).
  split; [reflexivity|]. split; [apply length_fmap|]. split; [reflexivity|].
  split; [intros i; apply list_lookup_fmap|]. split; [|apply listed_entries_of_phrases].
  intros i phrase Hphrase. by rewrite list_lookup_fmap, Hphrase.
Qed.


Lemma strip_prefix_sound needle : ∀ hay rest,
  strip_prefix needle hay = Some rest → hay = needle +:+ rest.
Proof.
  induction needle as [|a needle IH]; intros hay rest Hstrip.
  - cbn in Hstrip. by injection Hstrip as ->.
  - destruct hay as [|b hay]; [discriminate Hstrip|]. cbn in Hstrip.
    case_bool_decide; [|discriminate Hstrip]. subst b.
    change (String a needle +:+ rest) with (String a (needle +:+ rest)).
    f_equal. by apply IH.
Qed.

Lemma occursb_sound needle : ∀ hay, occursb needle hay = true → occurs_in needle hay.
Proof.
  induction hay as [|b hay IH]; intros Hocc.
  - cbn in Hocc. destruct (strip_prefix needle EmptyString) as [rest|] eqn:Hstrip;
      [|discriminate Hocc].
    exists EmptyString, rest. exact (strip_prefix_sound _ _ _ Hstrip).
  - cbn [occursb] in Hocc.
    destruct (strip_prefix needle (String b hay)) as [rest|] eqn:Hstrip.
    + exists EmptyString, rest. exact (strip_prefix_sound _ _ _ Hstrip).
    + destruct (IH Hocc) as (before & after & ->).
      exists (String b before), after. reflexivity.
Qed.

Lemma oserror_not_interrupt e :
  isinstance e OSError = true → isinstance e KeyboardInterrupt = false.
Proof. destruct e as [[] msg|code]; first [reflexivity|discriminate]. Qed.

Lemma oserror_exit_status e :
  isinstance e OSError = true → exit_status (Raise e : Result ()) = 1.
Proof. destruct e as [[] msg|code]; first [reflexivity|discriminate]. Qed.

Lemma no_write_filter p evs :
  (∀ data, EvWrite p data ∉ evs) → List.filter (is_write_to p) evs = [].
Proof.
  induction evs as [|ev evs IH]; intros Hfree; [reflexivity|].
  cbn [List.filter]. rewrite IH by (intros data Hin; apply (Hfree data); by right).
  destruct ev as [line|req reply|q data]; [done|done|].
  cbn [is_write_to]. rewrite bool_decide_eq_false_2; [done|].
  intros ->. apply (Hfree data). by left.
Qed.

(** The exit status of the script, from the run of [main]. *)
Lemma exit_code_run (w : World) :
  exit_code w = match fst (main w) with
                | Ok true => 0
                | Ok false => 1
                | Raise e => exit_status (Raise e : Result ())
                end.
Proof.
  unfold exit_code. rewrite script_run.
  destruct (main w) as [[[|]|[c msg|code]] w']; reflexivity.
Qed.

Lemma main_raise_exit_status env net t e :
  fst (main (boot env net t)) = Raise e →
  exit_status (Raise e : Result ()) = (if isinstance e KeyboardInterrupt then -2 else 1).
Proof.
  intros Hrun.
  destruct (main_cases env net t)
    as [[_ Hmain]|(key & _ & _ & [(e' & t1 & Hmk & Hmain)|(t1 & r & w' & _ & Hmain & Hshape)])];
    rewrite Hmain in Hrun; cbn [fst] in Hrun.
  - discriminate Hrun.
  - injection Hrun as ->.
    destruct (mkdir_output_dir_raises _ _ _ Hmk) as [Hos _].
    by rewrite (oserror_not_interrupt _ Hos), (oserror_exit_status _ Hos).
  - subst r. inversion Hshape as [? ? pre ph post bs evs Hsplit Hbatch Hpre Hcall|? bs evs ? ? He|]; subst.
    + by destruct (call_raised _ _ _ _ _ Hcall) as (_ & _ & _ & ?).
    + by rewrite (oserror_not_interrupt _ He), (oserror_exit_status _ He).
Qed.

Lemma raise_status_cases (x : Z) e :
  x = (if isinstance e KeyboardInterrupt then -2 else 1) →
  x ≠ 0 ∧ (x = -2 ↔ isinstance e KeyboardInterrupt = true) ∧ (x = 1 ∨ x = -2).
Proof.
  destruct (isinstance e KeyboardInterrupt); intros ->.
  - split; [discriminate|]. split; [done|by right].
  - split; [discriminate|]. split; [split; discriminate|by left].
Qed.

(** C2, as the code has it: the return code is 0 exactly when the audio
    file of every configured phrase was written and the metadata document
    was written after them.  In every other run it is 1, among them the
    runs without a credential, except the runs a [KeyboardInterrupt]
    ends that nothing caught: the interpreter ends those by SIGINT, and
    the return code is -2. *)
Theorem exit_code_zero_iff env net t :
  let w := boot env net t in
  let tr := trace (snd (script w)) in
  (exit_code w = 0
   ↔ (∀ phrase, phrase ∈ test_phrases → synthesized tr phrase) ∧ metadata_written tr)
  ∧ (exit_code w = -2
     ↔ ∃ e, fst (main w) = Raise e ∧ isinstance e KeyboardInterrupt = true)
  ∧ (exit_code w = 0 ∨ exit_code w = 1 ∨ exit_code w = -2)
  ∧ (truthy (env !! "ELEVENLABS_API_KEY") = false → exit_code w = 1)
  ∧ (∀ b, fst (main w) = Ok b → exit_code w = if b then 0 else 1).
Proof.
  intros w tr. unfold tr, w. rewrite script_trace, exit_code_run.
  assert (Hraised : ∀ e w', main (boot env net t) = (Raise e, w') →
            ¬ metadata_written (trace w') →
            truthy (env !! "ELEVENLABS_API_KEY") = true →
            (exit_status (Raise e : Result ()) = 0
             ↔ (∀ phrase, phrase ∈ test_phrases → synthesized (trace w') phrase)
               ∧ metadata_written (trace w'))
            ∧ (exit_status (Raise e : Result ()) = -2
               ↔ ∃ e', (Raise e : Result bool) = Raise e'
                       ∧ isinstance e' KeyboardInterrupt = true)
            ∧ (exit_status (Raise e : Result ()) = 0
               ∨ exit_status (Raise e : Result ()) = 1
               ∨ exit_status (Raise e : Result ()) = -2)
            ∧ (truthy (env !! "ELEVENLABS_API_KEY") = false
               → exit_status (Raise e : Result ()) = 1)
            ∧ (∀ b, (Raise e : Result bool) = Ok b
               → exit_status (Raise e : Result ()) = if b then 0 else 1)).
  { intros e w' Hmain Hmeta Hcred.
    pose proof (main_raise_exit_status env net t e) as Hexit.
    rewrite Hmain in Hexit. specialize (Hexit eq_refl).
    destruct (raise_status_cases _ e Hexit) as (Hnz & Hint & Hone).
    split; [split; [done|by intros [_ ?]]|].
    split; [|split; [by right|split; [congruence|discriminate]]].
    rewrite Hint. split; [by exists e|]. by intros (e' & [= <-] & ?). }
  destruct (main_cases env net t)
    as [[Hnone Hmain]|(key & Hkey & Hne & [(e & t1 & Hmk & Hmain)|(t1 & r & w' & _ & Hmain & Hshape)])].
  - rewrite Hmain. cbn [fst snd trace set_trace].
    split; [|split; [|split; [right; by left|split; [done|]]]].
    + split; [discriminate|]. intros [_ [doc Hin]].
      apply elem_of_cons in Hin as [[=]|Hin]. by apply elem_of_nil in Hin.
    + split; [discriminate|]. by intros (e & [=] & _).
    + by intros b [= <-].
  - assert (Hcred : truthy (env !! "ELEVENLABS_API_KEY") = true).
    { rewrite Hkey. cbn [truthy]. by rewrite bool_decide_eq_false_2. }
    rewrite Hmain. cbn [fst snd]. apply (Hraised e _ Hmain); [|exact Hcred].
    cbn [boot trace]. intros [doc Hin]. by apply elem_of_nil in Hin.
  - assert (Hcred : truthy (env !! "ELEVENLABS_API_KEY") = true).
    { rewrite Hkey. cbn [truthy]. by rewrite bool_decide_eq_false_2. }
    assert (Hmeta : ∀ doc, EvWrite metadata_path doc ∈ trace w' → ∃ b, r = Ok b).
    { intros doc Hin.
      eapply shape_metadata_write; [| |exact Hshape|exact Hin]; [reflexivity|].
      apply test_phrases_not_metadata. }
    rewrite Hmain. cbn [fst snd].
    destruct r as [b|e].
    + inversion Hshape as [| |bs evs Hbatch Hloop Hfree Hdir Hb Hw]; subst w'.
      rewrite advance_trace. cbn [boot trace app].
      assert (Hiff : count_true bs = Z.of_nat (length test_phrases)
                     ↔ (∀ phrase, phrase ∈ test_phrases →
                          synthesized (evs ++ closing_events test_phrases (count_true bs)) phrase)).
      { split.
        - intros Hcount p Hp.
          destruct (batch_all_generated _ _ _ _ Hbatch Hcount p Hp) as [data Hin].
          exists data. apply elem_of_app. by left.
        - intros Hall. eapply batch_generated_all; [exact Hbatch|apply test_phrases_filenames|].
          intros p Hp. destruct (Hall p Hp) as [data Hin]. exists data.
          apply elem_of_app in Hin as [Hin|Hin]; [done|].
          exfalso. apply (test_phrases_not_metadata p Hp).
          apply elem_of_cons in Hin as [Heq|Hin]; [|].
          { injection Heq as Heq _. unfold audio_path, metadata_path. by rewrite Heq. }
          apply elem_of_cons in Hin as [[=]|Hin].
          apply elem_of_cons in Hin as [[=]|Hin]. by apply elem_of_nil in Hin. }
      assert (Hwritten : metadata_written (evs ++ closing_events test_phrases (count_true bs))).
      { eexists. apply elem_of_app. right. by left. }
      rewrite Hb.
      destruct b; [apply bool_decide_eq_true_1 in Hb|apply bool_decide_eq_false_1 in Hb].
      * split; [|split; [|split; [by left|split; [by rewrite Hcred|by intros b [= <-]]]]].
        -- split; [|done]. intros _. split; [by apply Hiff|exact Hwritten].
        -- split; [discriminate|]. by intros (e & [=] & _).
      * split; [|split; [|split; [right; by left|split; [done|by intros b [= <-]]]]].
        -- split; [discriminate|]. intros [Hall _]. exfalso. by apply Hb, Hiff.
        -- split; [discriminate|]. by intros (e & [=] & _).
    + apply (Hraised e _ Hmain); [|exact Hcred].
      intros [doc Hin]. destruct (Hmeta doc Hin) as [b Hb]. discriminate Hb.
Qed.


(** The run of [main] when it returns with a credential: a loop in which
    every call returned, then the closing events. *)
Lemma main_returned env net t key b :
  env !! "ELEVENLABS_API_KEY" = Some key → key ≠ EmptyString →
  fst (main (boot env net t)) = Ok b →
  ∃ t1 bs evs,
    mkdir output_dir true true t = (Ok (), t1)
    ∧ batch_events key test_phrases bs evs
    ∧ b = bool_decide (count_true bs = Z.of_nat (length test_phrases))
    ∧ snd (main (boot env net t))
      = advance (evs ++ closing_events test_phrases (count_true bs)) (boot env net t1)
    ∧ apply_writes evs t1 !! metadata_path ≠ Some Dir
    ∧ node_at (apply_writes evs t1) output_dir = Some Dir.
Proof.
  intros Hkey Hne Hret.
  destruct (main_cases env net t)
    as [[Hnone _]|(key' & Hkey' & _ & [(e & t1 & _ & Hmain)|(t1 & r & w' & Hmk & Hmain & Hshape)])].
  - rewrite Hkey in Hnone. cbn in Hnone.
    rewrite bool_decide_eq_false_2 in Hnone by exact Hne. discriminate Hnone.
  - rewrite Hmain in Hret. discriminate Hret.
  - rewrite Hkey in Hkey'. injection Hkey' as <-.
    rewrite Hmain in Hret |- *. cbn [fst snd] in Hret |- *. subst r.
    inversion Hshape as [| |bs evs Hbatch Hloop Hfree Hdir Hb Hw]; subst.
    by exists t1, bs, evs.
Qed.

Lemma non_ascii_kept (a : ascii) :
  (128 ≤ nat_of_ascii a)%nat → Json.escape_char a = String a EmptyString.
Proof.
  intros Hhigh. unfold Json.escape_char.
  repeat (destruct (_ =? _)%nat eqn:?; [apply Nat.eqb_eq in Heqb; lia|clear Heqb]).
  destruct (_ <? _)%nat eqn:Hlow; [apply Nat.ltb_lt in Hlow; lia|reflexivity].
Qed.

(** C5, as the code has it: in every run with a credential in which
    [main] returns, the metadata document is written exactly once, to the
    sidecar path, whatever the calls did; it is there afterwards; it is
    the encoding of a dictionary with the five keys; and the encoder
    keeps every byte of a non-ASCII character, so that the text of every
    phrase stands in the document as it is. *)
Theorem metadata_written_once env net t key b :
  env !! "ELEVENLABS_API_KEY" = Some key → key ≠ EmptyString →
  fst (main (boot env net t)) = Ok b →
  let w' := snd (main (boot env net t)) in
  let doc := Json.dumps 2 (metadata test_phrases) in
  List.filter (is_write_to metadata_path) (trace w') = [EvWrite metadata_path doc]
  ∧ fs w' !! metadata_path = Some (File doc)
  ∧ Json.keys (metadata test_phrases)
    = ["test_audio_files"; "audio_format"; "sample_rate"; "channels"; "voice_model"]
  ∧ (∀ a, (128 ≤ nat_of_ascii a)%nat → Json.escape_char a = String a EmptyString)
  ∧ (∀ phrase, phrase ∈ test_phrases →
       occurs_in (Json.dquote +:+ text phrase +:+ Json.dquote) doc).
Proof.
  intros Hkey Hne Hret w' doc.
  destruct (main_returned env net t key b Hkey Hne Hret)
    as (t1 & bs & evs & Hmk & Hbatch & Hb & Hw & Hfree & Hdir).
  unfold w'. rewrite Hw, advance_trace, advance_fs. cbn [boot trace fs app].
  split; [|split; [|split; [reflexivity|split; [exact non_ascii_kept|]]]].
  - rewrite List.filter_app, no_write_filter.
    + cbn [closing_events List.filter is_write_to app].
      rewrite bool_decide_eq_true_2 by reflexivity. reflexivity.
    + intros data. eapply batch_leaves_metadata; [|exact Hbatch].
      apply test_phrases_not_metadata.
  - rewrite apply_writes_app. unfold closing_events.
    rewrite !apply_writes_cons. cbn [apply_writes foldl].
    apply lookup_insert_eq.
  - apply (Forall_forall (λ phrase,
             occurs_in (Json.dquote +:+ text phrase +:+ Json.dquote) doc)).
    repeat constructor; apply occursb_sound; vm_compute; reflexivity.
Qed.


Lemma caught_is_request_exception reply e :
  caught reply = Some e → isinstance e RequestException = true.
Proof.
  destruct reply as [r|cls msg]; cbn [caught].
  - intros He. unfold isinstance. by rewrite (http_error_class _ _ He).
  - destruct (issubclass cls RequestException) eqn:Hcls; [|discriminate].
    by intros [= <-].
Qed.

(** A call whose request failed returns [False] after the request and the
    failure line. *)
Lemma call_request_failed api_key phrase (w : World) :
  let req := synthesis_request (text phrase) voice_id api_key in
  let reply := remote w (length (posts (trace w))) req in
  request_failed reply = true →
  ∃ e, caught reply = Some e
       ∧ generate_audio_with_elevenlabs (text phrase) voice_id api_key (audio_path phrase) w
         = (Ok false, advance [EvPost req reply; EvPrint (failure_line (text phrase) e)] w).
Proof.
  intros req reply Hfailed.
  rewrite caught_request_failed in Hfailed.
  apply bool_decide_eq_true_1 in Hfailed as [e He].
  exists e. split; [exact He|].
  rewrite generate_unfold. fold req. fold reply.
  assert (Hworld : ∀ evs, advance (EvPost req reply :: evs) w
                          = set_trace ((trace w ++ [EvPost req reply]) ++ evs)
                              (set_fs (apply_writes evs (fs w)) w))
    by (intros evs; unfold advance; rewrite <- app_assoc; reflexivity).
  rewrite Hworld. cbn [apply_writes foldl].
  destruct reply as [r|cls msg]; cbn [caught] in He.
  - rewrite He. destruct w; reflexivity.
  - destruct (issubclass cls RequestException); [|discriminate He].
    injection He as <-. destruct w; reflexivity.
Qed.

Lemma batch_audio_writes api_key phrases bs evs :
  (∀ phrase, phrase ∈ phrases → audio_path phrase ≠ metadata_path) →
  batch_events api_key phrases bs evs →
  List.filter is_audio_write evs = List.filter is_write evs.
Proof.
  intros Hnames Hbatch. apply List.filter_ext_in.
  intros [line|req reply|p data] Hin%list_elem_of_In; [done|done|].
  cbn [is_audio_write is_write]. rewrite bool_decide_eq_false_2; [done|].
  intros ->. revert Hin. by eapply batch_leaves_metadata.
Qed.

(** C3, as the code has it.  A call whose request ends in a transport
    error or in a response with a status from 400 to 599 catches the
    error, prints the failure line with the text and the error, returns
    [False], and the loop goes on with the phrases after it.  And in a run
    in which [main] returns and exactly one request failed in this way,
    five requests went out, four audio files and the metadata document
    listing all five phrases were written, and the run reports failure. *)
Theorem caught_failure_continues :
  (∀ api_key phrase rest s (w : World),
     let req := synthesis_request (text phrase) voice_id api_key in
     let reply := remote w (length (posts (trace w))) req in
     request_failed reply = true →
     ∃ e, caught reply = Some e
          ∧ isinstance e RequestException = true
          ∧ generate_audio_with_elevenlabs (text phrase) voice_id api_key
              (audio_path phrase) w
            = (Ok false, advance [EvPost req reply; EvPrint (failure_line (text phrase) e)] w)
          ∧ for_each (phrase :: rest) (loop_body api_key) s w
            = for_each rest (loop_body api_key) s
                (advance [EvPost req reply; EvPrint (failure_line (text phrase) e)] w))
  ∧ (∀ env net t key b,
       env !! "ELEVENLABS_API_KEY" = Some key → key ≠ EmptyString →
       fst (main (boot env net t)) = Ok b →
       let tr := trace (snd (main (boot env net t))) in
       length (List.filter is_failed_post tr) = 1%nat →
       b = false
       ∧ exit_code (boot env net t) = 1
       ∧ length (posts tr) = 5%nat
       ∧ length (List.filter is_audio_write tr) = 4%nat
       ∧ List.filter (is_write_to metadata_path) tr
         = [EvWrite metadata_path (Json.dumps 2 (metadata test_phrases))]
       ∧ length (metadata_entry <$> test_phrases) = 5%nat).
Proof.
  split.
  - intros api_key phrase rest s w req reply Hfailed.
    destruct (call_request_failed api_key phrase w Hfailed) as (e & He & Hcall).
    exists e. split; [exact He|]. split; [by eapply caught_is_request_exception|].
    split; [exact Hcall|].
    rewrite loop_cons, Hcall. by rewrite Z.add_0_r.
  - intros env net t key b Hkey Hne Hret tr Hone.
    destruct (main_returned env net t key b Hkey Hne Hret)
      as (t1 & bs & evs & Hmk & Hbatch & Hb & Hw & Hfree & Hdir).
    destruct (batch_counts _ _ _ _ Hbatch) as (Hposts & Hwrites & Hfails).
    assert (Hnames := test_phrases_not_metadata).
    unfold tr in *. rewrite Hw, advance_trace in *. cbn [boot trace app] in *.
    unfold posts in *. rewrite !List.filter_app, !length_app in *.
    rewrite (batch_audio_writes _ _ _ _ Hnames Hbatch).
    cbn [closing_events List.filter is_failed_post is_post is_audio_write is_write_to
           length] in *.
    rewrite bool_decide_eq_true_2 by reflexivity. cbn [negb length].
    rewrite no_write_filter
      by (intros data; eapply batch_leaves_metadata; [exact Hnames|exact Hbatch]).
    assert (Hcount : count_true bs = 4) by (cbn [length test_phrases] in Hfails; lia).
    assert (Hfalse : b = false)
      by (subst b; rewrite Hcount; apply bool_decide_eq_false_2; discriminate).
    split; [exact Hfalse|]. split.
    { rewrite exit_code_run, Hret, Hfalse. reflexivity. }
    split; [cbn [length test_phrases] in Hposts; lia|].
    split; [lia|]. split; reflexivity.
Qed.


(** *** Exceptions that are not caught *)

Lemma for_each_app {W A S} (xs ys : list A) (body : A → S → M W S) : ∀ s (w : W),
  for_each (xs ++ ys) body s w
  = match for_each xs body s w with
    | (Ok s', w') => for_each ys body s' w'
    | (Raise e, w') => (Raise e, w')
    end.
Proof.
  induction xs as [|x xs IH]; intros s w; [reflexivity|].
  cbn [for_each app]. rewrite !bind_unfold.
  destruct (body x s w) as [[s'|e] w']; [apply IH|reflexivity].
Qed.

Lemma call_raise_reason api_key phrase (w w' : World) e :
  generate_audio_with_elevenlabs (text phrase) voice_id api_key (audio_path phrase) w
  = (Raise e, w') →
  (∃ cls msg, remote w (length (posts (trace w)))
                (synthesis_request (text phrase) voice_id api_key) = Fails cls msg
              ∧ issubclass cls RequestException = false)
  ∨ fs w !! audio_path phrase = Some Dir
  ∨ node_at (fs w) output_dir ≠ Some Dir.
Proof.
  intros Hrun.
  destruct (call_outcome api_key phrase w)
    as [(b & evs & Hok & _)
       |(e' & Hraise & _ & Hcaught & _ & [(cls & msg & Hreply & _)|(_ & Hwhy)])].
  - rewrite Hok in Hrun. discriminate Hrun.
  - left. exists cls, msg. split; [exact Hreply|].
    rewrite Hreply in Hcaught. cbn [caught] in Hcaught.
    by destruct (issubclass cls RequestException).
  - by right.
Qed.

Lemma loop_returned api_key phrases (w w1 : World) n :
  generate_all api_key phrases w = (Ok n, w1) →
  ∃ bs evs, batch_events api_key phrases bs evs ∧ n = count_true bs ∧ w1 = advance evs w.
Proof.
  intros Hrun. unfold generate_all in Hrun.
  destruct (loop_outcome api_key phrases 0 w)
    as [(bs & evs & Hok & Hbatch)|(e & w' & pre & ph & post & bs & evs & _ & _ & _ & _ & Hraise)].
  - rewrite Hok in Hrun. injection Hrun as <- <-. exists bs, evs.
    split; [exact Hbatch|]. split; [lia|reflexivity].
  - rewrite Hraise in Hrun. discriminate Hrun.
Qed.

(** C9: the per-phrase function lets through every exception that is no
    [RequestException]: one that [requests.post] raises, and the error of
    opening the audio file after a good response.  Such an exception ends
    [main] at that phrase: [main] raises it in the world of the raise, so
    no later phrase is requested and the metadata document is neither
    written nor touched, and the process exits with status 1, or is
    ended by SIGINT when the exception is a [KeyboardInterrupt]. *)
Theorem uncaught_exception_aborts_batch :
  (∀ api_key phrase (w w' : World) e,
     generate_audio_with_elevenlabs (text phrase) voice_id api_key (audio_path phrase) w
     = (Raise e, w') →
     isinstance e RequestException = false)
  ∧ (∀ api_key phrase (w : World) cls msg,
       let req := synthesis_request (text phrase) voice_id api_key in
       remote w (length (posts (trace w))) req = Fails cls msg →
       issubclass cls RequestException = false →
       generate_audio_with_elevenlabs (text phrase) voice_id api_key (audio_path phrase) w
       = (Raise (Exn cls msg), advance [EvPost req (Fails cls msg)] w))
  ∧ (∀ api_key phrase (w : World) r e t',
       let req := synthesis_request (text phrase) voice_id api_key in
       remote w (length (posts (trace w))) req = Responds r →
       request_failed (Responds r) = false →
       open_w (audio_path phrase) (fs w) = (Raise e, t') →
       generate_audio_with_elevenlabs (text phrase) voice_id api_key (audio_path phrase) w
       = (Raise e, advance [EvPost req (Responds r)] w)
       ∧ isinstance e OSError = true
       ∧ isinstance e RequestException = false)
  ∧ (∀ env net t key t1 pre phrase post n (w1 w2 : World) e,
       env !! "ELEVENLABS_API_KEY" = Some key → key ≠ EmptyString →
       test_phrases = pre ++ phrase :: post →
       mkdir output_dir true true t = (Ok (), t1) →
       generate_all key pre (boot env net t1) = (Ok n, w1) →
       generate_audio_with_elevenlabs (text phrase) voice_id key (audio_path phrase) w1
       = (Raise e, w2) →
       main (boot env net t) = (Raise e, w2)
       ∧ exit_code (boot env net t) = (if isinstance e KeyboardInterrupt then -2 else 1)
       ∧ ¬ metadata_written (trace w2)
       ∧ fs w2 !! metadata_path = t !! metadata_path
       ∧ length (posts (trace w2)) = S (length pre)).
Proof.
  split; [|split; [|split]].
  - intros api_key phrase w w' e Hrun.
    by destruct (call_raised _ _ _ _ _ Hrun) as (_ & ? & _).
  - intros api_key phrase w cls msg req Hreply Hcls.
    rewrite generate_unfold. fold req. rewrite Hreply, Hcls.
    unfold advance. cbn [apply_writes foldl]. destruct w; reflexivity.
  - intros api_key phrase w r e t' req Hreply Hgood Hopen.
    rewrite caught_request_failed in Hgood. apply bool_decide_eq_false_1 in Hgood.
    cbn [caught] in Hgood.
    destruct (http_error r) as [e'|] eqn:He; [exfalso; apply Hgood; eauto|].
    destruct (open_w_cases (audio_path phrase) (fs w))
      as [(e' & Hopen' & Hne & Hos & _)|(Hopen' & _)];
      rewrite Hopen' in Hopen; [|discriminate Hopen].
    injection Hopen as <- <-. split; [|done].
    rewrite generate_unfold. fold req. rewrite Hreply, He, Hopen'.
    unfold advance. cbn [apply_writes foldl]. destruct w; reflexivity.
  - intros env net t key t1 pre phrase post n w1 w2 e Hkey Hne Hsplit Hmk Hpre Hcall.
    assert (Hmain : main (boot env net t) = (Raise e, w2)).
    { unfold main. rewrite (main_with_run _ _ _ _ _ Hkey Hne), Hmk, Hsplit.
      unfold generate_all in *. rewrite for_each_app, Hpre, loop_cons, Hcall.
      reflexivity. }
    destruct (loop_returned _ _ _ _ _ Hpre) as (bs & evs & Hbatch & -> & ->).
    destruct (call_raised _ _ _ _ _ Hcall) as (-> & _ & _ & Hexit).
    destruct (mkdir_output_dir_ok _ _ Hmk) as [_ Hbelow].
    assert (Hnames : ∀ p, p ∈ pre → audio_path p ≠ metadata_path).
    { intros p Hp. apply test_phrases_not_metadata. rewrite Hsplit.
      apply elem_of_app. by left. }
    split; [exact Hmain|]. split; [rewrite exit_code_run, Hmain; exact Hexit|].
    rewrite !advance_trace, !advance_fs. cbn [boot trace fs app apply_writes foldl].
    split; [|split].
    + intros [doc Hin]. apply elem_of_app in Hin as [Hin|Hin].
      * revert Hin. by eapply batch_leaves_metadata.
      * apply elem_of_cons in Hin as [[=]|Hin]. by apply elem_of_nil in Hin.
    + rewrite apply_writes_frame; [apply Hbelow|].
      intros data. by eapply batch_leaves_metadata.
    + destruct (batch_counts _ _ _ _ Hbatch) as (Hposts & _).
      unfold posts in *. rewrite List.filter_app, length_app, Hposts.
      cbn [List.filter is_post length]. lia.
Qed.


(** *** Running again on the tree of an earlier run *)

Lemma batch_write_paths api_key phrases bs evs :
  batch_events api_key phrases bs evs →
  write_paths evs `sublist_of` (audio_path <$> phrases).
Proof.
  induction 1 as [|phrase rest b bs evs evs' Hcall Hrest IH]; [constructor|].
  rewrite write_paths_app. cbn [fmap list_fmap].
  destruct Hcall as [r Hr|reply e He]; cbn [write_paths omap app].
  - by apply sublist_skip.
  - by apply sublist_cons.
Qed.

Lemma outputs_distinct : NoDup ((audio_path <$> test_phrases) ++ [metadata_path]).
Proof. apply (bool_decide_unpack _); vm_compute; exact I. Qed.

Lemma run_write_paths api_key bs evs n :
  batch_events api_key test_phrases bs evs →
  NoDup (write_paths (evs ++ closing_events test_phrases n)).
Proof.
  intros Hbatch. rewrite write_paths_app.
  refine (sublist_NoDup _ _ outputs_distinct _).
  apply sublist_app; [by eapply batch_write_paths|reflexivity].
Qed.

Lemma mkdir_existing (t : gmap Path node) :
  t !! output_dir = Some Dir → ∃ t1, mkdir output_dir true true t = (Ok (), t1).
Proof.
  intros Hout. pose proof (mkdir_output_dir_run t) as Hcases. rewrite Hout in Hcases.
  destruct (t !! tests_dir) as [[|c]|]; eauto.
Qed.

Lemma outputs_below p : p ∈ outputs → ∃ name, p = (output_dir / name)%path.
Proof.
  intros [->|(phrase & -> & _)%list_elem_of_fmap]%elem_of_cons; eauto.
Qed.

(** The events of a loop and the closing events leave [prior_files] as
    it is. *)
Lemma prior_files_writes evs (t : gmap Path node) :
  (∀ data, EvWrite output_dir data ∉ evs) →
  prior_files t → prior_files (apply_writes evs t).
Proof.
  intros Hfree [Hdir Hfiles]. split.
  - by rewrite apply_writes_frame.
  - intros p Hp. by apply apply_writes_no_new_dir, Hfiles.
Qed.

Lemma run_leaves_output_dir api_key phrases bs evs n data :
  batch_events api_key phrases bs evs →
  EvWrite output_dir data ∉ evs ++ closing_events phrases n.
Proof.
  intros Hbatch [Hin|Hin]%elem_of_app.
  - destruct (batch_writes_at _ _ _ _ _ _ Hbatch Hin) as (p & _ & Heq).
    by apply (audio_path_below p).
  - apply elem_of_cons in Hin as [Heq|Hin].
    + injection Heq as Heq _. by apply metadata_path_below.
    + apply elem_of_cons in Hin as [[=]|Hin].
      apply elem_of_cons in Hin as [[=]|Hin]. by apply elem_of_nil in Hin.
Qed.

(** A run that returned [True] wrote every output. *)
Lemma complete_run_prior_files env net t :
  fst (main (boot env net t)) = Ok true →
  prior_files (fs (snd (main (boot env net t)))).
Proof.
  intros Hret.
  destruct (main_cases env net t)
    as [[_ Hmain]|(key & Hkey & Hne & _)];
    [rewrite Hmain in Hret; discriminate Hret|].
  destruct (main_returned env net t key true Hkey Hne Hret)
    as (t1 & bs & evs & Hmk & Hbatch & Hb & -> & Hfree & Hdir).
  symmetry in Hb. apply bool_decide_eq_true_1 in Hb.
  rewrite advance_fs. cbn [boot fs]. split.
  - rewrite apply_writes_frame by (intros data; by eapply run_leaves_output_dir).
    by destruct (mkdir_output_dir_ok _ _ Hmk) as [? _].
  - intros p Hp.
    assert (Hwritten : ∃ data,
              EvWrite p data ∈ evs ++ closing_events test_phrases (count_true bs)).
    { apply elem_of_cons in Hp as [->|(phrase & -> & Hphrase)%list_elem_of_fmap].
      - eexists. apply elem_of_app. right. by left.
      - destruct (batch_all_generated _ _ _ _ Hbatch Hb phrase Hphrase) as [data Hin].
        exists data. apply elem_of_app. by left. }
    destruct Hwritten as [data Hin].
    by destruct (apply_writes_file _ t1 _ _ Hin) as [? _].
Qed.

(** On a tree with [prior_files], with a credential and a service that
    fails with transport errors only, [main] returns; every file it wrote
    holds what was written to it; and [prior_files] holds again. *)
Lemma run_on_prior_files env net t key :
  env !! "ELEVENLABS_API_KEY" = Some key → key ≠ EmptyString →
  transport_only net → prior_files t →
  ∃ b, fst (main (boot env net t)) = Ok b
       ∧ (∀ p data, EvWrite p data ∈ trace (snd (main (boot env net t))) →
            fs (snd (main (boot env net t))) !! p = Some (File data))
       ∧ prior_files (fs (snd (main (boot env net t)))).
Proof.
  intros Hkey Hne Hnet Hprior.
  destruct (mkdir_existing t (proj1 Hprior)) as [t1 Hmk].
  destruct (mkdir_output_dir_ok _ _ Hmk) as [Hdir1 Hbelow].
  assert (Hprior1 : prior_files t1).
  { split; [exact Hdir1|]. intros p Hp.
    destruct (outputs_below p Hp) as [name ->]. rewrite Hbelow.
    by apply (proj2 Hprior). }
  assert (Hsafe : ∀ pre bs evs,
            (∀ p, p ∈ pre → p ∈ test_phrases) →
            batch_events key pre bs evs → prior_files (apply_writes evs t1)).
  { intros pre bs evs Hsub Hbatch. apply prior_files_writes; [|exact Hprior1].
    intros data Hin.
    destruct (batch_writes_at _ _ _ _ _ _ Hbatch Hin) as (p & _ & Heq).
    by apply (audio_path_below p). }
  pose proof (main_outcome test_phrases env net t key Hkey Hne) as Hrun.
  rewrite Hmk in Hrun. destruct Hrun as (r & w' & Hmain & Hshape).
  unfold main. rewrite Hmain. cbn [fst snd].
  destruct Hshape as [e w' pre ph post bs evs Hsplit Hbatch Hpre Hcall
                     |e bs evs Hbatch Hloop He Hwhy
                     |bs evs Hbatch Hloop Hfree Hdir].
  - exfalso.
    assert (Hsub : ∀ p, p ∈ pre → p ∈ test_phrases)
      by (intros p Hp; rewrite Hsplit; apply elem_of_app; by left).
    destruct (Hsafe pre bs evs Hsub Hbatch) as [Hd Hf].
    destruct (call_raise_reason _ _ _ _ _ Hcall)
      as [(cls & msg & Hreply & Hcls)|[Hblocked|Hgone]].
    + rewrite advance_remote in Hreply. cbn [boot remote] in Hreply.
      apply Hnet in Hreply. congruence.
    + rewrite advance_fs in Hblocked. cbn [boot fs] in Hblocked.
      revert Hblocked. apply Hf. right. apply list_elem_of_fmap. exists ph.
      split; [reflexivity|]. rewrite Hsplit. apply elem_of_app. right. by left.
    + rewrite advance_fs in Hgone. cbn [boot fs] in Hgone. by apply Hgone.
  - exfalso. cbn [boot fs] in Hwhy.
    destruct (Hsafe test_phrases bs evs ltac:(done) Hbatch) as [Hd Hf].
    destruct Hwhy as [Hblocked|Hgone]; [|by apply Hgone].
    revert Hblocked. apply Hf. by left.
  - eexists. split; [reflexivity|].
    rewrite advance_trace, advance_fs. cbn [boot trace fs app].
    split.
    + intros p data Hin. apply apply_writes_last; [|exact Hin].
      by eapply run_write_paths.
    + apply prior_files_writes; [|exact Hprior1].
      intros data. by eapply run_leaves_output_dir.
Qed.


(** *** Runs in particular worlds *)

Lemma written_synthesized tr phrase :
  audio_path phrase ∈ write_paths tr → synthesized tr phrase.
Proof. intros Hin. by apply elem_of_write_paths. Qed.

(** C2 does not hold as the specification words it.  A directory sits
    at the metadata path and the service answers every request: all five
    audio files are written
    and the loop counts five, then opening the metadata file raises and
    the process exits with status 1. *)
Lemma exit_code_one_after_all_synthesized :
  let w := boot with_credential always_ok (blocked_at metadata_path) in
  (∀ phrase, phrase ∈ test_phrases → synthesized (trace (snd (script w))) phrase)
  ∧ fst (generate_all "sk-test" test_phrases w) = Ok 5
  ∧ fst (main w) = Raise (is_a_directory metadata_path)
  ∧ exit_code w = 1
  ∧ ¬ (exit_code w = 0
       ↔ ∀ phrase, phrase ∈ test_phrases → synthesized (trace (snd (script w))) phrase).
Proof.
  intros w.
  assert (Hall : ∀ phrase, phrase ∈ test_phrases →
                   synthesized (trace (snd (script w))) phrase).
  { intros phrase Hin. apply written_synthesized. revert phrase Hin.
    apply (Forall_forall (λ phrase, audio_path phrase ∈ write_paths (trace (snd (script w))))).
    apply (bool_decide_unpack _). vm_compute. exact I. }
  assert (Hexit : exit_code w = 1) by (vm_compute; reflexivity).
  split; [exact Hall|]. split; [vm_compute; reflexivity|].
  split; [vm_compute; reflexivity|]. split; [exact Hexit|].
  intros [_ Hzero]. specialize (Hzero Hall). rewrite Hexit in Hzero. discriminate Hzero.
Qed.

(** C5 does not hold as the specification words it.  A directory sits
    at the metadata path and the service is out of reach: all five
    phrases are attempted, each
    call returns, the loop ends with a count of zero, and no metadata
    document is written: opening the file raises. *)
Lemma no_metadata_after_all_attempts :
  let w := boot with_credential unreachable (blocked_at metadata_path) in
  let tr := trace (snd (main w)) in
  length (posts tr) = 5%nat
  ∧ fst (generate_all "sk-test" test_phrases w) = Ok 0
  ∧ List.filter (is_write_to metadata_path) tr = []
  ∧ ¬ metadata_written tr
  ∧ fs (snd (main w)) !! metadata_path = Some Dir
  ∧ fst (main w) = Raise (is_a_directory metadata_path).
Proof.
  intros w tr.
  assert (Hnone : List.filter (is_write_to metadata_path) tr = [])
    by (vm_compute; reflexivity).
  split; [vm_compute; reflexivity|]. split; [vm_compute; reflexivity|].
  split; [exact Hnone|]. split; [|split; vm_compute; reflexivity].
  intros [doc Hin].
  assert (Hfiltered : EvWrite metadata_path doc ∈ List.filter (is_write_to metadata_path) tr).
  { apply list_elem_of_In, List.filter_In. split; [by apply list_elem_of_In|].
    cbn [is_write_to]. by apply bool_decide_eq_true_2. }
  rewrite Hnone in Hfiltered. by apply elem_of_nil in Hfiltered.
Qed.

(** C3 does not hold as the specification words it, in two ways.  A
    status that is not 2xx need not be an error: the service answers the
    third request with 304, which comes without a body; nothing is
    caught and no failure line is printed, an empty audio file is
    written, the call counts as a success, and the process exits with
    status 0.  And one failed request need not leave a metadata document
    and a returned failure: with a directory where the metadata file
    goes and the third request answered with 500, four audio files are
    written, then opening the metadata file raises out of [main]. *)
Lemma not_modified_counts_as_success :
  let w := boot with_credential third_not_modified ∅ in
  let tr := trace (snd (main w)) in
  let w' := boot with_credential (third_answers 500 "Internal Server Error")
              (blocked_at metadata_path) in
  let tr' := trace (snd (main w')) in
  (tr !! 6%nat = Some (EvPost (synthesis_request "さようなら" voice_id "sk-test")
                         (Responds (ok_response 304 "Not Modified" EmptyString)))
   ∧ tr !! 7%nat = Some (EvWrite (output_dir / "sayounara.wav") EmptyString)
   ∧ tr !! 8%nat = Some (EvPrint "Generated audio: TalkyoTests/TestAudio/sayounara.wav")
   ∧ Forall (λ line, strip_prefix "Failed" line = None) (printed tr)
   ∧ List.filter is_failed_post tr = []
   ∧ fst (main w) = Ok true
   ∧ exit_code w = 0)
  ∧ (length (List.filter is_failed_post tr') = 1%nat
     ∧ length (List.filter is_audio_write tr') = 4%nat
     ∧ length (posts tr') = 5%nat
     ∧ List.filter (is_write_to metadata_path) tr' = []
     ∧ ¬ metadata_written tr'
     ∧ fst (main w') = Raise (is_a_directory metadata_path)
     ∧ exit_code w' = 1).
Proof.
  intros w tr w' tr'.
  assert (Hnone : List.filter (is_write_to metadata_path) tr' = [])
    by (vm_compute; reflexivity).
  split.
  - repeat split; try (vm_compute; reflexivity).
    apply (bool_decide_unpack _). vm_compute. exact I.
  - split; [vm_compute; reflexivity|]. split; [vm_compute; reflexivity|].
    split; [vm_compute; reflexivity|]. split; [exact Hnone|].
    split; [|split; vm_compute; reflexivity].
    intros [doc Hin].
    assert (Hfiltered : EvWrite metadata_path doc
                          ∈ List.filter (is_write_to metadata_path) tr').
    { apply list_elem_of_In, List.filter_In. split; [by apply list_elem_of_In|].
      cbn [is_write_to]. by apply bool_decide_eq_true_2. }
    rewrite Hnone in Hfiltered. by apply elem_of_nil in Hfiltered.
Qed.

(** *** The theorems at work *)

Lemma with_credential_key : with_credential !! "ELEVENLABS_API_KEY" = Some "sk-test".
Proof. vm_compute. reflexivity. Defined.

Lemma sk_test_not_empty : "sk-test" ≠ EmptyString.
Proof. discriminate. Defined.

Lemma pair_fst_snd {A B} (x : A * B) (a : A) : fst x = a → x = (a, snd x).
Proof. destruct x as [a' b]. cbn [fst snd]. by intros ->. Defined.

Lemma unreachable_transport_only : transport_only unreachable.
Proof. intros n req cls msg [= <- _]. reflexivity. Defined.

Lemma metadata_lists_every_phrase_witness :
  EvWrite metadata_path (Json.dumps 2 (metadata test_phrases))
    ∈ trace (snd (main (boot with_credential (third_answers 500 "Internal Server Error") ∅)))
  ∧ Json.dumps 2 (metadata test_phrases) = document_text
  ∧ ∃ entries,
      Json.get "test_audio_files" (metadata test_phrases) = Some (JList entries)
      ∧ length entries = 5%nat
      ∧ entries = listed_entries.
Proof.
  assert (Hin : EvWrite metadata_path (Json.dumps 2 (metadata test_phrases))
                  ∈ trace (snd (main (boot with_credential
                                        (third_answers 500 "Internal Server Error") ∅)))).
  { apply (list_elem_of_lookup_2 _ 14%nat). vm_compute. reflexivity. }
  split; [exact Hin|].
  destruct (metadata_lists_every_phrase _ _ _ _ Hin)
    as (_ & Htext & entries & Hget & _ & Hfive & _ & _ & Hlisted).
  split; [exact Htext|].
  exists entries. split; [exact Hget|]. split; [exact Hfive|exact Hlisted].
Defined.

Lemma missing_credential_no_request_witness :
  (∅ : gmap string string) !! "ELEVENLABS_API_KEY" = None
  ∧ posts (trace (snd (script (boot ∅ always_ok ∅)))) = []
  ∧ exit_code (boot ∅ always_ok ∅) = 1.
Proof.
  assert (Hnone : (∅ : gmap string string) !! "ELEVENLABS_API_KEY" = None)
    by apply lookup_empty.
  destruct (missing_credential_no_request ∅ always_ok ∅ Hnone) as (_ & _ & Hposts & _ & Hexit).
  split; [exact Hnone|]. split; [exact Hposts|exact Hexit].
Defined.

Lemma empty_credential_as_absent_witness :
  ({[ "ELEVENLABS_API_KEY" := EmptyString ]} : gmap string string) !! "ELEVENLABS_API_KEY"
  = Some EmptyString
  ∧ posts (trace (snd (script (boot {[ "ELEVENLABS_API_KEY" := EmptyString ]} always_ok ∅)))) = []
  ∧ exit_code (boot {[ "ELEVENLABS_API_KEY" := EmptyString ]} always_ok ∅) = 1.
Proof.
  assert (Hempty : ({[ "ELEVENLABS_API_KEY" := EmptyString ]} : gmap string string)
                     !! "ELEVENLABS_API_KEY" = Some EmptyString)
    by apply lookup_singleton_eq.
  destruct (empty_credential_as_absent _ always_ok ∅ Hempty)
    as (_ & _ & _ & _ & _ & Hposts & _ & _ & Hexit).
  split; [exact Hempty|]. split; [exact Hposts|exact Hexit].
Defined.

Lemma metadata_written_once_witness :
  fst (main (boot with_credential unreachable ∅)) = Ok false
  ∧ fs (snd (main (boot with_credential unreachable ∅))) !! metadata_path
    = Some (File (Json.dumps 2 (metadata test_phrases)))
  ∧ List.filter is_audio_write (trace (snd (main (boot with_credential unreachable ∅)))) = [].
Proof.
  assert (Hret : fst (main (boot with_credential unreachable ∅)) = Ok false)
    by (vm_compute; reflexivity).
  destruct (metadata_written_once with_credential unreachable ∅ "sk-test" false
              with_credential_key sk_test_not_empty Hret) as (_ & Hfile & _).
  split; [exact Hret|]. split; [exact Hfile|]. vm_compute. reflexivity.
Defined.

Lemma caught_failure_continues_witness :
  let w := boot with_credential (third_answers 429 "Too Many Requests") ∅ in
  length (List.filter is_failed_post (trace (snd (main w)))) = 1%nat
  ∧ fst (main w) = Ok false
  ∧ exit_code w = 1
  ∧ length (List.filter is_audio_write (trace (snd (main w)))) = 4%nat.
Proof.
  intros w.
  assert (Hret : fst (main w) = Ok false) by (vm_compute; reflexivity).
  assert (Hone : length (List.filter is_failed_post (trace (snd (main w)))) = 1%nat)
    by (vm_compute; reflexivity).
  destruct (proj2 caught_failure_continues with_credential
              (third_answers 429 "Too Many Requests") ∅ "sk-test" false
              with_credential_key sk_test_not_empty Hret Hone)
    as (_ & Hexit & _ & Hfour & _).
  split; [exact Hone|]. split; [exact Hret|]. split; [exact Hexit|exact Hfour].
Defined.

Lemma uncaught_exception_aborts_batch_witness :
  main blocked_world = (Raise (is_a_directory (audio_path sayounara)), at_raise)
  ∧ exit_code blocked_world = 1
  ∧ ¬ metadata_written (trace at_raise)
  ∧ fs at_raise !! metadata_path = blocked_at (audio_path sayounara) !! metadata_path
  ∧ length (posts (trace at_raise)) = S (length (take 2 test_phrases)).
Proof.
  assert (Hmk : mkdir output_dir true true (blocked_at (audio_path sayounara))
                = (Ok (), blocked_at (audio_path sayounara))).
  { pose proof (mkdir_output_dir_run (blocked_at (audio_path sayounara))) as Hrun.
    assert (Htests : blocked_at (audio_path sayounara) !! tests_dir = Some Dir)
      by (vm_compute; reflexivity).
    assert (Hout : blocked_at (audio_path sayounara) !! output_dir = Some Dir)
      by (vm_compute; reflexivity).
    rewrite Htests, Hout in Hrun. exact Hrun. }
  assert (Hcount : fst (generate_all "sk-test" (take 2 test_phrases) blocked_world) = Ok 2)
    by (vm_compute; reflexivity).
  assert (Hraise : fst (generate_audio_with_elevenlabs (text sayounara) voice_id "sk-test"
                          (audio_path sayounara) before_sayounara)
                   = Raise (is_a_directory (audio_path sayounara)))
    by (vm_compute; reflexivity).
  assert (Hsplit : test_phrases = take 2 test_phrases ++ sayounara :: drop 3 test_phrases)
    by reflexivity.
  exact (proj2 (proj2 (proj2 uncaught_exception_aborts_batch))
           with_credential always_ok (blocked_at (audio_path sayounara)) "sk-test"
           (blocked_at (audio_path sayounara)) (take 2 test_phrases) sayounara
           (drop 3 test_phrases) 2 before_sayounara at_raise
           (is_a_directory (audio_path sayounara))
           with_credential_key sk_test_not_empty Hsplit Hmk
           (pair_fst_snd _ _ Hcount) (pair_fst_snd _ _ Hraise)).
Defined.

(** *** One call, for any arguments *)

Lemma posts_app tr1 tr2 : posts (tr1 ++ tr2) = posts tr1 ++ posts tr2.
Proof. apply List.filter_app. Qed.

Lemma request_failed_http_error r :
  request_failed (Responds r) = bool_decide (is_Some (http_error r)).
Proof. apply (caught_request_failed (Responds r)). Qed.

Lemma call_posts text vid key path (w : World) :
  let req := synthesis_request text vid key in
  let run := generate_audio_with_elevenlabs text vid key path w in
  posts (trace (snd run))
  = posts (trace w) ++ [EvPost req (remote w (length (posts (trace w))) req)]
  ∧ remote (snd run) = remote w.
Proof.
  intros req run. unfold run. rewrite generate_unfold. fold req.
  destruct (remote w (length (posts (trace w))) req) as [r|cls msg].
  - destruct (http_error r) as [e|];
      [|destruct (open_w path (fs w)) as [[f|e] t']];
      cbn [snd set_trace set_fs trace remote]; rewrite !posts_app;
      cbn; rewrite ?app_nil_r; done.
  - destruct (issubclass cls RequestException);
      cbn [snd set_trace set_fs trace remote]; rewrite !posts_app;
      cbn; rewrite ?app_nil_r; done.
Qed.

(** The trees of a call: where it returns [True] the file is made or
    replaced, and it is no directory that it replaces. *)
Lemma call_tree text vid key path (w : World) :
  let req := synthesis_request text vid key in
  let reply := remote w (length (posts (trace w))) req in
  let run := generate_audio_with_elevenlabs text vid key path w in
  (fst run = Ok true
   ∧ fs w !! path ≠ Some Dir
   ∧ ∃ r, reply = Responds r ∧ request_failed reply = false
          ∧ fs (snd run) = <[path := File (content r)]> (fs w))
  ∨ (fst run = Ok false ∧ request_failed reply = true ∧ fs (snd run) = fs w)
  ∨ (∃ e, fst run = Raise e ∧ request_failed reply = false ∧ fs (snd run) = fs w).
Proof.
  intros req reply run. unfold run, reply. rewrite generate_unfold. fold req.
  destruct (remote w (length (posts (trace w))) req) as [r|cls msg].
  - rewrite request_failed_http_error.
    destruct (http_error r) as [e|] eqn:Herr.
    + right. left. split; [reflexivity|]. split; [|reflexivity].
      apply bool_decide_eq_true_2. by eexists.
    + assert (Hno : bool_decide (is_Some (None : option exn)) = false)
        by (apply bool_decide_eq_false_2; by intros [? ?]).
      destruct (open_w_cases path (fs w)) as [(e & -> & _)|(-> & Hfree & _)].
      * right. right. exists e. done.
      * left. split; [reflexivity|]. split; [exact Hfree|]. exists r. done.
  - cbn [request_failed]. destruct (issubclass cls RequestException).
    + right. left. done.
    + right. right. eexists. done.
Qed.

(** X7: a call of the per-phrase function, whatever its arguments, sends
    exactly one request: a POST for the text to the URL of the voice, with
    the key in the xi-api-key header.  It returns [False] exactly when
    the request failed (an exception of the requests family, or a status
    from 400 to 599), and then, as when it raises, the tree is as it
    was; when it returns [True] the tree has changed at the output path
    only, which holds the body of the response as it came. *)
Theorem one_request_per_call text vid key path (w : World) :
  let req := synthesis_request text vid key in
  let reply := remote w (length (posts (trace w))) req in
  let run := generate_audio_with_elevenlabs text vid key path w in
  posts (trace (snd run)) = posts (trace w) ++ [EvPost req reply]
  ∧ (fst run = Ok false ↔ request_failed reply = true)
  ∧ (fst run = Ok true →
       ∃ r, reply = Responds r ∧ fs (snd run) = <[path := File (content r)]> (fs w))
  ∧ (fst run ≠ Ok true → fs (snd run) = fs w).
Proof.
  intros req reply run.
  split; [apply call_posts|].
  destruct (call_tree text vid key path w)
    as [(Hret & _ & r & Hreply & Hok & Hfs)|[(Hret & Hfail & Hfs)|(e & Hret & Hok & Hfs)]];
    fold req in Hret, Hfs; fold req reply in Hok || fold req reply in Hfail;
    fold run in Hret, Hfs.
  - fold req reply in Hreply. rewrite Hret, Hok.
    split; [split; discriminate|]. split; [|done]. intros _. by exists r.
  - rewrite Hret, Hfail. split; [done|]. split; [discriminate|done].
  - rewrite Hret, Hok. split; [split; discriminate|]. split; [discriminate|done].
Qed.

(** *** The exchanges of the loop and of a run *)

Lemma loop_posts key phrases : ∀ s (w : World),
  let run := for_each phrases (loop_body key) s w in
  remote (snd run) = remote w
  ∧ ∃ k, posts (trace (snd run))
         = posts (trace w)
           ++ take k (exchanges (remote w) key (length (posts (trace w))) phrases)
         ∧ (∀ n, fst run = Ok n → k = length phrases).
Proof.
  induction phrases as [|phrase rest IH]; intros s w run.
  - split; [reflexivity|]. exists 0%nat. unfold run. cbn. by rewrite app_nil_r.
  - unfold run. rewrite loop_cons.
    destruct (call_posts (text phrase) voice_id key (audio_path phrase) w)
      as [Hposts Hremote].
    destruct (generate_audio_with_elevenlabs (text phrase) voice_id key
                (audio_path phrase) w) as [[b|e] w1]; cbn [fst snd] in *.
    + destruct (IH (s + (if b then 1 else 0)) w1) as [Hremote' (k & Hk & Hall)].
      split; [congruence|]. exists (S k). split.
      * rewrite Hk, Hposts, Hremote, length_app. cbn [length exchanges take].
        rewrite Nat.add_1_r, <- app_assoc. reflexivity.
      * intros n Hn. cbn [length]. f_equal. by eapply Hall.
    + split; [exact Hremote|]. exists 1%nat. split; [|discriminate].
      cbn [exchanges take]. rewrite Hposts. by rewrite take_0.
Qed.

Lemma posts_closing_events phrases n : posts (closing_events phrases n) = [].
Proof. reflexivity. Qed.

Lemma main_posts env net t :
  let run := main (boot env net t) in
  let key := default EmptyString (env !! "ELEVENLABS_API_KEY") in
  ∃ k, posts (trace (snd run)) = take k (exchanges net key 0 test_phrases)
       ∧ (truthy (env !! "ELEVENLABS_API_KEY") = false → k = 0%nat)
       ∧ (truthy (env !! "ELEVENLABS_API_KEY") = true →
          ∀ b, fst run = Ok b → k = length test_phrases).
Proof.
  intros run key. unfold run.
  destruct (credential_cases env) as [Hnone|(key' & Hkey & Hne)].
  - rewrite main_without_credential by exact Hnone. exists 0%nat.
    split; [reflexivity|]. split; [done|]. rewrite Hnone. discriminate.
  - unfold main. rewrite (main_with_run test_phrases env net t key' Hkey Hne).
    assert (Hcred : truthy (env !! "ELEVENLABS_API_KEY") = true).
    { rewrite Hkey. cbn [truthy]. by rewrite bool_decide_eq_false_2. }
    rewrite Hcred. unfold key. rewrite Hkey. cbn [default].
    destruct (mkdir output_dir true true t) as [[[]|e] t1].
    + destruct (loop_posts key' test_phrases 0 (boot env net t1)) as [_ (k & Hk & Hall)].
      fold (generate_all key' test_phrases) in Hk, Hall.
      cbn [boot trace remote posts List.filter length app] in Hk.
      destruct (generate_all key' test_phrases (boot env net t1)) as [[n|e] w2];
        cbn [fst snd] in *.
      * destruct (open_w metadata_path (fs w2)) as [[f|e] t2]; cbn [fst snd].
        -- exists k. rewrite advance_trace, posts_app, posts_closing_events, app_nil_r.
           split; [exact Hk|]. split; [discriminate|]. intros _ b _. by eapply Hall.
        -- exists k. split; [exact Hk|]. split; discriminate.
      * exists k. split; [exact Hk|]. split; discriminate.
    + exists 0%nat. cbn [snd fst boot trace]. split; [reflexivity|]. split; discriminate.
Qed.

(** X8: the requests of a run are those of the phrases, each with the
    credential of the environment, in the order of the list and each at
    most once: what went out is an initial part of that list, with the
    answers the service gave.  It is the whole list when [main] returns
    past the credential check, and nothing without a credential; no
    request is repeated after a failure. *)
Theorem requests_follow_the_phrases env net t :
  let run := main (boot env net t) in
  let key := default EmptyString (env !! "ELEVENLABS_API_KEY") in
  posts (trace (snd run)) `prefix_of` exchanges net key 0 test_phrases
  ∧ (truthy (env !! "ELEVENLABS_API_KEY") = false → posts (trace (snd run)) = [])
  ∧ (truthy (env !! "ELEVENLABS_API_KEY") = true →
     ∀ b, fst run = Ok b → posts (trace (snd run)) = exchanges net key 0 test_phrases).
Proof.
  intros run key. destruct (main_posts env net t) as (k & Hk & Hnone & Hall).
  fold run key in Hk, Hall. split; [|split].
  - rewrite Hk. exists (drop k (exchanges net key 0 test_phrases)).
    by rewrite take_drop.
  - intros Hcred. by rewrite Hk, (Hnone Hcred), take_0.
  - intros Hcred b Hret. rewrite Hk, (Hall Hcred b Hret). by apply take_ge.
Qed.

(** *** The audio files of a run that returns *)

Lemma call_events_posts key phrase b evs :
  call_events key phrase b evs →
  ∃ reply, posts evs = [EvPost (synthesis_request (text phrase) voice_id key) reply]
           ∧ match reply with
             | Responds r =>
                 if request_failed reply
                 then b = false
                 else b = true ∧ EvWrite (audio_path phrase) (content r) ∈ evs
             | Fails _ _ => b = false
             end.
Proof.
  intros [r Hr|reply e He].
  - exists (Responds r). split; [reflexivity|].
    rewrite request_failed_http_error, Hr, bool_decide_eq_false_2 by (by intros [? ?]).
    split; [reflexivity|]. apply elem_of_cons. right. by left.
  - exists reply. split; [reflexivity|]. destruct reply as [r|cls msg]; [|reflexivity].
    rewrite caught_request_failed, He, bool_decide_eq_true_2 by (by eexists).
    reflexivity.
Qed.

Lemma audio_path_inj p q : audio_path p = audio_path q → filename p = filename q.
Proof. unfold audio_path. by intros [= ?]. Qed.

(** In a loop in which every call returns, the audio file of a phrase
    is written, with the body of the response to its request, when the
    request did not fail, and not at all when it did. *)
Lemma batch_exchanges net key phrases bs evs :
  batch_events key phrases bs evs → ∀ n,
  posts evs = exchanges net key n phrases →
  NoDup (filename <$> phrases) →
  ∀ i p, phrases !! i = Some p →
    match net (n + i)%nat (synthesis_request (text p) voice_id key) with
    | Responds r =>
        if request_failed (Responds r)
        then bs !! i = Some false ∧ ∀ data, EvWrite (audio_path p) data ∉ evs
        else bs !! i = Some true ∧ EvWrite (audio_path p) (content r) ∈ evs
    | Fails _ _ => bs !! i = Some false ∧ ∀ data, EvWrite (audio_path p) data ∉ evs
    end.
Proof.
  induction 1 as [|phrase rest b bs evs evs' Hcall Hrest IH];
    intros n Hposts Hdup i p Hp; [by rewrite lookup_nil in Hp|].
  rewrite posts_app in Hposts. cbn [exchanges] in Hposts.
  destruct (call_events_posts _ _ _ _ Hcall) as (reply & Hone & Hreply).
  rewrite Hone in Hposts. cbn [app] in Hposts.
  injection Hposts as Hnet Hposts. cbn [fmap list_fmap] in Hdup.
  apply NoDup_cons in Hdup as [Hfresh Hdup].
  assert (Hothers : ∀ q data, q ∈ rest → EvWrite (audio_path q) data ∉ evs).
  { intros q data Hq Hin.
    destruct (call_events_writes _ _ _ _ _ _ Hcall Hin) as [_ Heq].
    apply Hfresh. apply audio_path_inj in Heq. rewrite <- Heq.
    apply list_elem_of_fmap. by exists q. }
  destruct i as [|i].
  - injection Hp as <-. rewrite Nat.add_0_r, <- Hnet. cbn [lookup list_lookup].
    assert (Hquiet : b = false → ∀ data, EvWrite (audio_path phrase) data ∉ evs ++ evs').
    { intros -> data [Hin|Hin]%elem_of_app.
      - by destruct (call_events_writes _ _ _ _ _ _ Hcall Hin).
      - destruct (batch_writes_at _ _ _ _ _ _ Hrest Hin) as (q & Hq & Heq).
        apply Hfresh. apply audio_path_inj in Heq. rewrite Heq.
        apply list_elem_of_fmap. by exists q. }
    destruct reply as [r|cls msg].
    + destruct (request_failed (Responds r)).
      * split; [by rewrite Hreply|]. by apply Hquiet.
      * destruct Hreply as [-> Hin]. split; [reflexivity|]. apply elem_of_app. by left.
    + split; [by rewrite Hreply|]. by apply Hquiet.
  - cbn [lookup list_lookup] in Hp |- *.
    specialize (IH (S n) Hposts Hdup i p Hp).
    rewrite Nat.add_succ_r. cbn [Nat.add] in IH.
    assert (Hp' : p ∈ rest) by (by eapply list_elem_of_lookup_2).
    destruct (net (S (n + i)) (synthesis_request (text p) voice_id key)) as [r|cls msg];
      [destruct (request_failed (Responds r))|].
    + destruct IH as [Hb Hno]. split; [exact Hb|].
      intros data [Hin|Hin]%elem_of_app; [by eapply Hothers|by eapply Hno].
    + destruct IH as [Hb Hin]. split; [exact Hb|]. apply elem_of_app. by right.
    + destruct IH as [Hb Hno]. split; [exact Hb|].
      intros data [Hin|Hin]%elem_of_app; [by eapply Hothers|by eapply Hno].
Qed.

Lemma closing_events_writes phrases n p data :
  EvWrite p data ∈ closing_events phrases n → p = metadata_path.
Proof.
  intros Hin. apply elem_of_cons in Hin as [[= -> _]|Hin]; [reflexivity|].
  apply elem_of_cons in Hin as [[=]|Hin].
  apply elem_of_cons in Hin as [[=]|Hin]. by apply elem_of_nil in Hin.
Qed.

(** The audio files after a run in which [main] returns: for each
    phrase the body of the response, or what was there before. *)
Lemma returned_files env net t key b :
  env !! "ELEVENLABS_API_KEY" = Some key → key ≠ EmptyString →
  fst (main (boot env net t)) = Ok b →
  ∃ bs, b = bool_decide (count_true bs = Z.of_nat (length test_phrases))
  ∧ ∀ i p, test_phrases !! i = Some p →
    match net i (synthesis_request (text p) voice_id key) with
    | Responds r =>
        if request_failed (Responds r)
        then bs !! i = Some false
             ∧ fs (snd (main (boot env net t))) !! audio_path p = t !! audio_path p
        else bs !! i = Some true
             ∧ fs (snd (main (boot env net t))) !! audio_path p = Some (File (content r))
    | Fails _ _ =>
        bs !! i = Some false
        ∧ fs (snd (main (boot env net t))) !! audio_path p = t !! audio_path p
    end.
Proof.
  intros Hkey Hne Hret.
  destruct (main_posts env net t) as (k & Hk & _ & Hall).
  assert (Hcred : truthy (env !! "ELEVENLABS_API_KEY") = true).
  { rewrite Hkey. cbn [truthy]. by rewrite bool_decide_eq_false_2. }
  rewrite (Hall Hcred b Hret), take_ge in Hk by done. rewrite Hkey in Hk. cbn [default] in Hk.
  destruct (main_returned env net t key b Hkey Hne Hret)
    as (t1 & bs & evs & Hmk & Hbatch & Hb & Hsnd & _ & _).
  rewrite Hsnd in Hk |- *. rewrite advance_trace in Hk. cbn [boot trace app] in Hk.
  rewrite posts_app, posts_closing_events, app_nil_r in Hk.
  rewrite advance_fs. cbn [boot fs].
  exists bs. split; [exact Hb|]. intros i p Hp.
  pose proof (batch_exchanges net key _ _ _ Hbatch 0%nat Hk test_phrases_filenames i p Hp)
    as Hfile.
  cbn [Nat.add] in Hfile.
  assert (Hin : p ∈ test_phrases) by (by eapply list_elem_of_lookup_2).
  assert (Hsame : (∀ data, EvWrite (audio_path p) data ∉ evs) →
            apply_writes (evs ++ closing_events test_phrases (count_true bs)) t1
              !! audio_path p = t !! audio_path p).
  { intros Hno. rewrite apply_writes_frame.
    - destruct (mkdir_output_dir_ok _ _ Hmk) as [_ Hbelow]. apply Hbelow.
    - intros data [Hw|Hw]%elem_of_app; [by eapply Hno|].
      apply closing_events_writes in Hw. by apply (test_phrases_not_metadata p). }
  destruct (net i (synthesis_request (text p) voice_id key)) as [r|cls msg];
    [destruct (request_failed (Responds r))|].
  - destruct Hfile as [Hflag Hno]. split; [exact Hflag|]. by apply Hsame.
  - destruct Hfile as [Hflag Hw]. split; [exact Hflag|].
    apply apply_writes_last; [by eapply run_write_paths|].
    apply elem_of_app. by left.
  - destruct Hfile as [Hflag Hno]. split; [exact Hflag|]. by apply Hsame.
Qed.

(** X9: when [main] returns, the audio file of each phrase holds the
    body of the response to its request, byte for byte, when the
    request did not fail; the file of a phrase whose request failed is
    what it was before the run, absent or of an earlier run. *)
Theorem audio_file_is_response_body env net t key b :
  env !! "ELEVENLABS_API_KEY" = Some key → key ≠ EmptyString →
  fst (main (boot env net t)) = Ok b →
  ∀ i p, test_phrases !! i = Some p →
    match net i (synthesis_request (text p) voice_id key) with
    | Responds r =>
        fs (snd (main (boot env net t))) !! audio_path p
        = if request_failed (Responds r) then t !! audio_path p
          else Some (File (content r))
    | Fails _ _ => fs (snd (main (boot env net t))) !! audio_path p = t !! audio_path p
    end.
Proof.
  intros Hkey Hne Hret i p Hp.
  destruct (returned_files env net t key b Hkey Hne Hret) as (bs & _ & Hfiles).
  specialize (Hfiles i p Hp).
  destruct (net i (synthesis_request (text p) voice_id key)) as [r|cls msg];
    [destruct (request_failed (Responds r))|]; by destruct Hfiles.
Qed.

(** *** A run in which every request is answered *)

Lemma mkdir_writable (t : gmap Path node) :
  writable t →
  ∃ t1, mkdir output_dir true true t = (Ok (), t1)
        ∧ mkdir output_dir true true t1 = (Ok (), t1)
        ∧ prior_files t1.
Proof.
  intros (Htests & Hout & Hfiles).
  pose proof (mkdir_output_dir_run t) as Hrun.
  assert (Hagain : ∀ t1 : gmap Path node,
            t1 !! tests_dir = Some Dir → t1 !! output_dir = Some Dir →
            mkdir output_dir true true t1 = (Ok (), t1)).
  { intros t1 H1 H2. pose proof (mkdir_output_dir_run t1) as Hrun1.
    by rewrite H1, H2 in Hrun1. }
  assert (Hprior : ∀ t1, mkdir output_dir true true t = (Ok (), t1) → prior_files t1).
  { intros t1 Hmk. destruct (mkdir_output_dir_ok _ _ Hmk) as [Hdir Hbelow].
    split; [exact Hdir|]. intros p Hp.
    destruct (outputs_below p Hp) as [name ->]. rewrite Hbelow. by apply Hfiles. }
  destruct (t !! tests_dir) as [[|c]|] eqn:Ht; [| by destruct (Htests c) |];
    (destruct (t !! output_dir) as [[|c']|] eqn:Ho; [| by destruct (Hout c') |]);
    eexists; (split; [exact Hrun|]); (split; [|by apply Hprior]); apply Hagain;
    unfold tests_dir, output_dir in *;
    repeat (rewrite lookup_insert_eq || rewrite lookup_insert_ne by discriminate); done.
Qed.

Lemma main_on_made_dir env net t t1 key :
  env !! "ELEVENLABS_API_KEY" = Some key → key ≠ EmptyString →
  mkdir output_dir true true t = (Ok (), t1) →
  mkdir output_dir true true t1 = (Ok (), t1) →
  main (boot env net t) = main (boot env net t1).
Proof.
  intros Hkey Hne Hmk Hagain.
  unfold main. rewrite !(main_with_run test_phrases env net _ key Hkey Hne).
  by rewrite Hmk, Hagain.
Qed.

Lemma failed_posts_of_posts tr :
  List.filter is_failed_post tr = List.filter is_failed_post (posts tr).
Proof.
  induction tr as [|[line|req reply|p data] tr IH]; cbn; [done|done| |done].
  destruct (request_failed reply); by rewrite IH.
Qed.

Lemma exchanges_answered net key phrases :
  answers_all net → ∀ n, List.filter is_failed_post (exchanges net key n phrases) = [].
Proof.
  intros Hnet. induction phrases as [|phrase rest IH]; intros n; [reflexivity|].
  cbn [exchanges List.filter is_failed_post].
  destruct (Hnet n (synthesis_request (text phrase) voice_id key)) as (r & -> & ->).
  apply IH.
Qed.

Lemma answers_all_transport_only net : answers_all net → transport_only net.
Proof.
  intros Hnet n req cls msg Hfail. destruct (Hnet n req) as (r & Hr & _). congruence.
Qed.

(** X10: with a credential, a service that answers every request with
    a status outside 400 to 599, and a tree in which the output
    directory is there or can be made and no directory sits at an
    output path, [main] returns [True] and the process ends with status
    0: five requests went out, the audio file of each phrase holds the
    body of its response, and the metadata file holds the document. *)
Theorem answered_run_is_complete env net t key :
  env !! "ELEVENLABS_API_KEY" = Some key → key ≠ EmptyString →
  answers_all net → writable t →
  let w := boot env net t in
  fst (main w) = Ok true
  ∧ exit_code w = 0
  ∧ posts (trace (snd (main w))) = exchanges net key 0 test_phrases
  ∧ (∀ i p, test_phrases !! i = Some p →
       ∃ r, net i (synthesis_request (text p) voice_id key) = Responds r
            ∧ fs (snd (main w)) !! audio_path p = Some (File (content r)))
  ∧ fs (snd (main w)) !! metadata_path
    = Some (File (Json.dumps 2 (metadata test_phrases))).
Proof.
  intros Hkey Hne Hnet Hwr w. unfold w.
  destruct (mkdir_writable t Hwr) as (t1 & Hmk & Hagain & Hprior).
  destruct (run_on_prior_files env net t1 key Hkey Hne
              (answers_all_transport_only net Hnet) Hprior) as (b & Hret & _).
  rewrite <- (main_on_made_dir env net t t1 key Hkey Hne Hmk Hagain) in Hret.
  assert (Hcred : truthy (env !! "ELEVENLABS_API_KEY") = true).
  { rewrite Hkey. cbn [truthy]. by rewrite bool_decide_eq_false_2. }
  destruct (main_posts env net t) as (k & Hk & _ & Hall).
  rewrite (Hall Hcred b Hret), take_ge in Hk by done. rewrite Hkey in Hk. cbn [default] in Hk.
  destruct (main_returned env net t key b Hkey Hne Hret)
    as (t1' & bs & evs & Hmk' & Hbatch & Hb & Hsnd & _ & _).
  assert (Hposts : posts evs = exchanges net key 0 test_phrases).
  { rewrite Hsnd, advance_trace in Hk. cbn [boot trace app] in Hk.
    by rewrite posts_app, posts_closing_events, app_nil_r in Hk. }
  assert (Hcount : count_true bs = Z.of_nat (length test_phrases)).
  { destruct (batch_counts key _ _ _ Hbatch) as (_ & _ & Hfailed).
    rewrite failed_posts_of_posts, Hposts, exchanges_answered in Hfailed by exact Hnet.
    cbn [length] in Hfailed. lia. }
  assert (Htrue : b = true) by (rewrite Hb; by apply bool_decide_eq_true_2).
  rewrite Htrue in Hret. clear Hb Htrue b. split; [exact Hret|].
  split; [rewrite exit_code_run; by rewrite Hret|].
  split; [exact Hk|]. split.
  - intros i p Hp.
    destruct (returned_files env net t key true Hkey Hne Hret) as (bs' & _ & Hfiles).
    specialize (Hfiles i p Hp).
    destruct (Hnet i (synthesis_request (text p) voice_id key)) as (r & Hr & Hok).
    rewrite Hr in Hfiles |- *. rewrite Hok in Hfiles. exists r. by destruct Hfiles.
  - rewrite Hsnd, advance_fs. cbn [boot fs].
    apply apply_writes_last; [by eapply run_write_paths|].
    apply elem_of_app. right. by left.
Qed.

(** *** The report *)

Lemma printed_app tr1 tr2 : printed (tr1 ++ tr2) = printed tr1 ++ printed tr2.
Proof. unfold printed. apply omap_app. Qed.

Lemma batch_printed key phrases bs evs :
  batch_events key phrases bs evs → Forall2 call_line phrases (printed evs).
Proof.
  induction 1 as [|phrase rest b bs evs evs' Hcall Hrest IH]; [constructor|].
  rewrite printed_app.
  destruct Hcall as [r Hr|reply e He]; cbn [printed omap app]; constructor; try exact IH.
  - by left.
  - right. by exists e.
Qed.

Lemma filter_audio_writes_app tr1 tr2 :
  List.filter is_audio_write (tr1 ++ tr2)
  = List.filter is_audio_write tr1 ++ List.filter is_audio_write tr2.
Proof. apply List.filter_app. Qed.

Lemma closing_events_audio_writes phrases n :
  List.filter is_audio_write (closing_events phrases n) = [].
Proof.
  unfold closing_events. cbn [List.filter is_audio_write].
  by rewrite bool_decide_eq_true_2.
Qed.

(** X11: when [main] returns past the credential check, what it printed
    is one line for each phrase, in the order of the list (the report of
    the file written or the failure with the text of the phrase), then
    the summary and the path of the metadata file.  The count in the
    summary is the number of audio files written in the run, and [main]
    returns [True] exactly when it is the number of phrases. *)
Theorem summary_counts_written_files env net t key b :
  env !! "ELEVENLABS_API_KEY" = Some key → key ≠ EmptyString →
  fst (main (boot env net t)) = Ok b →
  let tr := trace (snd (main (boot env net t))) in
  let written := Z.of_nat (length (List.filter is_audio_write tr)) in
  ∃ lines,
    printed tr = lines ++ [summary_line written test_phrases; saved_line]
    ∧ Forall2 call_line test_phrases lines
    ∧ 0 ≤ written ≤ 5
    ∧ (b = true ↔ written = 5).
Proof.
  intros Hkey Hne Hret tr written.
  destruct (main_returned env net t key b Hkey Hne Hret)
    as (t1 & bs & evs & _ & Hbatch & Hb & Hsnd & _ & _).
  assert (Hwritten : written = count_true bs).
  { unfold written, tr. rewrite Hsnd, advance_trace. cbn [boot trace app].
    rewrite filter_audio_writes_app, closing_events_audio_writes, app_nil_r.
    rewrite (batch_audio_writes key test_phrases bs evs test_phrases_not_metadata Hbatch).
    by destruct (batch_counts key _ _ _ Hbatch) as (_ & -> & _). }
  exists (printed evs). split; [|split; [by eapply batch_printed|split]].
  - unfold tr. rewrite Hsnd, advance_trace. cbn [boot trace app].
    rewrite printed_app, Hwritten. reflexivity.
  - rewrite Hwritten. pose proof (count_true_bounds bs) as Hbound.
    rewrite (batch_flags key _ _ _ Hbatch) in Hbound.
    change (length test_phrases) with 5%nat in Hbound. lia.
  - rewrite Hwritten, Hb. change (Z.of_nat (length test_phrases)) with 5.
    apply bool_decide_eq_true.
Qed.

(** *** What a run leaves alone *)

Lemma only_at_refl ps (t : gmap Path node) : only_at ps t t.
Proof. by repeat split. Qed.

Lemma only_at_trans ps (t1 t2 t3 : gmap Path node) :
  only_at ps t1 t2 → only_at ps t2 t3 → only_at ps t1 t3.
Proof.
  intros (Hf1 & Hk1 & Hd1) (Hf2 & Hk2 & Hd2). split; [|split].
  - intros p Hp. by rewrite Hf2, Hf1.
  - intros p Hp. by apply Hk2, Hk1.
  - intros p Hp. by apply Hd2, Hd1.
Qed.

Lemma only_at_mono ps ps' (t t' : gmap Path node) :
  (∀ p, p ∈ ps → p ∈ ps') → only_at ps t t' → only_at ps' t t'.
Proof.
  intros Hsub (Hf & Hk & Hd). split; [|by split].
  intros p Hp. apply Hf. intros Hin. by apply Hp, Hsub.
Qed.

Lemma only_at_insert ps (t : gmap Path node) p n :
  p ∈ ps → t !! p ≠ Some Dir ∨ n = Dir → only_at ps t (<[p := n]> t).
Proof.
  intros Hin Hfree. split; [|split].
  - intros q Hq. apply lookup_insert_ne. by intros ->.
  - intros q Hq. destruct (decide (p = q)) as [->|Hne].
    + rewrite lookup_insert_eq. by eexists.
    + by rewrite lookup_insert_ne.
  - intros q Hq. destruct (decide (p = q)) as [->|Hne].
    + rewrite lookup_insert_eq. destruct Hfree as [Hfree| ->]; [by destruct Hfree|done].
    + by rewrite lookup_insert_ne.
Qed.

Lemma mkdir_only_at (t t1 : gmap Path node) r :
  mkdir output_dir true true t = (r, t1) → only_at [tests_dir; output_dir] t t1.
Proof.
  intros Hmk. pose proof (mkdir_output_dir_run t) as Hrun.
  assert (H1 : tests_dir ∈ [tests_dir; output_dir]) by (by left).
  assert (H2 : output_dir ∈ [tests_dir; output_dir]) by (right; by left).
  destruct (t !! tests_dir) as [[|c]|] eqn:Ht;
    destruct (t !! output_dir) as [[|c']|] eqn:Ho;
    try (destruct Hrun as (e & Hrun & _));
    rewrite Hrun in Hmk; injection Hmk as _ <-;
    try apply only_at_refl;
    try (apply only_at_insert; [done|by right]).
  apply only_at_trans with (<[tests_dir := Dir]> t);
    (apply only_at_insert; [done|by right]).
Qed.

Lemma call_only_at text vid key path (w : World) :
  only_at [path] (fs w) (fs (snd (generate_audio_with_elevenlabs text vid key path w))).
Proof.
  destruct (call_tree text vid key path w)
    as [(_ & Hfree & r & _ & _ & ->)|[(_ & _ & ->)|(e & _ & _ & ->)]];
    try apply only_at_refl.
  apply only_at_insert; [by left|by left].
Qed.

Lemma loop_only_at key phrases : ∀ s (w : World),
  only_at (audio_path <$> phrases) (fs w)
    (fs (snd (for_each phrases (loop_body key) s w))).
Proof.
  induction phrases as [|phrase rest IH]; intros s w; [apply only_at_refl|].
  rewrite loop_cons.
  pose proof (call_only_at (text phrase) voice_id key (audio_path phrase) w) as Hcall.
  cbn [fmap list_fmap].
  destruct (generate_audio_with_elevenlabs (text phrase) voice_id key
              (audio_path phrase) w) as [[b|e] w1]; cbn [snd] in *.
  - eapply only_at_trans.
    + eapply only_at_mono; [|exact Hcall].
      intros p Hp. apply list_elem_of_singleton in Hp as ->. by left.
    + eapply only_at_mono; [|apply IH]. intros p Hp. by right.
  - eapply only_at_mono; [|exact Hcall].
    intros p Hp. apply list_elem_of_singleton in Hp as ->. by left.
Qed.

Lemma main_only_at env net t :
  only_at (tests_dir :: output_dir :: outputs) t (fs (snd (main (boot env net t)))).
Proof.
  destruct (credential_cases env) as [Hnone|(key & Hkey & Hne)].
  - rewrite main_without_credential by exact Hnone. apply only_at_refl.
  - unfold main. rewrite (main_with_run test_phrases env net t key Hkey Hne).
    destruct (mkdir output_dir true true t) as [[[]|e] t1] eqn:Hmk.
    + assert (Hdir : only_at (tests_dir :: output_dir :: outputs) t t1).
      { eapply only_at_mono; [|by eapply mkdir_only_at].
        intros p [->|[->|Hp%elem_of_nil]%elem_of_cons]%elem_of_cons;
          [by left|right; by left|done]. }
      pose proof (loop_only_at key test_phrases 0 (boot env net t1)) as Hloop.
      fold (generate_all key test_phrases) in Hloop. cbn [boot fs] in Hloop.
      assert (Hloop' : only_at (tests_dir :: output_dir :: outputs) t
                (fs (snd (generate_all key test_phrases (boot env net t1))))).
      { eapply only_at_trans; [exact Hdir|].
        eapply only_at_mono; [|exact Hloop]. intros p Hp. do 3 right. exact Hp. }
      destruct (generate_all key test_phrases (boot env net t1)) as [[n|e] w2];
        cbn [snd] in *; [|exact Hloop'].
      destruct (open_w_cases metadata_path (fs w2)) as [(e & -> & _)|(-> & Hfree & _)];
        [exact Hloop'|].
      cbn [snd]. rewrite advance_fs.
      eapply only_at_trans; [exact Hloop'|].
      cbn [closing_events apply_writes foldl].
      apply only_at_insert; [|by left]. right. right. by left.
    + cbn [snd boot fs]. eapply only_at_mono; [|by eapply mkdir_only_at].
      intros p [->|[->|Hp%elem_of_nil]%elem_of_cons]%elem_of_cons;
        [by left|right; by left|done].
Qed.

(** X12: whatever its outcome, a run changes the tree at the two
    directories it makes and at its six output paths at most: every
    other path is as it was.  Nothing that was there is removed, and a
    directory is never replaced, not even one at an output path. *)
Theorem run_leaves_the_rest_alone env net t :
  let t' := fs (snd (script (boot env net t))) in
  (∀ p, p ≠ tests_dir → p ≠ output_dir → p ∉ outputs → t' !! p = t !! p)
  ∧ (∀ p, is_Some (t !! p) → is_Some (t' !! p))
  ∧ (∀ p, t !! p = Some Dir → t' !! p = Some Dir).
Proof.
  intros t'. unfold t'. rewrite script_fs.
  destruct (main_only_at env net t) as (Hframe & Hkeeps & Hdirs).
  split; [|by split]. intros p H1 H2 H3. apply Hframe.
  intros [->|[->|Hp]%elem_of_cons]%elem_of_cons; done.
Qed.

(** *** A file where the output directory goes *)

Lemma mkdir_file_in_the_way (t : gmap Path node) cls :
  file_in_the_way t = Some cls →
  ∃ msg, mkdir output_dir true true t = (Raise (Exn cls msg), t).
Proof.
  unfold file_in_the_way.
  destruct (t !! tests_dir) as [[|c]|] eqn:Htests;
    destruct (t !! output_dir) as [[|c']|] eqn:Hout; intros [= <-].
  all: run_mkdir.
  all: eexists; reflexivity.
Qed.

(** X13: with a credential, a regular file where the output directory
    goes, or where its parent goes, ends the run before the first
    request: [mkdir] raises (file exists for the directory itself, not
    a directory for its parent), nothing catches it, nothing is printed,
    requested or written, and the process ends with status 1. *)
Theorem file_in_the_way_stops_the_run env net t key cls :
  env !! "ELEVENLABS_API_KEY" = Some key → key ≠ EmptyString →
  file_in_the_way t = Some cls →
  let w := boot env net t in
  (∃ msg, main w = (Raise (Exn cls msg), w))
  ∧ issubclass cls OSError = true
  ∧ trace (snd (script w)) = []
  ∧ fs (snd (script w)) = t
  ∧ exit_code w = 1.
Proof.
  intros Hkey Hne Hway w.
  destruct (mkdir_file_in_the_way t cls Hway) as [msg Hmk].
  assert (Hmain : main w = (Raise (Exn cls msg), w)).
  { unfold main, w. rewrite (main_with_run test_phrases env net t key Hkey Hne).
    by rewrite Hmk. }
  assert (Hos : issubclass cls OSError = true).
  { unfold file_in_the_way in Hway.
    destruct (t !! tests_dir) as [[|c]|]; destruct (t !! output_dir) as [[|c']|];
      try discriminate Hway; by injection Hway as <-. }
  split; [by exists msg|]. split; [exact Hos|].
  rewrite script_trace, script_fs, exit_code_run, Hmain. cbn [fst snd].
  split; [done|]. split; [done|]. exact (oserror_exit_status (Exn cls msg) Hos).
Qed.

(** *** Runs of the properties above *)

Lemma always_ok_answers : answers_all always_ok.
Proof. intros n req. eexists. split; reflexivity. Defined.

Lemma empty_writable : writable ∅.
Proof.
  split; [|split]; intros x; [| |intros _]; rewrite lookup_empty; discriminate.
Defined.

Lemma audio_file_is_response_body_witness :
  let w := boot with_credential (third_answers 500 "Internal Server Error") ∅ in
  fst (main w) = Ok false
  ∧ fs (snd (main w)) !! (output_dir / "konnichiwa.wav")%path
    = Some (File ("RIFF" +:+ pretty 0%nat))
  ∧ fs (snd (main w)) !! audio_path sayounara
    = (∅ : gmap Path node) !! audio_path sayounara.
Proof.
  intros w.
  assert (Hret : fst (main w) = Ok false) by (vm_compute; reflexivity).
  split; [exact Hret|]. split.
  - exact (audio_file_is_response_body with_credential
             (third_answers 500 "Internal Server Error") ∅ "sk-test" false
             with_credential_key sk_test_not_empty Hret 0%nat _ eq_refl).
  - exact (audio_file_is_response_body with_credential
             (third_answers 500 "Internal Server Error") ∅ "sk-test" false
             with_credential_key sk_test_not_empty Hret 2%nat sayounara eq_refl).
Defined.

Lemma answered_run_is_complete_witness :
  let w := boot with_credential always_ok ∅ in
  fst (main w) = Ok true
  ∧ exit_code w = 0
  ∧ fs (snd (main w)) !! metadata_path
    = Some (File (Json.dumps 2 (metadata test_phrases))).
Proof.
  intros w.
  destruct (answered_run_is_complete with_credential always_ok ∅ "sk-test"
              with_credential_key sk_test_not_empty always_ok_answers empty_writable)
    as (Hret & Hexit & _ & _ & Hdoc).
  split; [exact Hret|]. split; [exact Hexit|exact Hdoc].
Defined.

Lemma summary_counts_written_files_witness :
  fst (main (boot with_credential unreachable ∅)) = Ok false
  ∧ ∃ lines,
      printed (trace (snd (main (boot with_credential unreachable ∅))))
      = lines ++ [summary_line 0 test_phrases; saved_line]
      ∧ Forall2 call_line test_phrases lines.
Proof.
  assert (Hret : fst (main (boot with_credential unreachable ∅)) = Ok false)
    by (vm_compute; reflexivity).
  assert (Hnone : Z.of_nat (length (List.filter is_audio_write
                    (trace (snd (main (boot with_credential unreachable ∅)))))) = 0)
    by (vm_compute; reflexivity).
  destruct (summary_counts_written_files with_credential unreachable ∅ "sk-test" false
              with_credential_key sk_test_not_empty Hret)
    as (lines & Hprinted & Hlines & _).
  rewrite Hnone in Hprinted.
  split; [exact Hret|]. exists lines. split; [exact Hprinted|exact Hlines].
Defined.

Lemma file_in_the_way_stops_the_run_witness :
  let w := boot with_credential always_ok file_at_output_dir in
  (∃ msg, main w = (Raise (Exn FileExistsError msg), w))
  ∧ trace (snd (script w)) = []
  ∧ exit_code w = 1.
Proof.
  intros w.
  assert (Hway : file_in_the_way file_at_output_dir = Some FileExistsError)
    by (vm_compute; reflexivity).
  destruct (file_in_the_way_stops_the_run with_credential always_ok file_at_output_dir
              "sk-test" FileExistsError with_credential_key sk_test_not_empty Hway)
    as (Hmain & _ & Htrace & _ & Hexit).
  split; [exact Hmain|]. split; [exact Htrace|exact Hexit].
Defined.

(** *** Running again on the tree of an earlier run, file by file *)

Lemma other_audio_transport_only : transport_only other_audio.
Proof. intros n req cls msg [=]. Defined.

(** C8: on a tree in which the output directory exists and nothing but
    files sit at the output paths, as a complete earlier run leaves it, a
    run with a credential returns whatever the service answers (its
    failures being transport errors): [mkdir] accepts the directory that
    exists, and on a tree without the directories it makes both.  The
    run writes the metadata document, and the audio file of every phrase
    whose request does not fail, with the body of the response; each of
    these files then holds what this run wrote, whatever was at its path
    before, and the file of a phrase whose request failed is the one of
    the earlier run.  The tree is fit for a further run. *)
Theorem rerun_overwrites_without_error env net t key :
  env !! "ELEVENLABS_API_KEY" = Some key → key ≠ EmptyString →
  transport_only net →
  prior_files t →
  let again := main (boot env net t) in
  (∃ t', mkdir output_dir true true t = (Ok (), t') ∧ t' !! output_dir = Some Dir)
  ∧ (∃ b, fst again = Ok b)
  ∧ (∀ p data, EvWrite p data ∈ trace (snd again) → fs (snd again) !! p = Some (File data))
  ∧ prior_files (fs (snd again))
  ∧ (∀ env1 net1 t1,
       fst (main (boot env1 net1 t1)) = Ok true →
       prior_files (fs (snd (main (boot env1 net1 t1)))))
  ∧ (∀ t0 : gmap Path node,
       t0 !! tests_dir = None → t0 !! output_dir = None →
       mkdir output_dir true true t0
       = (Ok (), <[output_dir := Dir]> (<[tests_dir := Dir]> t0)))
  ∧ EvWrite metadata_path (Json.dumps 2 (metadata test_phrases)) ∈ trace (snd again)
  ∧ fs (snd again) !! metadata_path = Some (File (Json.dumps 2 (metadata test_phrases)))
  ∧ (∀ i phrase, test_phrases !! i = Some phrase →
       match net i (synthesis_request (text phrase) voice_id key) with
       | Responds r =>
           if request_failed (Responds r)
           then fs (snd again) !! audio_path phrase = t !! audio_path phrase
           else EvWrite (audio_path phrase) (content r) ∈ trace (snd again)
                ∧ fs (snd again) !! audio_path phrase = Some (File (content r))
       | Fails _ _ => fs (snd again) !! audio_path phrase = t !! audio_path phrase
       end).
Proof.
  intros Hkey Hne Hnet Hprior again.
  destruct (run_on_prior_files env net t key Hkey Hne Hnet Hprior)
    as (b & Hret & Hfiles & Hagain).
  split.
  { destruct (mkdir_existing t (proj1 Hprior)) as [t' Hmk]. exists t'.
    split; [exact Hmk|]. by destruct (mkdir_output_dir_ok _ _ Hmk) as [? _]. }
  split; [by exists b|]. split; [exact Hfiles|]. split; [exact Hagain|].
  split; [exact complete_run_prior_files|].
  split.
  { intros t0 Htests Hout. pose proof (mkdir_output_dir_run t0) as Hcases.
    by rewrite Htests, Hout in Hcases. }
  destruct (main_posts env net t) as (k & Hk & _ & Hall).
  assert (Hcred : truthy (env !! "ELEVENLABS_API_KEY") = true).
  { rewrite Hkey. cbn [truthy]. by rewrite bool_decide_eq_false_2. }
  rewrite (Hall Hcred b Hret), take_ge in Hk by done. rewrite Hkey in Hk. cbn [default] in Hk.
  destruct (main_returned env net t key b Hkey Hne Hret)
    as (t1 & bs & evs & Hmk & Hbatch & _ & Hsnd & _ & _).
  assert (Hdoc : EvWrite metadata_path (Json.dumps 2 (metadata test_phrases))
                   ∈ trace (snd again)).
  { unfold again. rewrite Hsnd, advance_trace. cbn [boot trace app].
    apply elem_of_app. right. by left. }
  split; [exact Hdoc|]. split; [by apply Hfiles|].
  intros i phrase Hphrase.
  assert (Hposts : posts evs = exchanges net key 0 test_phrases).
  { rewrite Hsnd, advance_trace in Hk. cbn [boot trace app] in Hk.
    by rewrite posts_app, posts_closing_events, app_nil_r in Hk. }
  pose proof (batch_exchanges net key _ _ _ Hbatch 0%nat Hposts test_phrases_filenames
                i phrase Hphrase) as Hfile.
  cbn [Nat.add] in Hfile.
  assert (Hin : phrase ∈ test_phrases) by (by eapply list_elem_of_lookup_2).
  assert (Hsame : (∀ data, EvWrite (audio_path phrase) data ∉ evs) →
            fs (snd again) !! audio_path phrase = t !! audio_path phrase).
  { intros Hno. unfold again. rewrite Hsnd, advance_fs. cbn [boot fs].
    rewrite apply_writes_frame.
    - destruct (mkdir_output_dir_ok _ _ Hmk) as [_ Hbelow]. apply Hbelow.
    - intros data [Hw|Hw]%elem_of_app; [by eapply Hno|].
      apply closing_events_writes in Hw. by apply (test_phrases_not_metadata phrase). }
  destruct (net i (synthesis_request (text phrase) voice_id key)) as [r|cls msg];
    [destruct (request_failed (Responds r))|].
  - destruct Hfile as [_ Hno]. by apply Hsame.
  - destruct Hfile as [_ Hw].
    assert (Hw' : EvWrite (audio_path phrase) (content r) ∈ trace (snd again)).
    { unfold again. rewrite Hsnd, advance_trace. cbn [boot trace app].
      apply elem_of_app. by left. }
    split; [exact Hw'|by apply Hfiles].
  - destruct Hfile as [_ Hno]. by apply Hsame.
Qed.

Lemma rerun_overwrites_without_error_witness :
  let first := main (boot with_credential always_ok ∅) in
  let again := main (boot with_credential other_audio (fs (snd first))) in
  fst first = Ok true
  ∧ fs (snd first) !! (output_dir / "konnichiwa.wav")%path
    = Some (File ("RIFF" +:+ pretty 0%nat))
  ∧ prior_files (fs (snd first))
  ∧ (∃ b, fst again = Ok b)
  ∧ fs (snd again) !! (output_dir / "konnichiwa.wav")%path
    = Some (File ("WAVE" +:+ pretty 0%nat))
  ∧ fs (snd again) !! metadata_path = Some (File (Json.dumps 2 (metadata test_phrases)))
  ∧ prior_files (fs (snd again))
  ∧ fs (snd (main (boot with_credential unreachable (fs (snd first)))))
      !! (output_dir / "konnichiwa.wav")%path
    = fs (snd first) !! (output_dir / "konnichiwa.wav")%path.
Proof.
  intros first again.
  assert (Hfirst : fst (main (boot with_credential always_ok ∅)) = Ok true)
    by (vm_compute; reflexivity).
  assert (Hold : fs (snd (main (boot with_credential always_ok ∅)))
                   !! (output_dir / "konnichiwa.wav")%path
                 = Some (File ("RIFF" +:+ pretty 0%nat)))
    by (vm_compute; reflexivity).
  pose proof (complete_run_prior_files _ _ _ Hfirst) as Hprior.
  destruct (rerun_overwrites_without_error with_credential other_audio
              (fs (snd (main (boot with_credential always_ok ∅)))) "sk-test"
              with_credential_key sk_test_not_empty other_audio_transport_only Hprior)
    as (_ & Hret & _ & Hagain & _ & _ & _ & Hdoc & Hnew).
  split; [exact Hfirst|]. split; [exact Hold|]. split; [exact Hprior|].
  split; [exact Hret|].
  split; [exact (proj2 (Hnew 0%nat _ eq_refl))|]. split; [exact Hdoc|].
  split; [exact Hagain|].
  destruct (rerun_overwrites_without_error with_credential unreachable
              (fs (snd (main (boot with_credential always_ok ∅)))) "sk-test"
              with_credential_key sk_test_not_empty unreachable_transport_only Hprior)
    as (_ & _ & _ & _ & _ & _ & _ & _ & Hkept).
  exact (Hkept 0%nat _ eq_refl).
Defined.
